(** * dfusim.usbms: USB Mass Storage (Bulk-Only) transport and SCSI dispatch

    A shallow embedding of [src/dfusim/usbms.py].

    - ctypes structures are described by layouts ([ctype]); a structure
      class carries its byte order ([BigEndianStructure] or
      [LittleEndianStructure]) and every integer field is read and written
      in the byte order of the structure that declares it.
    - Python integers are [Z]; storing into a ctypes integer field of
      width [w] keeps the value modulo [2^(8w)] (ctypes does no overflow
      checking).
    - Exceptions are values of type [exn]; a computation that may raise
      returns a [result]; methods that mutate [self] are state passing
      functions, and the state reached when an exception is raised is kept.
    - The two bulk endpoints are modelled by the trace of the operations
      performed on them. *)

From Stdlib Require Import ZArith String List Bool Lia.
From Stdlib Require Import Strings.Byte.
Import ListNotations.
Local Open Scope string_scope.
Local Open Scope list_scope.
Local Open Scope Z_scope.

(** ** Protocol constants *)

Definition USBMS_CBW_MAGIC : Z := 0x43425355.
Definition USBMS_CSW_MAGIC : Z := 0x53425355.

Definition USBMS_CBW_DIR_MASK : Z := 0x80.
Definition USBMS_CBW_DIR_IN : Z := 0x80.
Definition USBMS_CBW_DIR_OUT : Z := 0x00.

Definition USBMS_CSW_STATUS_GOOD : Z := 0x00.
Definition USBMS_CSW_STATUS_BAD : Z := 0x01.
Definition USBMS_CSW_STATUS_PHASE_ERROR : Z := 0x02.

Definition SCSI_CMD_TEST_UNIT_READY : Z := 0x00.
Definition SCSI_CMD_REQUEST_SENSE : Z := 0x03.
Definition SCSI_CMD_INQUIRY : Z := 0x12.
Definition SCSI_CMD_MODE_SENSE6 : Z := 0x1a.
Definition SCSI_CMD_START_STOP_UNIT : Z := 0x1b.
Definition SCSI_CMD_PREVENT_ALLOW_MEDIUM_REMOVAL : Z := 0x1e.
Definition SCSI_CMD_READ_FORMAT_CAPACITY : Z := 0x23.
Definition SCSI_CMD_READ_CAPACITY10 : Z := 0x25.
Definition SCSI_CMD_READ10 : Z := 0x28.
Definition SCSI_CMD_WRITE10 : Z := 0x2a.
Definition SCSI_CMD_VERIFY10 : Z := 0x2f.
Definition SCSI_CMD_MODE_SENSE10 : Z := 0x5a.

Definition SCSI_REQUEST_SENSE_F0_ERROR_CODE_MASK : Z := 0x7f.
Definition SCSI_REQUEST_SENSE_F0_VALID_MASK : Z := 0x80.
Definition SCSI_ERROR_CODE_CURRENT : Z := 0x70.
Definition SCSI_ERROR_CODE_DEFERRED : Z := 0x71.

Definition SCSI_REQUEST_SENSE_F2_SENSE_KEY_MASK : Z := 0x0f.
Definition SCSI_SENSE_KEY_NO_SENSE : Z := 0x0.
Definition SCSI_SENSE_KEY_NOT_READY : Z := 0x2.
Definition SCSI_SENSE_KEY_ILLEGAL_REQUEST : Z := 0x5.

Definition SCSI_ASC_NONE : Z := 0x00.
Definition SCSI_ASC_LUN_NOT_READY : Z := 0x0400.
Definition SCSI_ASC_INVALID_FIELD_IN_CDB : Z := 0x2400.
Definition SCSI_ASC_LUN_NOT_SUPPORTED : Z := 0x2500.

Definition SCSI_INQUIRY_HEADER_F1_RMB : Z := 0x80.
Definition SCSI_INQUIRY_HEADER_FORMAT_SPC2 : Z := 0x02.
Definition SCSI_INQUIRY_HEADER_VERSION_SPC2 : Z := 0x4.
Definition SCSI_INQUIRY_PERIF_QUALIFIER_LOADED : Z := Z.shiftl 0 5.
Definition SCSI_INQUIRY_PERIF_TYPE_DIRECT : Z := 0x00.

Definition SCSI_VERIFY_F1_BYTCHK : Z := 0x02.

(** [errno.ESHUTDOWN] on Linux. *)
Definition ESHUTDOWN : Z := 108.

(** ** Bytes and byte order *)

Definition bytes := list byte.

Definition Z_of_byte (b : byte) : Z := Z.of_N (Byte.to_N b).

Definition byte_of_Z (z : Z) : byte :=
  match Byte.of_N (Z.to_N (z mod 256)) with
  | Some b => b
  | None => x00
  end.

(** Least significant byte first. *)
Fixpoint le_decode (bs : bytes) : Z :=
  match bs with
  | [] => 0
  | b :: r => Z_of_byte b + 256 * le_decode r
  end.

Fixpoint le_encode (w : nat) (v : Z) : bytes :=
  match w with
  | O => []
  | S w' => byte_of_Z v :: le_encode w' (v / 256)
  end.

(** Most significant byte first. *)
Definition be_decode (bs : bytes) : Z :=
  fold_left (fun acc b => acc * 256 + Z_of_byte b) bs 0.

Definition be_encode (w : nat) (v : Z) : bytes := rev (le_encode w v).

Inductive Endian := BigEndian | LittleEndian.

Definition decode_int (e : Endian) (bs : bytes) : Z :=
  match e with
  | BigEndian => be_decode bs
  | LittleEndian => le_decode bs
  end.

Definition encode_int (e : Endian) (w : nat) (v : Z) : bytes :=
  match e with
  | BigEndian => be_encode w v
  | LittleEndian => le_encode w v
  end.

(** [buf[off : off + len]], zero filled when the buffer is too short (the
    callers check the buffer size first, as [from_buffer] does). *)
Definition slice (off len : nat) (buf : bytes) : bytes :=
  firstn len (skipn off buf ++ repeat x00 len).

(** [ctypes.memmove(dst, src, len(src))] on a [dst] array at least as long
    as [src]. *)
Definition memmove (dst src : bytes) : bytes :=
  src ++ skipn (length src) dst.

(** ** ctypes layouts *)

(** The field types used by the module: [u8], [le16] and [le32] are the
    integer types of [functionfs.common] (the ctypes unsigned integers of
    1, 2 and 4 bytes), [u8 * n] is a byte array, and a structure may be
    nested in another one. *)
#[warnings="-register-all"]
Inductive ctype :=
| c_int (width : nat)
| c_array (len : nat)
| c_struct (name : string) (e : Endian) (fields : list (string * ctype)).

Definition u8 : ctype := c_int 1.
Definition le16 : ctype := c_int 2.
Definition le32 : ctype := c_int 4.

(** [ctypes.sizeof], with [_pack_ = 1]. *)
Fixpoint sizeof (t : ctype) : nat :=
  match t with
  | c_int w => w
  | c_array n => n
  | c_struct _ _ fs =>
      (fix total (l : list (string * ctype)) : nat :=
         match l with
         | [] => O
         | (_, t') :: r => (sizeof t' + total r)%nat
         end) fs
  end.

Definition struct_name (t : ctype) : string :=
  match t with
  | c_struct n _ _ => n
  | _ => ""
  end.

Definition struct_endian (t : ctype) : Endian :=
  match t with
  | c_struct _ e _ => e
  | _ => LittleEndian
  end.

Definition struct_fields (t : ctype) : list (string * ctype) :=
  match t with
  | c_struct _ _ fs => fs
  | _ => []
  end.

(** Offset and type of a field of a field list. *)
Fixpoint field_lookup_from (off : nat) (fs : list (string * ctype))
  (name : string) : option (nat * ctype) :=
  match fs with
  | [] => None
  | (n, t) :: r =>
      if String.eqb n name then Some (off, t)
      else field_lookup_from (off + sizeof t)%nat r name
  end.

Definition field_lookup (s : ctype) (name : string) : option (nat * ctype) :=
  field_lookup_from O (struct_fields s) name.

(** Reading the integer field [name] of a structure of class [s] laid over
    [buf]: the bytes of the field, in the byte order of [s]. *)
Definition field_get (s : ctype) (name : string) (buf : bytes) : Z :=
  match field_lookup s name with
  | Some (off, c_int w) => decode_int (struct_endian s) (slice off w buf)
  | _ => 0
  end.

(** Reading an array or nested structure field: its bytes. *)
Definition field_bytes (s : ctype) (name : string) (buf : bytes) : bytes :=
  match field_lookup s name with
  | Some (off, t) => slice off (sizeof t) buf
  | None => []
  end.

(** The bytes stored for an integer field of a structure of class [s]. *)
Definition field_put (s : ctype) (name : string) (v : Z) : bytes :=
  match field_lookup s name with
  | Some (_, c_int w) => encode_int (struct_endian s) w v
  | _ => []
  end.

(** [isinstance(params, cls)] for the structure classes of the module,
    none of which derives from another. *)
Definition isinstance (params cls : ctype) : bool :=
  String.eqb (struct_name params) (struct_name cls).

(** ** SCSI parameter blocks *)

Definition SCSIParametersVoid6 : ctype :=
  c_struct "SCSIParametersVoid6" BigEndian
    [("_reserved", c_array 4); ("control", u8)].

Definition SCSIParametersTestUnitReady : ctype := SCSIParametersVoid6.

Definition SCSIParametersRequestSense : ctype :=
  c_struct "SCSIParametersRequestSense" BigEndian
    [("flags", u8); ("_reserved", c_array 2); ("allocation_length", u8);
     ("control", u8)].

Definition SCSIParametersInquiry : ctype :=
  c_struct "SCSIParametersInquiry" BigEndian
    [("flags", u8); ("page_code", u8); ("allocation_length", le16);
     ("control", u8)].

Definition SCSIParametersModeSense6 : ctype :=
  c_struct "SCSIParametersModeSense6" BigEndian
    [("flags", u8); ("page", u8); ("subpage_code", u8);
     ("allocation_length", u8); ("control", u8)].

Definition SCSIParametersStartStopUnit : ctype :=
  c_struct "SCSIParametersStartStopUnit" BigEndian
    [("flags1", u8); ("_reserved", c_array 2); ("flags2", u8);
     ("control", u8)].

Definition SCSIParametersPreventAllowMediumRemoval : ctype :=
  c_struct "SCSIParametersPreventAllowMediumRemoval" BigEndian
    [("_reserved", c_array 3); ("flags", u8); ("control", u8)].

Definition SCSIParametersReadCapacity10 : ctype :=
  c_struct "SCSIParametersReadCapacity10" BigEndian
    [("flags1", u8); ("lba", le32); ("_reserved", c_array 2);
     ("flags2", u8); ("control", u8)].

Definition SCSIParametersIO10 : ctype :=
  c_struct "SCSIParametersIO10" BigEndian
    [("flags", u8); ("lba", le32); ("group_number", u8);
     ("transfer_length", le16); ("control", u8)].

Definition SCSIParametersRead10 : ctype := SCSIParametersIO10.
Definition SCSIParametersWrite10 : ctype := SCSIParametersIO10.

Definition SCSIParametersVerify10 : ctype :=
  c_struct "SCSIParametersVerify10" BigEndian
    [("flags1", u8); ("lba", le32); ("flags2", u8);
     ("verification_length", le16); ("control", u8)].

Definition SCSIParametersModeSense10 : ctype :=
  c_struct "SCSIParametersModeSense10" BigEndian
    [("flags", u8); ("page", u8); ("_reserved", c_array 4);
     ("allocation_length", le16); ("control", u8)].

(** ** SCSI response structures *)

Definition SCSIRequestSenseExt_t : ctype :=
  c_struct "SCSIRequestSenseExt" BigEndian
    [("command_specific_information", le32); ("asc_ascq", le16);
     ("field_replaceable_unit_code", u8); ("sense_key_specific_0", u8);
     ("sense_key_specific_1", u8); ("sense_key_specific_2", u8)].

Definition SCSIRequestSenseHeader_t : ctype :=
  c_struct "SCSIRequestSenseHeader" BigEndian
    [("field_0", u8); ("_obsolete", u8); ("field_2", u8);
     ("information", le32); ("additional_sense_length", u8)].

Definition SCSIResponseRequestSense_t : ctype :=
  c_struct "SCSIResponseRequestSense" BigEndian
    [("header", SCSIRequestSenseHeader_t); ("ext", SCSIRequestSenseExt_t)].

Definition SCSIResponseInquiryHeader_t : ctype :=
  c_struct "SCSIResponseInquiryHeader" BigEndian
    [("peripheral_type", u8); ("field_1", u8); ("version", u8);
     ("field_3", u8); ("additional_length", u8)].

Definition SCSIResponseInquiryFeatures_t : ctype :=
  c_struct "SCSIResponseInquiryFeatures" BigEndian
    [("field_0", u8); ("flags", le16); ("vendor_id", c_array 8);
     ("product_id", c_array 16); ("product_revision", c_array 4)].

Definition SCSIResponseInquiry_t : ctype :=
  c_struct "SCSIResponseInquiry" BigEndian
    [("header", SCSIResponseInquiryHeader_t);
     ("features", SCSIResponseInquiryFeatures_t)].

Definition SCSIResponseModeSense6Header_t : ctype :=
  c_struct "SCSIResponseModeSense6Header" BigEndian
    [("mode_data_length", u8); ("medium_type", u8);
     ("device_specific_params", u8); ("block_descriptor_length", u8)].

Definition SCSIResponseModeSense10Header_t : ctype :=
  c_struct "SCSIResponseModeSense10Header" BigEndian
    [("mode_data_length", le16); ("medium_type", u8);
     ("device_specific_params", u8); ("flags", u8); ("_reserved", u8);
     ("block_descriptor_length", le16)].

(** ** Bulk-only wrappers *)

Definition SCSICommandBuffer_t : ctype :=
  c_struct "SCSICommandBuffer" LittleEndian
    [("command", u8); ("parameters", c_array 15)].

Definition CBW_t : ctype :=
  c_struct "CBW" LittleEndian
    [("dCBWSignature", le32); ("dCBWTag", le32);
     ("dCBWDataTransferLength", le32); ("bmCBWFlags", u8); ("bCBWLUN", u8);
     ("bCBWCBLength", u8); ("CBWCB", SCSICommandBuffer_t)].

Definition CSW_t : ctype :=
  c_struct "CSW" LittleEndian
    [("dCSWSignature", le32); ("dCSWTag", le32); ("dCSWDataResidue", le32);
     ("bCSWStatus", u8)].

(** The structure classes that describe SCSI parameter blocks and SCSI
    responses, and the two classes of the bulk-only transport. *)
Definition scsi_structures : list ctype :=
  [SCSIParametersVoid6; SCSIParametersRequestSense; SCSIParametersInquiry;
   SCSIParametersModeSense6; SCSIParametersStartStopUnit;
   SCSIParametersPreventAllowMediumRemoval; SCSIParametersReadCapacity10;
   SCSIParametersIO10; SCSIParametersVerify10; SCSIParametersModeSense10;
   SCSIRequestSenseExt_t; SCSIRequestSenseHeader_t;
   SCSIResponseRequestSense_t; SCSIResponseInquiryHeader_t;
   SCSIResponseInquiryFeatures_t; SCSIResponseInquiry_t;
   SCSIResponseModeSense6Header_t; SCSIResponseModeSense10Header_t].

Definition wrapper_structures : list ctype := [CBW_t; CSW_t].

(** ** SCSI command table *)

(** [SCSICommandBuffer._PARSERS]. *)
Definition _PARSERS : list (Z * ctype) :=
  [(SCSI_CMD_TEST_UNIT_READY, SCSIParametersTestUnitReady);
   (SCSI_CMD_REQUEST_SENSE, SCSIParametersRequestSense);
   (SCSI_CMD_INQUIRY, SCSIParametersInquiry);
   (SCSI_CMD_MODE_SENSE6, SCSIParametersModeSense6);
   (SCSI_CMD_START_STOP_UNIT, SCSIParametersStartStopUnit);
   (SCSI_CMD_PREVENT_ALLOW_MEDIUM_REMOVAL,
    SCSIParametersPreventAllowMediumRemoval);
   (SCSI_CMD_READ_CAPACITY10, SCSIParametersReadCapacity10);
   (SCSI_CMD_READ10, SCSIParametersIO10);
   (SCSI_CMD_WRITE10, SCSIParametersIO10);
   (SCSI_CMD_VERIFY10, SCSIParametersVerify10);
   (SCSI_CMD_MODE_SENSE10, SCSIParametersModeSense10)].

(** [dict.get]. *)
Fixpoint dict_get {A : Type} (d : list (Z * A)) (k : Z) : option A :=
  match d with
  | [] => None
  | (k', v) :: r => if Z.eqb k' k then Some v else dict_get r k
  end.

Record SCSICommandBuffer := {
  command : Z;
  parameters : bytes;
  _cdb_size_override : option Z
}.

Definition cdb_size (cb : SCSICommandBuffer) : Z :=
  match _cdb_size_override cb with
  | Some size => size
  | None =>
      if (0x00 <=? command cb) && (command cb <=? 0x1f) then 6
      else if (0x20 <=? command cb) && (command cb <=? 0x5f) then 10
      else if (0x80 <=? command cb) && (command cb <=? 0x9f) then 16
      else if (0xa0 <=? command cb) && (command cb <=? 0xbf) then 12
      else 0
  end.

Definition parseable (cb : SCSICommandBuffer) : bool :=
  match dict_get _PARSERS (command cb) with
  | Some _ => true
  | None => false
  end.

(** Storing a Python integer into a ctypes integer field of [w] bytes. *)
Definition c_store (w : nat) (v : Z) : Z := v mod 2 ^ (8 * Z.of_nat w).

(** [cls.name.size] of a field descriptor. *)
Definition field_size (s : ctype) (name : string) : nat :=
  match field_lookup s name with
  | Some (_, t) => sizeof t
  | None => O
  end.

(** ** Request Sense response *)

Module SCSIResponseRequestSense.

Record Header := {
  field_0 : Z;
  _obsolete : Z;
  field_2 : Z;
  information : Z;
  additional_sense_length : Z
}.

Record Ext := {
  command_specific_information : Z;
  asc_ascq : Z;
  field_replaceable_unit_code : Z;
  sense_key_specific_0 : Z;
  sense_key_specific_1 : Z;
  sense_key_specific_2 : Z
}.

Record t := { header : Header; ext : Ext }.

(** [cls()]: a zero filled structure. *)
Definition new : t :=
  {| header := {| field_0 := 0; _obsolete := 0; field_2 := 0;
                  information := 0; additional_sense_length := 0 |};
     ext := {| command_specific_information := 0; asc_ascq := 0;
               field_replaceable_unit_code := 0; sense_key_specific_0 := 0;
               sense_key_specific_1 := 0; sense_key_specific_2 := 0 |} |}.

Definition set_field_0 (v : Z) (r : t) : t :=
  {| header := {| field_0 := c_store 1 v;
                  _obsolete := _obsolete (header r);
                  field_2 := field_2 (header r);
                  information := information (header r);
                  additional_sense_length :=
                    additional_sense_length (header r) |};
     ext := ext r |}.

Definition set_field_2 (v : Z) (r : t) : t :=
  {| header := {| field_0 := field_0 (header r);
                  _obsolete := _obsolete (header r);
                  field_2 := c_store 1 v;
                  information := information (header r);
                  additional_sense_length :=
                    additional_sense_length (header r) |};
     ext := ext r |}.

Definition set_additional_sense_length (v : Z) (r : t) : t :=
  {| header := {| field_0 := field_0 (header r);
                  _obsolete := _obsolete (header r);
                  field_2 := field_2 (header r);
                  information := information (header r);
                  additional_sense_length := c_store 1 v |};
     ext := ext r |}.

Definition set_asc_ascq (v : Z) (r : t) : t :=
  {| header := header r;
     ext := {| command_specific_information :=
                 command_specific_information (ext r);
               asc_ascq := c_store 2 v;
               field_replaceable_unit_code :=
                 field_replaceable_unit_code (ext r);
               sense_key_specific_0 := sense_key_specific_0 (ext r);
               sense_key_specific_1 := sense_key_specific_1 (ext r);
               sense_key_specific_2 := sense_key_specific_2 (ext r) |} |}.

Definition error_code (r : t) : Z :=
  Z.land (field_0 (header r)) SCSI_REQUEST_SENSE_F0_ERROR_CODE_MASK.

Definition set_error_code (val : Z) (r : t) : t :=
  let r1 :=
    set_field_0
      (Z.land (field_0 (header r))
         (Z.land (Z.lnot SCSI_REQUEST_SENSE_F0_ERROR_CODE_MASK) 0xff)) r in
  set_field_0
    (Z.lor (field_0 (header r1))
       (Z.land val SCSI_REQUEST_SENSE_F0_ERROR_CODE_MASK)) r1.

Definition sense_key (r : t) : Z :=
  Z.land (field_2 (header r)) SCSI_REQUEST_SENSE_F2_SENSE_KEY_MASK.

Definition set_sense_key (val : Z) (r : t) : t :=
  let r1 :=
    set_field_2
      (Z.land (field_2 (header r))
         (Z.land (Z.lnot SCSI_REQUEST_SENSE_F2_SENSE_KEY_MASK) 0xff)) r in
  set_field_2
    (Z.lor (field_2 (header r1))
       (Z.land val SCSI_REQUEST_SENSE_F2_SENSE_KEY_MASK)) r1.

Definition simple (sense_key asc_ascq : Z) : t :=
  let result := new in
  let result :=
    set_additional_sense_length
      (Z.of_nat (sizeof SCSIRequestSenseExt_t)) result in
  let result := set_error_code SCSI_ERROR_CODE_CURRENT result in
  let result := set_sense_key sense_key result in
  let result := set_asc_ascq asc_ascq result in
  result.

(** The bytes of the structure, as written on an endpoint. *)
Definition to_bytes (r : t) : bytes :=
  let h := SCSIRequestSenseHeader_t in
  let e := SCSIRequestSenseExt_t in
  field_put h "field_0" (field_0 (header r))
  ++ field_put h "_obsolete" (_obsolete (header r))
  ++ field_put h "field_2" (field_2 (header r))
  ++ field_put h "information" (information (header r))
  ++ field_put h "additional_sense_length"
       (additional_sense_length (header r))
  ++ field_put e "command_specific_information"
       (command_specific_information (ext r))
  ++ field_put e "asc_ascq" (asc_ascq (ext r))
  ++ field_put e "field_replaceable_unit_code"
       (field_replaceable_unit_code (ext r))
  ++ field_put e "sense_key_specific_0" (sense_key_specific_0 (ext r))
  ++ field_put e "sense_key_specific_1" (sense_key_specific_1 (ext r))
  ++ field_put e "sense_key_specific_2" (sense_key_specific_2 (ext r)).

End SCSIResponseRequestSense.

(** ** Exceptions *)

(** [MassStorageError] carries a CSW status and an optional sense; the other
    constructors are the exceptions that are not mass storage errors (all of
    them derive from [Exception]). *)
Inductive exn :=
| MassStorageError (csw_status : Z)
    (sense : option SCSIResponseRequestSense.t)
| ValueError
| TypeError
| IndexError
| AttributeError
| OverflowError
| IOError (code : Z)
| OtherException (what : string).

Inductive result (A : Type) :=
| Ok (a : A)
| Raise (e : exn).
Arguments Ok {A} a.
Arguments Raise {A} e.

Definition MassStoragePhaseError : exn :=
  MassStorageError USBMS_CSW_STATUS_PHASE_ERROR None.

(** Instantiating [MassStorageIllegalRequestError] raises, from its
    [__init__], a [MassStorageError] with the bad status and an Illegal
    Request sense. *)
Definition MassStorageIllegalRequestError (details : Z) : exn :=
  MassStorageError USBMS_CSW_STATUS_BAD
    (Some (SCSIResponseRequestSense.simple
             SCSI_SENSE_KEY_ILLEGAL_REQUEST details)).

Definition MassStorageNotReadyError (details : Z) : exn :=
  MassStorageError USBMS_CSW_STATUS_BAD
    (Some (SCSIResponseRequestSense.simple
             SCSI_SENSE_KEY_NOT_READY details)).

(** ** Inquiry response *)

Module SCSIResponseInquiry.

Record Header := {
  peripheral_type : Z;
  field_1 : Z;
  version : Z;
  field_3 : Z;
  additional_length : Z
}.

Record Features := {
  field_0 : Z;
  flags : Z;
  vendor_id : bytes;
  product_id : bytes;
  product_revision : bytes
}.

Record t := { header : Header; features : Features }.

Definition simple (peripheral_type : Z) (is_removable : bool)
  (vendor product revision : bytes) : result t :=
  let f := SCSIResponseInquiryFeatures_t in
  if (field_size f "vendor_id" <? length vendor)%nat then
    Raise ValueError
  else if (field_size f "product_id" <? length product)%nat then
    Raise ValueError
  else if (field_size f "product_revision" <? length revision)%nat then
    Raise ValueError
  else
    Ok {| header :=
            {| peripheral_type := c_store 1 peripheral_type;
               field_1 := c_store 1 (if is_removable
                                     then SCSI_INQUIRY_HEADER_F1_RMB
                                     else 0);
               version := c_store 1 SCSI_INQUIRY_HEADER_VERSION_SPC2;
               field_3 := c_store 1 SCSI_INQUIRY_HEADER_FORMAT_SPC2;
               additional_length :=
                 c_store 1 (Z.of_nat (sizeof f)) |};
          features :=
            {| field_0 := 0;
               flags := 0;
               vendor_id :=
                 memmove (repeat x00 (field_size f "vendor_id")) vendor;
               product_id :=
                 memmove (repeat x00 (field_size f "product_id")) product;
               product_revision :=
                 memmove (repeat x00 (field_size f "product_revision"))
                   revision |} |}.

Definition to_bytes (r : t) : bytes :=
  let h := SCSIResponseInquiryHeader_t in
  let f := SCSIResponseInquiryFeatures_t in
  field_put h "peripheral_type" (peripheral_type (header r))
  ++ field_put h "field_1" (field_1 (header r))
  ++ field_put h "version" (version (header r))
  ++ field_put h "field_3" (field_3 (header r))
  ++ field_put h "additional_length" (additional_length (header r))
  ++ field_put f "field_0" (field_0 (features r))
  ++ field_put f "flags" (flags (features r))
  ++ vendor_id (features r)
  ++ product_id (features r)
  ++ product_revision (features r).

End SCSIResponseInquiry.

(** ** Mode Sense(6) response header *)

Module SCSIResponseModeSense6Header.

Record t := {
  mode_data_length : Z;
  medium_type : Z;
  device_specific_params : Z;
  block_descriptor_length : Z
}.

(** [cls(mode_data_length=v)]: the other fields are zero. *)
Definition new (v : Z) : t :=
  {| mode_data_length := c_store 1 v; medium_type := 0;
     device_specific_params := 0; block_descriptor_length := 0 |}.

Definition to_bytes (r : t) : bytes :=
  let h := SCSIResponseModeSense6Header_t in
  field_put h "mode_data_length" (mode_data_length r)
  ++ field_put h "medium_type" (medium_type r)
  ++ field_put h "device_specific_params" (device_specific_params r)
  ++ field_put h "block_descriptor_length" (block_descriptor_length r).

End SCSIResponseModeSense6Header.

(** What a command handler returns, when it is not [None]. *)
Inductive Response :=
| RespRequestSense (s : SCSIResponseRequestSense.t)
| RespModeSense6 (h : SCSIResponseModeSense6Header.t)
| RespInquiry (i : SCSIResponseInquiry.t)
| RespBytes (b : bytes).

Definition Response_to_bytes (r : Response) : bytes :=
  match r with
  | RespRequestSense s => SCSIResponseRequestSense.to_bytes s
  | RespModeSense6 h => SCSIResponseModeSense6Header.to_bytes h
  | RespInquiry i => SCSIResponseInquiry.to_bytes i
  | RespBytes b => b
  end.

(** ** State and exception passing *)

(** A method of an object of state [S]: it returns the state it leaves
    behind together with its value or the exception it raised. *)
Definition SE (S A : Type) : Type := S -> S * result A.

Definition ret {S A} (a : A) : SE S A := fun s => (s, Ok a).

Definition raise {S A} (e : exn) : SE S A := fun s => (s, Raise e).

Definition bind {S A C} (m : SE S A) (k : A -> SE S C) : SE S C :=
  fun s =>
    match m s with
    | (s', Ok a) => k a s'
    | (s', Raise e) => (s', Raise e)
    end.

Definition lift {S A} (r : result A) : SE S A := fun s => (s, r).

Definition get {S} : SE S S := fun s => (s, Ok s).

Definition modify {S} (f : S -> S) : SE S unit := fun s => (f s, Ok tt).

(** [try: m except Exception as e: h e]. *)
Definition try_except {S A} (m : SE S A) (h : exn -> SE S A) : SE S A :=
  fun s =>
    match m s with
    | (s', Ok a) => (s', Ok a)
    | (s', Raise e) => h e s'
    end.

Declare Scope se_scope.
Delimit Scope se_scope with se.
Notation "x <- m ;; k" := (bind m (fun x => k))
  (at level 61, m at next level, right associativity) : se_scope.
Notation "m ;; k" := (bind m (fun _ => k))
  (at level 61, right associativity) : se_scope.
Local Open Scope se_scope.

(** A ctypes structure of class [view_class] laid over [view_buffer]. *)
Record view := { view_class : ctype; view_buffer : bytes }.

(** [cls.from_buffer(buf)]: the buffer must hold the whole structure. *)
Definition from_buffer (cls : ctype) (buf : bytes) : result view :=
  if (length buf <? sizeof cls)%nat then Raise ValueError
  else Ok {| view_class := cls; view_buffer := buf |}.

(** [params.name] *)
Definition getfield (params : view) (name : string) : Z :=
  field_get (view_class params) name (view_buffer params).

(** [SCSICommandBuffer.cast] *)
Definition cast (cb : SCSICommandBuffer) (to : option ctype) : result view :=
  match to with
  | Some cls => from_buffer cls (parameters cb)
  | None =>
      match dict_get _PARSERS (command cb) with
      | None => Raise TypeError
      | Some parser => from_buffer parser (parameters cb)
      end
  end.

Module CBW.

Record t := {
  dCBWSignature : Z;
  dCBWTag : Z;
  dCBWDataTransferLength : Z;
  bmCBWFlags : Z;
  bCBWLUN : Z;
  bCBWCBLength : Z;
  CBWCB : SCSICommandBuffer
}.

Definition from_buffer (data : bytes) : result t :=
  if (length data <? sizeof CBW_t)%nat then Raise ValueError
  else
    let cb := field_bytes CBW_t "CBWCB" data in
    Ok {| dCBWSignature := field_get CBW_t "dCBWSignature" data;
          dCBWTag := field_get CBW_t "dCBWTag" data;
          dCBWDataTransferLength :=
            field_get CBW_t "dCBWDataTransferLength" data;
          bmCBWFlags := field_get CBW_t "bmCBWFlags" data;
          bCBWLUN := field_get CBW_t "bCBWLUN" data;
          bCBWCBLength := field_get CBW_t "bCBWCBLength" data;
          CBWCB :=
            {| command := field_get SCSICommandBuffer_t "command" cb;
               parameters :=
                 field_bytes SCSICommandBuffer_t "parameters" cb;
               _cdb_size_override := None |} |}.

Definition from_buffer_copy (data : bytes) : result t := from_buffer data.

(** The 31 bytes of the record, as the host sends them. *)
Definition to_bytes (c : t) : bytes :=
  field_put CBW_t "dCBWSignature" (dCBWSignature c)
  ++ field_put CBW_t "dCBWTag" (dCBWTag c)
  ++ field_put CBW_t "dCBWDataTransferLength" (dCBWDataTransferLength c)
  ++ field_put CBW_t "bmCBWFlags" (bmCBWFlags c)
  ++ field_put CBW_t "bCBWLUN" (bCBWLUN c)
  ++ field_put CBW_t "bCBWCBLength" (bCBWCBLength c)
  ++ field_put SCSICommandBuffer_t "command" (command (CBWCB c))
  ++ slice 0 (field_size SCSICommandBuffer_t "parameters")
       (parameters (CBWCB c)).

End CBW.

Module CSW.

Record t := {
  dCSWSignature : Z;
  dCSWTag : Z;
  dCSWDataResidue : Z;
  bCSWStatus : Z
}.

Definition simple (tag status data_residue : Z) : t :=
  {| dCSWSignature := c_store 4 USBMS_CSW_MAGIC;
     dCSWTag := c_store 4 tag;
     dCSWDataResidue := c_store 4 data_residue;
     bCSWStatus := c_store 1 status |}.

(** The 13 bytes of the record, as written on the IN endpoint. *)
Definition to_bytes (c : t) : bytes :=
  field_put CSW_t "dCSWSignature" (dCSWSignature c)
  ++ field_put CSW_t "dCSWTag" (dCSWTag c)
  ++ field_put CSW_t "dCSWDataResidue" (dCSWDataResidue c)
  ++ field_put CSW_t "bCSWStatus" (bCSWStatus c).

Definition from_buffer (data : bytes) : result t :=
  if (length data <? sizeof CSW_t)%nat then Raise ValueError
  else
    Ok {| dCSWSignature := field_get CSW_t "dCSWSignature" data;
          dCSWTag := field_get CSW_t "dCSWTag" data;
          dCSWDataResidue := field_get CSW_t "dCSWDataResidue" data;
          bCSWStatus := field_get CSW_t "bCSWStatus" data |}.

End CSW.

(** [int.to_bytes(length, 'big')] *)
Definition int_to_bytes_big (v : Z) (len : nat) : result bytes :=
  if (0 <=? v) && (v <? 2 ^ (8 * Z.of_nat len)) then Ok (be_encode len v)
  else Raise OverflowError.

(** [l[n] = x] on a list, for [n] within the list. *)
Definition list_update {A : Type} (n : nat) (x : A) (l : list A) : list A :=
  firstn n l ++ x :: skipn (S n) l.

(** ** Logical units *)

Section LogicalUnits.

(** The state a backend keeps besides the pending sense. *)
Context {B : Type}.

(** The methods of [MassStorageLogicalUnit] that a subclass overrides.
    Each one receives the backend state and returns the state it leaves
    together with its value or the exception it raised. *)
Record LogicalUnitClass := {
  onReset : B -> B * result unit;
  onTestUnitReady : B -> B * result unit;
  onInquiry : Z -> B -> B * result SCSIResponseInquiry.t;
  onReadCapacity : B -> B * result (Z * Z);
  onRead : Z -> Z -> B -> B * result bytes;
  onWrite : Z -> bytes -> B -> B * result unit;
  onVerify : Z -> option bytes -> B -> B * result unit
}.

(** An instance initialised by [MassStorageLogicalUnit.__init__]: its
    class, its [sense] attribute and the rest of its state. *)
Record LogicalUnit := {
  lu_class : LogicalUnitClass;
  sense : option SCSIResponseRequestSense.t;
  backend : B
}.

Definition LogicalUnit_init (cls : LogicalUnitClass) (b : B) : LogicalUnit :=
  {| lu_class := cls; sense := None; backend := b |}.

Definition set_sense (v : option SCSIResponseRequestSense.t)
  (lu : LogicalUnit) : LogicalUnit :=
  {| lu_class := lu_class lu; sense := v; backend := backend lu |}.

(** Calling an overridable method on [self]. *)
Definition call {A} (m : LogicalUnitClass -> B -> B * result A)
  : SE LogicalUnit A :=
  fun lu =>
    let (b', r) := m (lu_class lu) (backend lu) in
    ({| lu_class := lu_class lu; sense := sense lu; backend := b' |}, r).

(** The default methods of [MassStorageLogicalUnit]. *)
Definition default_onInquiry (request_size : Z)
  : result SCSIResponseInquiry.t :=
  if Z.of_nat (sizeof SCSIResponseInquiry_t) <=? request_size then
    SCSIResponseInquiry.simple
      (Z.lor SCSI_INQUIRY_PERIF_QUALIFIER_LOADED
         SCSI_INQUIRY_PERIF_TYPE_DIRECT)
      true
      [x50; x79; x46; x46; x53]   (* b'PyFFS' *)
      [x55; x53; x42; x4d; x53]   (* b'USBMS' *)
      [x30; x30; x30; x30]        (* b'0000' *)
  else Raise (MassStorageIllegalRequestError SCSI_ASC_INVALID_FIELD_IN_CDB).

Definition MassStorageLogicalUnit : LogicalUnitClass :=
  {| onReset := fun b => (b, Ok tt);
     onTestUnitReady := fun b => (b, Ok tt);
     onInquiry := fun request_size b => (b, default_onInquiry request_size);
     onReadCapacity := fun b => (b, Ok (0, 512));
     onRead := fun lba length b =>
                 (b, Ok (repeat x00 (Z.to_nat length * 512)));
     onWrite := fun lba data b => (b, Ok tt);
     onVerify := fun lba data b => (b, Ok tt) |}.

(** [onCommand]: [ret None] is a bare [return]; a branch of the
    [isinstance] chain that does not return falls out of the chain and
    reaches the [raise] that ends the method, as does a parameter block
    that no branch tests for. *)
Definition onCommand (cbw : CBW.t) (data : option bytes)
  : SE LogicalUnit (option Response) :=
  let cb := CBW.CBWCB cbw in
  if negb (parseable cb) then
    raise (MassStorageIllegalRequestError SCSI_ASC_NONE)
  else
    params <- lift (cast cb None) ;;
    if negb (Z.of_nat (sizeof (view_class params))
             =? CBW.bCBWCBLength cbw - 1) then
      raise (MassStorageIllegalRequestError SCSI_ASC_NONE)
    else if isinstance (view_class params) SCSIParametersVoid6 then
      if command cb =? SCSI_CMD_TEST_UNIT_READY then
        call onTestUnitReady ;; ret None
      else ret None
    else if isinstance (view_class params) SCSIParametersRequestSense then
      self <- get ;;
      match sense self with
      | Some s => ret (Some (RespRequestSense s))
      | None =>
          ret (Some (RespRequestSense
                       (SCSIResponseRequestSense.simple
                          SCSI_SENSE_KEY_NO_SENSE SCSI_ASC_NONE)))
      end
    else if isinstance (view_class params) SCSIParametersModeSense6 then
      ret (Some (RespModeSense6
                   (SCSIResponseModeSense6Header.new
                      (Z.of_nat (sizeof SCSIResponseModeSense6Header_t)
                       - Z.of_nat (field_size SCSIResponseModeSense6Header_t
                                     "mode_data_length")))))
    else if isinstance (view_class params) SCSIParametersInquiry then
      r <- call (fun c => onInquiry c (getfield params "allocation_length")) ;;
      ret (Some (RespInquiry r))
    else if isinstance (view_class params) SCSIParametersStartStopUnit then
      ret None
    else if isinstance (view_class params)
              SCSIParametersPreventAllowMediumRemoval then
      ret None
    else if isinstance (view_class params) SCSIParametersReadCapacity10 then
      if getfield params "flags2" =? 0 then
        cap <- call onReadCapacity ;;
        num_lba <- lift (int_to_bytes_big (fst cap) 4) ;;
        sector_size <- lift (int_to_bytes_big (snd cap) 4) ;;
        ret (Some (RespBytes (num_lba ++ sector_size)))
      else raise (MassStorageIllegalRequestError SCSI_ASC_INVALID_FIELD_IN_CDB)
    else if isinstance (view_class params) SCSIParametersIO10 then
      if command cb =? SCSI_CMD_READ10 then
        d <- call (fun c => onRead c (getfield params "lba")
                              (getfield params "transfer_length")) ;;
        ret (Some (RespBytes d))
      else if command cb =? SCSI_CMD_WRITE10 then
        match data with
        | None => raise MassStoragePhaseError
        | Some d =>
            call (fun c => onWrite c (getfield params "lba") d) ;;
            ret None
        end
      else raise (MassStorageIllegalRequestError SCSI_ASC_NONE)
    else if isinstance (view_class params) SCSIParametersVerify10 then
      let do_byte_check :=
        negb (Z.land (getfield params "flags1") SCSI_VERIFY_F1_BYTCHK =? 0) in
      match data, do_byte_check with
      | None, true =>
          raise (MassStorageIllegalRequestError SCSI_ASC_INVALID_FIELD_IN_CDB)
      | _, _ =>
          call (fun c => onVerify c (getfield params "lba")
                           (if do_byte_check then data else None)) ;;
          ret None
      end
    else raise (MassStorageIllegalRequestError SCSI_ASC_NONE).

(** ** The mass storage function *)

(** What [write] is given on the IN endpoint. *)
Inductive Written :=
| WResponse (r : Response)
| WCSW (c : CSW.t).

(** Operations performed on the bulk endpoints ([getEndpoint(1)] is the
    IN endpoint, [getEndpoint(2)] the OUT endpoint). *)
Inductive EndpointOp :=
| EpWrite (ep : Z) (o : Written)
| EpHalt (ep : Z).

(** The session state of [MassStorageFunction], with the endpoints it
    owns: [endpoint_trace] lists the completed endpoint operations,
    oldest first, and [write_faults] tells, for the coming writes in
    order, the exception each one raises, if any (a write beyond the
    list succeeds). *)
Record MassStorageFunction := {
  _receiving_length : Z;
  _received_data : bytes;
  _current_cbw : option CBW.t;
  _logical_units : list LogicalUnit;
  endpoint_trace : list EndpointOp;
  write_faults : list (option exn)
}.

Definition with_session (rl : Z) (rd : bytes) (cur : option CBW.t)
  (f : MassStorageFunction) : MassStorageFunction :=
  {| _receiving_length := rl; _received_data := rd; _current_cbw := cur;
     _logical_units := _logical_units f;
     endpoint_trace := endpoint_trace f;
     write_faults := write_faults f |}.

Definition with_logical_units (lus : list LogicalUnit)
  (f : MassStorageFunction) : MassStorageFunction :=
  {| _receiving_length := _receiving_length f;
     _received_data := _received_data f;
     _current_cbw := _current_cbw f;
     _logical_units := lus;
     endpoint_trace := endpoint_trace f;
     write_faults := write_faults f |}.

Definition with_endpoints (tr : list EndpointOp) (fl : list (option exn))
  (f : MassStorageFunction) : MassStorageFunction :=
  {| _receiving_length := _receiving_length f;
     _received_data := _received_data f;
     _current_cbw := _current_cbw f;
     _logical_units := _logical_units f;
     endpoint_trace := tr;
     write_faults := fl |}.

(** [self.getEndpoint(ep).write(o)] *)
Definition ep_write (ep : Z) (o : Written) : SE MassStorageFunction unit :=
  fun f =>
    match write_faults f with
    | Some e :: rest => (with_endpoints (endpoint_trace f) rest f, Raise e)
    | None :: rest =>
        (with_endpoints (endpoint_trace f ++ [EpWrite ep o]) rest f, Ok tt)
    | [] =>
        (with_endpoints (endpoint_trace f ++ [EpWrite ep o]) [] f, Ok tt)
    end.

(** [self.getEndpoint(ep).halt()] *)
Definition ep_halt (ep : Z) : SE MassStorageFunction unit :=
  modify (fun f =>
            with_endpoints (endpoint_trace f ++ [EpHalt ep])
              (write_faults f) f).

(** [__init__]: [logical_units] is a sequence of logical unit
    constructors.  The descriptors handed to the constructor of the parent
    class play no part in the transport and are left out. *)
Definition MassStorageFunction_init (logical_units : list (unit -> LogicalUnit))
  : result MassStorageFunction :=
  if (length logical_units =? 0)%nat then Raise ValueError
  else
    Ok {| _receiving_length := 0;
          _received_data := [];
          _current_cbw := None;
          _logical_units := map (fun luc => luc tt) logical_units;
          endpoint_trace := [];
          write_faults := [] |}.

Definition getMaxLUN (f : MassStorageFunction) : Z :=
  Z.of_nat (length (_logical_units f)) - 1.

(** [for lu in lus: lu.onReset()] *)
Fixpoint reset_all (lus : list LogicalUnit) : list LogicalUnit * result unit :=
  match lus with
  | [] => ([], Ok tt)
  | lu :: rest =>
      match call onReset lu with
      | (lu', Ok _) =>
          let (rest', r) := reset_all rest in (lu' :: rest', r)
      | (lu', Raise e) => (lu' :: rest, Raise e)
      end
  end.

Definition reset : SE MassStorageFunction unit :=
  (fun f =>
     let (lus, r) := reset_all (_logical_units f) in
     (with_logical_units lus f, r)) ;;
  modify (with_session 0 [] None).

(** [self._logical_units[lun].m(...)]: the unit is updated in place. The
    index comes from an unsigned field. *)
Definition on_unit {A} (lun : Z) (m : SE LogicalUnit A)
  : SE MassStorageFunction A :=
  fun f =>
    if (0 <=? lun) && (lun <? Z.of_nat (length (_logical_units f))) then
      match nth_error (_logical_units f) (Z.to_nat lun) with
      | Some lu =>
          let (lu', r) := m lu in
          (with_logical_units
             (list_update (Z.to_nat lun) lu' (_logical_units f)) f, r)
      | None => (f, Raise IndexError)
      end
    else (f, Raise IndexError).

Definition _processCBW (cbw : CBW.t) (data : option bytes)
  : SE MassStorageFunction unit :=
  let inep := 1 in
  try_except
    (response_data <- on_unit (CBW.bCBWLUN cbw) (onCommand cbw data) ;;
     match response_data with
     | Some r => ep_write inep (WResponse r)
     | None => ret tt
     end ;;
     ep_write inep (WCSW (CSW.simple (CBW.dCBWTag cbw)
                            USBMS_CSW_STATUS_GOOD 0)))
    (fun err =>
       match err with
       | MassStorageError csw_status err_sense =>
           on_unit (CBW.bCBWLUN cbw) (modify (set_sense err_sense)) ;;
           ep_write inep (WCSW (CSW.simple (CBW.dCBWTag cbw) csw_status 0))
       | _ =>
           on_unit (CBW.bCBWLUN cbw) (modify (set_sense None)) ;;
           ep_write inep (WCSW (CSW.simple (CBW.dCBWTag cbw)
                                  USBMS_CSW_STATUS_PHASE_ERROR 0))
       end).

(** A Python integer that is handed to a C function as an [int]. *)
Definition c_int_fits (v : Z) : bool := (- 2 ^ 31 <=? v) && (v <? 2 ^ 31).

(** [os.strerror(code)], whose message is only printed: the call raises
    [OverflowError] when [code] does not fit a C [int]. *)
Definition os_strerror (code : Z) : result unit :=
  if c_int_fits code then Ok tt else Raise OverflowError.

(** [_onOutEndpointComplete]: the method starts by printing the length of
    the data and [os.strerror(-status)], outside of any [try]. *)
Definition _onOutEndpointComplete (data : bytes) (status : Z)
  : SE MassStorageFunction unit :=
  lift (os_strerror (- status)) ;;
  if negb (status =? 0) then
    ep_halt 1 ;; ep_halt 2 ;; raise (IOError (- status))
  else
    try_except
      (self <- get ;;
       if _receiving_length self =? 0 then
         cbw <- lift (CBW.from_buffer data) ;;
         if negb (CBW.dCBWSignature cbw =? USBMS_CBW_MAGIC) then
           ep_halt 1 ;; ep_halt 2 ;; ret tt
         else if (CBW.dCBWDataTransferLength cbw =? 0)
                 || (Z.land (CBW.bmCBWFlags cbw) USBMS_CBW_DIR_MASK
                     =? USBMS_CBW_DIR_IN) then
           _processCBW cbw None
         else
           modify (fun f => with_session (CBW.dCBWDataTransferLength cbw)
                              (_received_data f) (_current_cbw f) f) ;;
           modify (fun f => with_session (_receiving_length f) []
                              (_current_cbw f) f) ;;
           copy <- lift (CBW.from_buffer_copy data) ;;
           modify (fun f => with_session (_receiving_length f)
                              (_received_data f) (Some copy) f)
       else
         modify (fun f => with_session (_receiving_length f)
                            (_received_data f ++ data) (_current_cbw f) f) ;;
         self <- get ;;
         match _current_cbw self with
         | None => raise AttributeError
         | Some current =>
             if Z.of_nat (length (_received_data self))
                =? _receiving_length self then
               modify (fun f => with_session 0 (_received_data f)
                                  (_current_cbw f) f) ;;
               _processCBW current (Some (_received_data self))
             else ret tt
         end)
      (fun _ => ep_halt 1 ;; ep_halt 2).

(** [MassStorageEndpointOUTFile.onComplete] *)
Definition onComplete (data : bytes) (status : Z)
  : SE MassStorageFunction unit :=
  if status =? - ESHUTDOWN then ret tt
  else _onOutEndpointComplete data status.

(** What a command cycle leaves behind when the addressed unit exists and
    the IN endpoint accepts the writes. *)
Definition cycle_result (f : MassStorageFunction) (cbw : CBW.t)
  (out : LogicalUnit * result (option Response)) : MassStorageFunction :=
  let n := Z.to_nat (CBW.bCBWLUN cbw) in
  let csw := fun status =>
    EpWrite 1 (WCSW (CSW.simple (CBW.dCBWTag cbw) status 0)) in
  let finish := fun lu' ops =>
    with_endpoints (endpoint_trace f ++ ops) []
      (with_logical_units (list_update n lu' (_logical_units f)) f) in
  match out with
  | (lu', Ok (Some r)) =>
      finish lu' [EpWrite 1 (WResponse r); csw USBMS_CSW_STATUS_GOOD]
  | (lu', Ok None) => finish lu' [csw USBMS_CSW_STATUS_GOOD]
  | (lu', Raise (MassStorageError status err_sense)) =>
      finish (set_sense err_sense lu') [csw status]
  | (lu', Raise _) =>
      finish (set_sense None lu') [csw USBMS_CSW_STATUS_PHASE_ERROR]
  end.

(** The instances a program can hold: built by [__init__] and then
    driven by OUT endpoint completions and resets, while the endpoints
    may start to fail at any time. *)
Inductive Reachable (logical_units : list (unit -> LogicalUnit))
  : MassStorageFunction -> Prop :=
| Reach_init f :
    MassStorageFunction_init logical_units = Ok f ->
    Reachable logical_units f
| Reach_out f data status :
    Reachable logical_units f ->
    Reachable logical_units (fst (_onOutEndpointComplete data status f))
| Reach_reset f :
    Reachable logical_units f ->
    Reachable logical_units (fst (reset f))
| Reach_faults f faults :
    Reachable logical_units f ->
    Reachable logical_units (with_endpoints (endpoint_trace f) faults f).

(** A method that leaves the number of logical units as it is. *)
Definition keeps_units {A} (m : SE MassStorageFunction A) : Prop :=
  forall f,
    length (_logical_units (fst (m f))) = length (_logical_units f).

End LogicalUnits.

Arguments LogicalUnitClass B : clear implicits.
Arguments LogicalUnit B : clear implicits.
Arguments MassStorageFunction B : clear implicits.

(** ** Sample inputs *)

(** A CBW for the SCSI command [cmd] with the parameter bytes [params],
    zero filled to the 15 bytes of the command buffer. *)
Definition make_cbw (tag dtl flags lun cblen cmd : Z) (params : bytes)
  : CBW.t :=
  {| CBW.dCBWSignature := USBMS_CBW_MAGIC;
     CBW.dCBWTag := tag;
     CBW.dCBWDataTransferLength := dtl;
     CBW.bmCBWFlags := flags;
     CBW.bCBWLUN := lun;
     CBW.bCBWCBLength := cblen;
     CBW.CBWCB := {| command := cmd;
                     parameters := slice 0 15 params;
                     _cdb_size_override := None |} |}.

Definition request_sense_cbw (tag dtl : Z) : CBW.t :=
  make_cbw tag dtl 0x80 0 6 SCSI_CMD_REQUEST_SENSE [x00; x00; x00; x12; x00].

Definition inquiry_cbw (cblen : Z) (allocation_length : bytes) : CBW.t :=
  make_cbw 3 36 0x80 0 cblen SCSI_CMD_INQUIRY
    ([x00; x00] ++ allocation_length ++ [x00]).

Definition mode_sense10_cbw : CBW.t :=
  make_cbw 4 8 0x80 0 10 SCSI_CMD_MODE_SENSE10 [].

Definition test_unit_ready_cbw : CBW.t :=
  make_cbw 5 0 0 0 6 SCSI_CMD_TEST_UNIT_READY [].

(** An opcode without parser, in the range of the 10 byte commands. *)
Definition read_format_capacity_cbw : CBW.t :=
  make_cbw 1 0 0 0 10 SCSI_CMD_READ_FORMAT_CAPACITY [].

(** A packet of the size of a CBW that starts with 0xdeadbeef. *)
Definition bad_signature_packet : bytes :=
  le_encode 4 0xdeadbeef ++ skipn 4 (CBW.to_bytes test_unit_ready_cbw).

(** A unit of the base class, without backend state, and a function that
    owns one such unit. *)
Definition default_unit : LogicalUnit unit :=
  LogicalUnit_init MassStorageLogicalUnit tt.

Definition default_function : MassStorageFunction unit :=
  {| _receiving_length := 0;
     _received_data := [];
     _current_cbw := None;
     _logical_units := [default_unit];
     endpoint_trace := [];
     write_faults := [] |}.

(** ** Control requests *)

Definition USBMS_REQ_BBB_GET_MAX_LUN : Z := 0xfe.
Definition USBMS_REQ_BBB_RESET : Z := 0xff.

(** The constants of [functionfs.ch9] that [onSetup] tests the request type
    with (the values of linux/usb/ch9.h). *)
Definition USB_ENDPOINT_DIR_MASK : Z := 0x80.
Definition USB_DIR_OUT : Z := 0.
Definition USB_DIR_IN : Z := 0x80.
Definition USB_TYPE_MASK : Z := Z.shiftl 0x03 5.
Definition USB_TYPE_CLASS : Z := Z.shiftl 0x01 5.
Definition USB_RECIP_MASK : Z := 0x1f.
Definition USB_RECIP_INTERFACE : Z := 0x01.

(** How [onSetup] ends: it returns after handling the request itself,
    having written [ep0_data] on endpoint 0 when there is something to
    send, or it hands the request to [onSetup] of the parent class. *)
Inductive SetupOutcome :=
| SetupHandled (ep0_data : option bytes)
| SetupParent.

(** [l[start:stop]] and [l[start:stop] = v] for [0 <= start <= stop]. *)
Definition py_slice {A : Type} (start stop : Z) (l : list A) : list A :=
  firstn (Z.to_nat (stop - start)) (skipn (Z.to_nat start) l).

Definition py_slice_assign {A : Type} (start stop : Z) (v l : list A)
  : list A :=
  firstn (Z.to_nat start) l ++ v ++ skipn (Z.to_nat stop) l.

Section ControlRequests.

Context {B : Type}.

Definition onSetup (request_type request value index length : Z)
  : SE (MassStorageFunction B) SetupOutcome :=
  if (Z.land request_type USB_ENDPOINT_DIR_MASK =? USB_DIR_OUT)
     && (Z.land request_type USB_TYPE_MASK =? USB_TYPE_CLASS)
     && (Z.land request_type USB_RECIP_MASK =? USB_RECIP_INTERFACE)
     && (request =? USBMS_REQ_BBB_RESET) then
    reset ;; ret (SetupHandled None)
  else if (Z.land request_type USB_ENDPOINT_DIR_MASK =? USB_DIR_IN)
          && (Z.land request_type USB_TYPE_MASK =? USB_TYPE_CLASS)
          && (Z.land request_type USB_RECIP_MASK =? USB_RECIP_INTERFACE)
          && (request =? USBMS_REQ_BBB_GET_MAX_LUN) then
    self <- get ;;
    let max_lun := getMaxLUN self in
    b <- lift (int_to_bytes_big max_lun 1) ;;
    ret (SetupHandled (Some b))
  else ret SetupParent.

Definition onBind : SE (MassStorageFunction B) unit := reset.

(** The three attributes of the session. *)
Definition session (f : MassStorageFunction B) : Z * bytes * option CBW.t :=
  (_receiving_length f, _received_data f, _current_cbw f).

(** A method that leaves the session as it is. *)
Definition keeps_session {A} (m : SE (MassStorageFunction B) A) : Prop :=
  forall f, session (fst (m f)) = session f.

(** A pending data phase knows its CBW and the length it waits for. *)
Definition session_consistent (f : MassStorageFunction B) : Prop :=
  _receiving_length f = 0 \/
  exists cbw,
    _current_cbw f = Some cbw /\
    _receiving_length f = CBW.dCBWDataTransferLength cbw /\
    0 < _receiving_length f.

(** The OUT endpoint delivers the packets of a list, one completion each. *)
Fixpoint deliver (packets : list bytes) (f : MassStorageFunction B)
  : MassStorageFunction B :=
  match packets with
  | [] => f
  | p :: rest => deliver rest (fst (_onOutEndpointComplete p 0 f))
  end.

End ControlRequests.

(** [except MassStorageError] *)
Definition is_MassStorageError (e : exn) : bool :=
  match e with
  | MassStorageError _ _ => true
  | _ => false
  end.

(** ** The demonstration block device of [dfusim.cli] *)

Definition BLOCK_SIZE : Z := 512.
Definition LBA_COUNT : Z := 16 * 1024 * 1024 / BLOCK_SIZE.

(** [MassStorageLogicalUnitDummy]: its state is the byte array [_io]; the
    methods it does not define are those of the base class.  Its [__init__]
    allocates [_io] and does not call the one of the base class, so that
    an instance gets its [sense] attribute when the transport first stores
    one; the methods below and the commands that reach them do not read
    it. *)
Definition MassStorageLogicalUnitDummy_io : bytes :=
  repeat x00 (Z.to_nat (BLOCK_SIZE * LBA_COUNT)).

Definition MassStorageLogicalUnitDummy : LogicalUnitClass bytes :=
  {| onReset := onReset MassStorageLogicalUnit;
     onTestUnitReady := onTestUnitReady MassStorageLogicalUnit;
     onInquiry := onInquiry MassStorageLogicalUnit;
     onReadCapacity := fun _io => (_io, Ok (LBA_COUNT - 1, BLOCK_SIZE));
     onRead := fun lba length _io =>
                 let offset := lba * BLOCK_SIZE in
                 let size := length * BLOCK_SIZE in
                 (_io, Ok (py_slice offset (offset + size) _io));
     onWrite := fun lba data _io =>
                  let offset := lba * BLOCK_SIZE in
                  (py_slice_assign offset
                     (offset + Z.of_nat (List.length data)) data _io,
                   Ok tt);
     onVerify := onVerify MassStorageLogicalUnit |}.

(** Read(10) and Write(10) CBWs for one logical block address. *)
Definition io10_cbw (cmd tag dtl flags lba transfer_length : Z) : CBW.t :=
  make_cbw tag dtl flags 0 10 cmd
    ([x00] ++ be_encode 4 lba ++ [x00] ++ be_encode 2 transfer_length
     ++ [x00]).

(** A CBW record whose fields hold values of their ctypes fields. *)
Definition CBW_wf (c : CBW.t) : Prop :=
  0 <= CBW.dCBWSignature c < 2 ^ 32 /\
  0 <= CBW.dCBWTag c < 2 ^ 32 /\
  0 <= CBW.dCBWDataTransferLength c < 2 ^ 32 /\
  0 <= CBW.bmCBWFlags c < 2 ^ 8 /\
  0 <= CBW.bCBWLUN c < 2 ^ 8 /\
  0 <= CBW.bCBWCBLength c < 2 ^ 8 /\
  0 <= command (CBW.CBWCB c) < 2 ^ 8 /\
  length (parameters (CBW.CBWCB c)) = 15%nat /\
  _cdb_size_override (CBW.CBWCB c) = None.

(** A method of a logical unit that leaves its class and its pending sense
    as they are. *)
Definition keeps_sense {B A : Type} (m : SE (LogicalUnit B) A) : Prop :=
  forall lu,
    sense (fst (m lu)) = sense lu /\ lu_class (fst (m lu)) = lu_class lu.

(** A function of three units of the base class, and a Write(10) of one
    block announced with and without data. *)
Definition three_unit_function : MassStorageFunction unit :=
  {| _receiving_length := 0;
     _received_data := [];
     _current_cbw := None;
     _logical_units := [default_unit; default_unit; default_unit];
     endpoint_trace := [];
     write_faults := [] |}.

Definition write10_cbw (dtl : Z) : CBW.t :=
  io10_cbw SCSI_CMD_WRITE10 9 dtl 0 10 1.

Definition read_capacity_cbw (flags2 : byte) : CBW.t :=
  make_cbw 6 8 0x80 0 10 SCSI_CMD_READ_CAPACITY10
    [x00; x00; x00; x00; x00; x00; x00; flags2; x00].


(** * Properties *)

(** ** Bytes and byte order *)

Lemma Z_of_byte_range (b : byte) : 0 <= Z_of_byte b < 256.
Proof.
  unfold Z_of_byte. pose proof (Byte.to_N_bounded b). lia.
Qed.

Lemma Z_of_byte_of_Z (z : Z) : Z_of_byte (byte_of_Z z) = z mod 256.
Proof.
  unfold Z_of_byte, byte_of_Z.
  assert (Hr : 0 <= z mod 256 < 256) by (apply Z.mod_pos_bound; lia).
  destruct (Byte.of_N (Z.to_N (z mod 256))) as [b|] eqn:E.
  - apply Byte.to_of_N in E. rewrite E. lia.
  - apply Byte.of_N_None_iff in E. lia.
Qed.

Lemma length_le_encode (w : nat) (v : Z) : length (le_encode w v) = w.
Proof.
  revert v. induction w as [|w IH]; intros v; simpl; [reflexivity|].
  now rewrite IH.
Qed.

Lemma length_be_encode (w : nat) (v : Z) : length (be_encode w v) = w.
Proof.
  unfold be_encode. rewrite length_rev. apply length_le_encode.
Qed.


Lemma le_decode_le_encode (w : nat) (v : Z) :
  le_decode (le_encode w v) = v mod 2 ^ (8 * Z.of_nat w).
Proof.
  revert v. induction w as [|w IH]; intros v.
  - simpl. now rewrite Z.mod_1_r.
  - cbn [le_encode le_decode]. rewrite IH, Z_of_byte_of_Z.
    replace (8 * Z.of_nat (S w)) with (8 + 8 * Z.of_nat w) by lia.
    rewrite Z.pow_add_r by lia.
    change (2 ^ 8) with 256.
    rewrite (Z.rem_mul_r v 256 (2 ^ (8 * Z.of_nat w))) by lia.
    reflexivity.
Qed.

Lemma be_decode_snoc (bs : bytes) (b : byte) :
  be_decode (bs ++ [b]) = be_decode bs * 256 + Z_of_byte b.
Proof.
  unfold be_decode. now rewrite fold_left_app.
Qed.

Lemma be_decode_rev (bs : bytes) : be_decode (rev bs) = le_decode bs.
Proof.
  induction bs as [|b r IH]; [reflexivity|].
  cbn [rev le_decode]. rewrite be_decode_snoc, IH. lia.
Qed.

Lemma be_decode_be_encode (w : nat) (v : Z) :
  be_decode (be_encode w v) = v mod 2 ^ (8 * Z.of_nat w).
Proof.
  unfold be_encode. rewrite be_decode_rev. apply le_decode_le_encode.
Qed.

Lemma decode_encode_int (e : Endian) (w : nat) (v : Z) :
  decode_int e (encode_int e w v) = v mod 2 ^ (8 * Z.of_nat w).
Proof.
  destruct e; [apply be_decode_be_encode | apply le_decode_le_encode].
Qed.

(** The first byte of a big-endian field is its most significant byte, the
    first byte of a little-endian field its least significant one. *)
Lemma be_decode_4 (a b c d : byte) :
  be_decode [a; b; c; d]
  = Z_of_byte a * 2 ^ 24 + Z_of_byte b * 2 ^ 16 + Z_of_byte c * 2 ^ 8
    + Z_of_byte d.
Proof. unfold be_decode. cbn [fold_left]. lia. Qed.

Lemma be_decode_2 (a b : byte) :
  be_decode [a; b] = Z_of_byte a * 2 ^ 8 + Z_of_byte b.
Proof. unfold be_decode. cbn [fold_left]. lia. Qed.

Lemma le_decode_4 (a b c d : byte) :
  le_decode [a; b; c; d]
  = Z_of_byte a + Z_of_byte b * 2 ^ 8 + Z_of_byte c * 2 ^ 16
    + Z_of_byte d * 2 ^ 24.
Proof. cbn [le_decode]. lia. Qed.

Lemma c_store_idem (w : nat) (v : Z) : c_store w (c_store w v) = c_store w v.
Proof.
  unfold c_store. apply Z.mod_mod.
  apply Z.pow_nonzero; lia.
Qed.

Lemma c_store_small (w : nat) (v : Z) :
  0 <= v < 2 ^ (8 * Z.of_nat w) -> c_store w v = v.
Proof. intros H. unfold c_store. now apply Z.mod_small. Qed.

Lemma slice_app (a b c : bytes) :
  slice (length a) (length b) (a ++ b ++ c) = b.
Proof.
  unfold slice.
  rewrite skipn_app, skipn_all, Nat.sub_diag. cbn [skipn app].
  rewrite <- app_assoc, firstn_app, firstn_all, Nat.sub_diag.
  cbn [firstn]. apply app_nil_r.
Qed.

Lemma slice_0_app (b c : bytes) : slice 0 (length b) (b ++ c) = b.
Proof. apply (slice_app [] b c). Qed.

Lemma slice_at (off len : nat) (a b c : bytes) :
  length a = off -> length b = len -> slice off len (a ++ b ++ c) = b.
Proof. intros <- <-. apply slice_app. Qed.

Lemma slice_at_end (off len : nat) (a b : bytes) :
  length a = off -> length b = len -> slice off len (a ++ b) = b.
Proof.
  intros Ha Hb. rewrite <- (app_nil_r b) at 1. now apply slice_at.
Qed.

(** ** The command status wrapper *)

Lemma CSW_to_bytes_eq (c : CSW.t) :
  CSW.to_bytes c
  = le_encode 4 (CSW.dCSWSignature c) ++ le_encode 4 (CSW.dCSWTag c)
    ++ le_encode 4 (CSW.dCSWDataResidue c) ++ le_encode 1 (CSW.bCSWStatus c).
Proof. reflexivity. Qed.

Lemma CSW_to_bytes_length (c : CSW.t) : length (CSW.to_bytes c) = 13%nat.
Proof.
  rewrite CSW_to_bytes_eq, !length_app, !length_le_encode. reflexivity.
Qed.

Lemma CSW_from_buffer_eq (data : bytes) :
  (sizeof CSW_t <= length data)%nat ->
  CSW.from_buffer data
  = Ok {| CSW.dCSWSignature := le_decode (slice 0 4 data);
          CSW.dCSWTag := le_decode (slice 4 4 data);
          CSW.dCSWDataResidue := le_decode (slice 8 4 data);
          CSW.bCSWStatus := le_decode (slice 12 1 data) |}.
Proof.
  intros H. unfold CSW.from_buffer.
  destruct (Nat.ltb_spec (length data) (sizeof CSW_t)); [lia|reflexivity].
Qed.

(** Decoding an encoded record gives back its fields, each reduced to the
    width of its field. *)
Lemma CSW_from_buffer_to_bytes (c : CSW.t) :
  CSW.from_buffer (CSW.to_bytes c)
  = Ok {| CSW.dCSWSignature := c_store 4 (CSW.dCSWSignature c);
          CSW.dCSWTag := c_store 4 (CSW.dCSWTag c);
          CSW.dCSWDataResidue := c_store 4 (CSW.dCSWDataResidue c);
          CSW.bCSWStatus := c_store 1 (CSW.bCSWStatus c) |}.
Proof.
  rewrite CSW_from_buffer_eq
    by (rewrite CSW_to_bytes_length; apply Nat.le_refl).
  rewrite CSW_to_bytes_eq.
  set (A := le_encode 4 (CSW.dCSWSignature c)).
  set (T := le_encode 4 (CSW.dCSWTag c)).
  set (R := le_encode 4 (CSW.dCSWDataResidue c)).
  set (S := le_encode 1 (CSW.bCSWStatus c)).
  assert (HA : length A = 4%nat) by apply length_le_encode.
  assert (HT : length T = 4%nat) by apply length_le_encode.
  assert (HR : length R = 4%nat) by apply length_le_encode.
  assert (HS : length S = 1%nat) by apply length_le_encode.
  assert (E0 : slice 0 4 (A ++ T ++ R ++ S) = A)
    by (apply (slice_at 0 4 [] A); [reflexivity | exact HA]).
  assert (E1 : slice 4 4 (A ++ T ++ R ++ S) = T)
    by (apply slice_at; assumption).
  assert (E2 : slice 8 4 (A ++ T ++ R ++ S) = R).
  { rewrite (app_assoc A T).
    apply slice_at; [rewrite length_app; lia | assumption]. }
  assert (E3 : slice 12 1 (A ++ T ++ R ++ S) = S).
  { rewrite (app_assoc A T), (app_assoc (A ++ T) R).
    apply slice_at_end; [rewrite !length_app; lia | assumption]. }
  rewrite E0, E1, E2, E3. subst A T R S.
  rewrite !le_decode_le_encode. reflexivity.
Qed.

(** C9.  For every 32-bit tag, 8-bit status and 32-bit residue, the record
    built by [CSW.simple] is encoded on 13 bytes, and decoding these bytes
    yields the signature 0x53425355 and the tag, residue and status that
    were given. *)
Theorem CSW_simple_roundtrip (tag status data_residue : Z) :
  0 <= tag < 2 ^ 32 ->
  0 <= status < 2 ^ 8 ->
  0 <= data_residue < 2 ^ 32 ->
  length (CSW.to_bytes (CSW.simple tag status data_residue)) = 13%nat /\
  CSW.from_buffer (CSW.to_bytes (CSW.simple tag status data_residue))
  = Ok {| CSW.dCSWSignature := 0x53425355;
          CSW.dCSWTag := tag;
          CSW.dCSWDataResidue := data_residue;
          CSW.bCSWStatus := status |}.
Proof.
  intros Ht Hs Hr. split; [apply CSW_to_bytes_length|].
  rewrite CSW_from_buffer_to_bytes. unfold CSW.simple.
  cbn [CSW.dCSWSignature CSW.dCSWTag CSW.dCSWDataResidue CSW.bCSWStatus].
  rewrite !c_store_idem.
  rewrite (c_store_small 4 tag), (c_store_small 4 data_residue),
    (c_store_small 1 status) by assumption.
  reflexivity.
Qed.

Lemma CSW_simple_roundtrip_witness :
  length (CSW.to_bytes (CSW.simple 0x11223344 1 512)) = 13%nat /\
  CSW.from_buffer (CSW.to_bytes (CSW.simple 0x11223344 1 512))
  = Ok {| CSW.dCSWSignature := 0x53425355;
          CSW.dCSWTag := 0x11223344;
          CSW.dCSWDataResidue := 512;
          CSW.bCSWStatus := 1 |}.
Proof.
  apply (CSW_simple_roundtrip 0x11223344 1 512); lia.
Defined.

(** Outside the field widths the stored values wrap around, as ctypes
    fields do. *)
Lemma CSW_simple_roundtrip_wrap (tag status data_residue : Z) :
  CSW.from_buffer (CSW.to_bytes (CSW.simple tag status data_residue))
  = Ok {| CSW.dCSWSignature := USBMS_CSW_MAGIC;
          CSW.dCSWTag := tag mod 2 ^ 32;
          CSW.dCSWDataResidue := data_residue mod 2 ^ 32;
          CSW.bCSWStatus := status mod 2 ^ 8 |}.
Proof.
  rewrite CSW_from_buffer_to_bytes. unfold CSW.simple.
  cbn [CSW.dCSWSignature CSW.dCSWTag CSW.dCSWDataResidue CSW.bCSWStatus].
  rewrite !c_store_idem. reflexivity.
Qed.

(** ** Byte order of the structures *)

Lemma scsi_structures_big_endian (s : ctype) :
  In s scsi_structures -> struct_endian s = BigEndian.
Proof.
  unfold scsi_structures. cbn [In].
  intros H; repeat (destruct H as [<- | H]; [reflexivity|]); contradiction.
Qed.

Lemma wrapper_structures_little_endian (s : ctype) :
  In s wrapper_structures -> struct_endian s = LittleEndian.
Proof.
  unfold wrapper_structures. cbn [In].
  intros H; repeat (destruct H as [<- | H]; [reflexivity|]); contradiction.
Qed.

(** The integer fields of the structures are 1, 2 or 4 bytes wide. *)
Lemma int_field_widths (s : ctype) (name : string) (off w : nat) :
  In s (scsi_structures ++ wrapper_structures) ->
  field_lookup s name = Some (off, c_int w) ->
  (1 < w)%nat -> w = 2%nat \/ w = 4%nat.
Proof.
  unfold scsi_structures, wrapper_structures. cbn [In app].
  intros H Hf Hw. revert Hf.
  repeat (destruct H as [<- | H];
    [ unfold field_lookup; cbn -[String.eqb];
      repeat match goal with
             | |- context [String.eqb ?a name] => destruct (String.eqb a name)
             end;
      intros E; try discriminate E; injection E as <- <-; lia |]).
  contradiction.
Qed.

Lemma length_slice (off len : nat) (buf : bytes) :
  length (slice off len buf) = len.
Proof.
  unfold slice. rewrite length_firstn, length_app, repeat_length. lia.
Qed.

Lemma nth_slice (off len i : nat) (buf : bytes) :
  (i < len)%nat -> nth i (slice off len buf) x00 = nth (off + i) buf x00.
Proof.
  intros H. unfold slice.
  rewrite nth_firstn.
  destruct (Nat.ltb_spec i len); [|lia].
  destruct (Nat.lt_ge_cases i (length (skipn off buf))) as [Hl|Hl].
  - rewrite app_nth1 by exact Hl. apply nth_skipn.
  - rewrite app_nth2 by exact Hl. rewrite nth_repeat.
    rewrite length_skipn in Hl. symmetry. apply nth_overflow. lia.
Qed.

Lemma slice_2 (off : nat) (buf : bytes) :
  slice off 2 buf = [nth (off + 0) buf x00; nth (off + 1) buf x00].
Proof.
  rewrite <- !(nth_slice off 2) by lia.
  pose proof (length_slice off 2 buf) as L.
  destruct (slice off 2 buf) as [|a [|b [|c r]]]; try discriminate L.
  reflexivity.
Qed.

Lemma slice_4 (off : nat) (buf : bytes) :
  slice off 4 buf
  = [nth (off + 0) buf x00; nth (off + 1) buf x00; nth (off + 2) buf x00;
     nth (off + 3) buf x00].
Proof.
  rewrite <- !(nth_slice off 4) by lia.
  pose proof (length_slice off 4 buf) as L.
  destruct (slice off 4 buf) as [|a [|b [|c [|d [|e r]]]]];
    try discriminate L.
  reflexivity.
Qed.

Lemma le_decode_2 (a b : byte) :
  le_decode [a; b] = Z_of_byte a + Z_of_byte b * 2 ^ 8.
Proof. cbn [le_decode]. lia. Qed.

Lemma div_256_twice (v : Z) : v / 256 / 256 = v / 2 ^ 16.
Proof. rewrite Zdiv.Zdiv_Zdiv by lia. reflexivity. Qed.

Lemma div_256_thrice (v : Z) : v / 256 / 256 / 256 = v / 2 ^ 24.
Proof. rewrite !Zdiv.Zdiv_Zdiv by lia. reflexivity. Qed.

Lemma le_encode_2_values (v : Z) :
  map Z_of_byte (le_encode 2 v) = [v mod 256; (v / 2 ^ 8) mod 256].
Proof. cbn [le_encode map]. now rewrite !Z_of_byte_of_Z. Qed.

Lemma le_encode_4_values (v : Z) :
  map Z_of_byte (le_encode 4 v)
  = [v mod 256; (v / 2 ^ 8) mod 256; (v / 2 ^ 16) mod 256;
     (v / 2 ^ 24) mod 256].
Proof.
  cbn [le_encode map].
  now rewrite !Z_of_byte_of_Z, div_256_thrice, div_256_twice.
Qed.

Lemma be_encode_2_values (v : Z) :
  map Z_of_byte (be_encode 2 v) = [(v / 2 ^ 8) mod 256; v mod 256].
Proof.
  unfold be_encode. rewrite map_rev, le_encode_2_values. reflexivity.
Qed.

Lemma be_encode_4_values (v : Z) :
  map Z_of_byte (be_encode 4 v)
  = [(v / 2 ^ 24) mod 256; (v / 2 ^ 16) mod 256; (v / 2 ^ 8) mod 256;
     v mod 256].
Proof.
  unfold be_encode. rewrite map_rev, le_encode_4_values. reflexivity.
Qed.

(** C5.  An integer field of more than one byte is 2 or 4 bytes wide.  When
    it belongs to a SCSI parameter block or response structure, its value
    is that of its bytes taken with the most significant byte first, and
    the bytes stored for a value are the bytes of the value, the most
    significant one first; when it belongs to the CBW or the CSW, the
    least significant byte comes first, on reading and on writing. *)
Theorem scsi_fields_big_endian_wrapper_fields_little_endian
  (s : ctype) (name : string) (off w : nat) :
  field_lookup s name = Some (off, c_int w) ->
  (1 < w)%nat ->
  forall (buf : bytes) (v : Z),
    let b := fun i : nat => Z_of_byte (nth (off + i) buf x00) in
    (In s scsi_structures ->
     (w = 2%nat /\
      field_get s name buf = b 0%nat * 2 ^ 8 + b 1%nat /\
      map Z_of_byte (field_put s name v)
      = [(v / 2 ^ 8) mod 256; v mod 256]) \/
     (w = 4%nat /\
      field_get s name buf
      = b 0%nat * 2 ^ 24 + b 1%nat * 2 ^ 16 + b 2%nat * 2 ^ 8 + b 3%nat /\
      map Z_of_byte (field_put s name v)
      = [(v / 2 ^ 24) mod 256; (v / 2 ^ 16) mod 256; (v / 2 ^ 8) mod 256;
         v mod 256])) /\
    (In s wrapper_structures ->
     (w = 2%nat /\
      field_get s name buf = b 0%nat + b 1%nat * 2 ^ 8 /\
      map Z_of_byte (field_put s name v)
      = [v mod 256; (v / 2 ^ 8) mod 256]) \/
     (w = 4%nat /\
      field_get s name buf
      = b 0%nat + b 1%nat * 2 ^ 8 + b 2%nat * 2 ^ 16 + b 3%nat * 2 ^ 24 /\
      map Z_of_byte (field_put s name v)
      = [v mod 256; (v / 2 ^ 8) mod 256; (v / 2 ^ 16) mod 256;
         (v / 2 ^ 24) mod 256])).
Proof.
  intros Hf Hw buf v b. split; intros Hs.
  - assert (Hwidth : w = 2%nat \/ w = 4%nat)
      by (apply (int_field_widths s name off w);
          [apply in_or_app; left; exact Hs | exact Hf | exact Hw]).
    apply scsi_structures_big_endian in Hs.
    unfold field_get, field_put. rewrite Hf, Hs.
    cbn [decode_int encode_int]. subst b.
    destruct Hwidth as [-> | ->]; [left | right];
      (split; [reflexivity|]; split).
    + rewrite slice_2. apply be_decode_2.
    + apply be_encode_2_values.
    + rewrite slice_4. apply be_decode_4.
    + apply be_encode_4_values.
  - assert (Hwidth : w = 2%nat \/ w = 4%nat)
      by (apply (int_field_widths s name off w);
          [apply in_or_app; right; exact Hs | exact Hf | exact Hw]).
    apply wrapper_structures_little_endian in Hs.
    unfold field_get, field_put. rewrite Hf, Hs.
    cbn [decode_int encode_int]. subst b.
    destruct Hwidth as [-> | ->]; [left | right];
      (split; [reflexivity|]; split).
    + rewrite slice_2. apply le_decode_2.
    + apply le_encode_2_values.
    + rewrite slice_4. apply le_decode_4.
    + apply le_encode_4_values.
Qed.

Lemma scsi_fields_big_endian_wrapper_fields_little_endian_witness :
  let buf := [x00; x12; x34; x56; x78; x9a; xbc; xde; xf0] in
  (field_get SCSIParametersIO10 "lba" buf = 0x12345678 /\
   map Z_of_byte (field_put SCSIParametersIO10 "lba" 0x12345678)
   = [0x12; 0x34; 0x56; 0x78]) /\
  (field_get SCSIParametersIO10 "transfer_length" buf = 0xbcde /\
   map Z_of_byte (field_put SCSIParametersIO10 "transfer_length" 0xbcde)
   = [0xbc; 0xde]) /\
  (field_get CBW_t "dCBWTag" buf = 0xdebc9a78 /\
   map Z_of_byte (field_put CBW_t "dCBWTag" 0xdebc9a78)
   = [0x78; 0x9a; 0xbc; 0xde]).
Proof.
  intros buf. split; [|split].
  - destruct (proj1 (scsi_fields_big_endian_wrapper_fields_little_endian
                       SCSIParametersIO10 "lba" 1 4 eq_refl
                       ltac:(lia) buf 0x12345678))
      as [[E _] | [_ H]].
    + unfold scsi_structures; cbn [In]; tauto.
    + discriminate E.
    + exact H.
  - destruct (proj1 (scsi_fields_big_endian_wrapper_fields_little_endian
                       SCSIParametersIO10 "transfer_length" 6 2 eq_refl
                       ltac:(lia) buf 0xbcde))
      as [[_ H] | [E _]].
    + unfold scsi_structures; cbn [In]; tauto.
    + exact H.
    + discriminate E.
  - destruct (proj2 (scsi_fields_big_endian_wrapper_fields_little_endian
                       CBW_t "dCBWTag" 4 4 eq_refl ltac:(lia) buf 0xdebc9a78))
      as [[E _] | [_ H]].
    + unfold wrapper_structures; cbn [In]; tauto.
    + discriminate E.
    + exact H.
Defined.

(** The parameter block of Read(10) and Write(10): the logical block
    address and the transfer length, most significant byte first. *)
Lemma IO10_fields (f l3 l2 l1 l0 g t1 t0 : byte) (rest : bytes) :
  let buf := f :: l3 :: l2 :: l1 :: l0 :: g :: t1 :: t0 :: rest in
  field_get SCSIParametersIO10 "lba" buf
  = Z_of_byte l3 * 2 ^ 24 + Z_of_byte l2 * 2 ^ 16 + Z_of_byte l1 * 2 ^ 8
    + Z_of_byte l0 /\
  field_get SCSIParametersIO10 "transfer_length" buf
  = Z_of_byte t1 * 2 ^ 8 + Z_of_byte t0.
Proof.
  split.
  - change (field_get SCSIParametersIO10 "lba"
              (f :: l3 :: l2 :: l1 :: l0 :: g :: t1 :: t0 :: rest))
      with (be_decode [l3; l2; l1; l0]).
    apply be_decode_4.
  - change (field_get SCSIParametersIO10 "transfer_length"
              (f :: l3 :: l2 :: l1 :: l0 :: g :: t1 :: t0 :: rest))
      with (be_decode [t1; t0]).
    apply be_decode_2.
Qed.

(** The tag of a CBW, least significant byte first. *)
Lemma CBW_tag_field (s0 s1 s2 s3 a b c d : byte) (rest : bytes) :
  field_get CBW_t "dCBWTag" (s0 :: s1 :: s2 :: s3 :: a :: b :: c :: d :: rest)
  = Z_of_byte a + Z_of_byte b * 2 ^ 8 + Z_of_byte c * 2 ^ 16
    + Z_of_byte d * 2 ^ 24.
Proof.
  change (field_get CBW_t "dCBWTag"
            (s0 :: s1 :: s2 :: s3 :: a :: b :: c :: d :: rest))
    with (le_decode [a; b; c; d]).
  apply le_decode_4.
Qed.

(** ** The command table *)

Lemma dict_get_PARSERS_inv (c : Z) (parser : ctype) :
  dict_get _PARSERS c = Some parser ->
  In (c, parser) _PARSERS /\ (sizeof parser <= 9)%nat.
Proof.
  unfold _PARSERS. cbn [dict_get In].
  repeat match goal with
         | |- context [Z.eqb ?a c] => destruct (Z.eqb_spec a c) as [<- | _]
         end;
    intros H; try discriminate H; injection H as <-;
    (split; [tauto | vm_compute; lia]).
Qed.

Lemma dict_get_None {A : Type} (d : list (Z * A)) (k : Z) :
  ~ In k (map fst d) -> dict_get d k = None.
Proof.
  induction d as [|[k' v] r IH]; intros H; [reflexivity|].
  cbn [dict_get]. cbn [map fst In] in H.
  destruct (Z.eqb_spec k' k) as [E | _]; [tauto|].
  apply IH. tauto.
Qed.

(** The opcodes that have a parser. *)
Lemma PARSERS_opcodes :
  map fst _PARSERS
  = [0x00; 0x03; 0x12; 0x1a; 0x1b; 0x1e; 0x25; 0x28; 0x2a; 0x2f; 0x5a].
Proof. reflexivity. Qed.

(** ** Command handling by a logical unit *)

Section CommandHandling.

Context {B : Type}.
Implicit Types (lu : LogicalUnit B) (cbw : CBW.t) (data : option bytes).

(** C7.  For an opcode of the parser table, when the CDB length of the
    CBW minus the opcode byte is not the size of the parameter block of
    that opcode, [onCommand] raises an Illegal Request error; the
    parameters are not read and no handler of the unit is called, so
    the unit is left as it was. *)
Theorem onCommand_cdb_length_mismatch lu cbw data (parser : ctype) :
  length (parameters (CBW.CBWCB cbw)) = 15%nat ->
  dict_get _PARSERS (command (CBW.CBWCB cbw)) = Some parser ->
  CBW.bCBWCBLength cbw - 1 <> Z.of_nat (sizeof parser) ->
  onCommand cbw data lu
  = (lu, Raise (MassStorageIllegalRequestError SCSI_ASC_NONE)).
Proof.
  intros Hlen Hp Hsz.
  destruct (dict_get_PARSERS_inv _ _ Hp) as [_ Hs].
  unfold onCommand, parseable, cast, from_buffer. cbv zeta.
  rewrite Hp, Hlen. cbn [negb].
  destruct (Nat.ltb_spec 15 (sizeof parser)); [lia|].
  unfold bind, lift. cbn [view_class].
  destruct (Z.eqb_spec (Z.of_nat (sizeof parser))
              (CBW.bCBWCBLength cbw - 1)); [lia|].
  reflexivity.
Qed.

(** C8.  For an opcode that is not in the parser table, whatever length
    its range of opcodes suggests, [parseable] is false and [onCommand]
    raises an Illegal Request error. *)
Theorem onCommand_unknown_opcode lu cbw data :
  ~ In (command (CBW.CBWCB cbw)) (map fst _PARSERS) ->
  parseable (CBW.CBWCB cbw) = false /\
  onCommand cbw data lu
  = (lu, Raise (MassStorageIllegalRequestError SCSI_ASC_NONE)).
Proof.
  intros H. apply dict_get_None in H.
  unfold onCommand, parseable. cbv zeta. rewrite H.
  split; reflexivity.
Qed.

(** The answer to a Request Sense command: the stored sense, or a No Sense
    response when the unit has none. *)
Lemma onCommand_request_sense_eq lu cbw data :
  length (parameters (CBW.CBWCB cbw)) = 15%nat ->
  command (CBW.CBWCB cbw) = SCSI_CMD_REQUEST_SENSE ->
  CBW.bCBWCBLength cbw = 6 ->
  onCommand cbw data lu
  = (lu,
     Ok (Some (RespRequestSense
                 match sense lu with
                 | Some s => s
                 | None =>
                     SCSIResponseRequestSense.simple
                       SCSI_SENSE_KEY_NO_SENSE SCSI_ASC_NONE
                 end))).
Proof.
  intros Hlen Hcmd Hcb.
  unfold onCommand, parseable, cast, from_buffer. cbv zeta.
  rewrite Hcmd, Hlen, Hcb. cbn.
  destruct (sense lu); reflexivity.
Qed.

(** C1, as the code has it.  A Request Sense command returns the sense
    stored on the unit when there is one, and a No Sense response
    otherwise; it leaves the stored sense in place, so that a second
    Request Sense returns what the first one returned. *)
Theorem onCommand_request_sense lu cbw data cbw' data' :
  length (parameters (CBW.CBWCB cbw)) = 15%nat ->
  command (CBW.CBWCB cbw) = SCSI_CMD_REQUEST_SENSE ->
  CBW.bCBWCBLength cbw = 6 ->
  length (parameters (CBW.CBWCB cbw')) = 15%nat ->
  command (CBW.CBWCB cbw') = SCSI_CMD_REQUEST_SENSE ->
  CBW.bCBWCBLength cbw' = 6 ->
  let response :=
    RespRequestSense
      match sense lu with
      | Some s => s
      | None =>
          SCSIResponseRequestSense.simple
            SCSI_SENSE_KEY_NO_SENSE SCSI_ASC_NONE
      end in
  onCommand cbw data lu = (lu, Ok (Some response)) /\
  sense (fst (onCommand cbw data lu)) = sense lu /\
  onCommand cbw' data' (fst (onCommand cbw data lu))
  = (lu, Ok (Some response)).
Proof.
  intros Hlen Hcmd Hcb Hlen' Hcmd' Hcb' response.
  rewrite (onCommand_request_sense_eq lu cbw data Hlen Hcmd Hcb).
  cbn [fst].
  rewrite (onCommand_request_sense_eq lu cbw' data' Hlen' Hcmd' Hcb').
  repeat split; reflexivity.
Qed.

(** C2, where the code departs from it.  A Mode Sense(10) command whose
    CDB length matches its parameter block is refused with an Illegal
    Request error: the dispatch has no case for its parameter block. *)
Theorem onCommand_mode_sense10_illegal_request lu cbw data :
  length (parameters (CBW.CBWCB cbw)) = 15%nat ->
  command (CBW.CBWCB cbw) = SCSI_CMD_MODE_SENSE10 ->
  CBW.bCBWCBLength cbw - 1 = Z.of_nat (sizeof SCSIParametersModeSense10) ->
  onCommand cbw data lu
  = (lu, Raise (MassStorageIllegalRequestError SCSI_ASC_NONE)).
Proof.
  intros Hlen Hcmd Hcb.
  unfold onCommand, parseable, cast, from_buffer. cbv zeta.
  rewrite Hcmd, Hlen. cbn -[Z.sub]. rewrite Hcb. reflexivity.
Qed.

(** Mode Sense(6) is answered with the 4 byte header alone: the mode
    data length counts the 3 bytes that follow it and there is no block
    descriptor. *)
Lemma onCommand_mode_sense6 lu cbw data :
  length (parameters (CBW.CBWCB cbw)) = 15%nat ->
  command (CBW.CBWCB cbw) = SCSI_CMD_MODE_SENSE6 ->
  CBW.bCBWCBLength cbw - 1 = Z.of_nat (sizeof SCSIParametersModeSense6) ->
  exists h,
    onCommand cbw data lu = (lu, Ok (Some (RespModeSense6 h))) /\
    SCSIResponseModeSense6Header.mode_data_length h = 3 /\
    SCSIResponseModeSense6Header.block_descriptor_length h = 0 /\
    SCSIResponseModeSense6Header.to_bytes h = [x03; x00; x00; x00].
Proof.
  intros Hlen Hcmd Hcb.
  eexists. split.
  - unfold onCommand, parseable, cast, from_buffer. cbv zeta.
    rewrite Hcmd, Hlen. cbn -[Z.sub]. rewrite Hcb. reflexivity.
  - repeat split; reflexivity.
Qed.

End CommandHandling.

(** ** Inquiry on a unit of the base class *)

Lemma SCSIResponseInquiry_sizeof : sizeof SCSIResponseInquiry_t = 36%nat.
Proof. reflexivity. Qed.

(** The response of the base class, for a request of at least the size of
    the structure. *)
Lemma default_onInquiry_response (request_size : Z) :
  36 <= request_size ->
  default_onInquiry request_size
  = Ok {| SCSIResponseInquiry.header :=
            {| SCSIResponseInquiry.peripheral_type := 0;
               SCSIResponseInquiry.field_1 := 0x80;
               SCSIResponseInquiry.version := 4;
               SCSIResponseInquiry.field_3 := 2;
               SCSIResponseInquiry.additional_length := 31 |};
          SCSIResponseInquiry.features :=
            {| SCSIResponseInquiry.field_0 := 0;
               SCSIResponseInquiry.flags := 0;
               SCSIResponseInquiry.vendor_id :=
                 [x50; x79; x46; x46; x53; x00; x00; x00];
               SCSIResponseInquiry.product_id :=
                 [x55; x53; x42; x4d; x53; x00; x00; x00;
                  x00; x00; x00; x00; x00; x00; x00; x00];
               SCSIResponseInquiry.product_revision :=
                 [x30; x30; x30; x30] |} |}.
Proof.
  intros H. unfold default_onInquiry.
  rewrite SCSIResponseInquiry_sizeof.
  destruct (Z.leb_spec (Z.of_nat 36) request_size); [reflexivity | lia].
Qed.

Lemma default_onInquiry_too_small (request_size : Z) :
  request_size < 36 ->
  default_onInquiry request_size
  = Raise (MassStorageIllegalRequestError SCSI_ASC_INVALID_FIELD_IN_CDB).
Proof.
  intros H. unfold default_onInquiry.
  rewrite SCSIResponseInquiry_sizeof.
  destruct (Z.leb_spec (Z.of_nat 36) request_size); [lia | reflexivity].
Qed.

Lemma onCommand_inquiry {B : Type} (lu : LogicalUnit B) (cbw : CBW.t)
  (data : option bytes) :
  length (parameters (CBW.CBWCB cbw)) = 15%nat ->
  command (CBW.CBWCB cbw) = SCSI_CMD_INQUIRY ->
  CBW.bCBWCBLength cbw = 6 ->
  lu_class lu = MassStorageLogicalUnit ->
  onCommand cbw data lu
  = (lu,
     match
       default_onInquiry
         (field_get SCSIParametersInquiry "allocation_length"
            (parameters (CBW.CBWCB cbw)))
     with
     | Ok r => Ok (Some (RespInquiry r))
     | Raise e => Raise e
     end).
Proof.
  intros Hlen Hcmd Hcb Hcls.
  unfold onCommand, parseable, cast, from_buffer. cbv zeta.
  rewrite Hcmd, Hlen, Hcb.
  cbn -[field_get default_onInquiry].
  unfold bind, call, getfield. rewrite Hcls.
  cbn -[field_get default_onInquiry].
  destruct lu as [c s b]. cbn in Hcls. subst c.
  cbn -[field_get default_onInquiry].
  destruct (default_onInquiry _); reflexivity.
Qed.

(** C4, as the code has it.  An Inquiry with allocation length 36 on a unit
    of the base class returns the Inquiry structure, which is 36 bytes
    long: peripheral type Direct-Access, removable bit set, vendor
    [PyFFS], product [USBMS] and revision [0000] (the identifiers are zero
    filled).  An Inquiry with a smaller allocation length raises an
    Illegal Request error with Invalid Field in CDB. *)
Theorem onCommand_inquiry_default {B : Type} (lu : LogicalUnit B)
  (cbw : CBW.t) (data : option bytes) :
  length (parameters (CBW.CBWCB cbw)) = 15%nat ->
  command (CBW.CBWCB cbw) = SCSI_CMD_INQUIRY ->
  CBW.bCBWCBLength cbw = 6 ->
  lu_class lu = MassStorageLogicalUnit ->
  let allocation_length :=
    field_get SCSIParametersInquiry "allocation_length"
      (parameters (CBW.CBWCB cbw)) in
  (allocation_length = 36 ->
   exists r,
     onCommand cbw data lu = (lu, Ok (Some (RespInquiry r))) /\
     length (SCSIResponseInquiry.to_bytes r) = 36%nat /\
     SCSIResponseInquiry.peripheral_type (SCSIResponseInquiry.header r)
     = SCSI_INQUIRY_PERIF_TYPE_DIRECT /\
     Z.land (SCSIResponseInquiry.field_1 (SCSIResponseInquiry.header r))
       SCSI_INQUIRY_HEADER_F1_RMB = SCSI_INQUIRY_HEADER_F1_RMB /\
     SCSIResponseInquiry.vendor_id (SCSIResponseInquiry.features r)
     = [x50; x79; x46; x46; x53] ++ repeat x00 3 /\
     SCSIResponseInquiry.product_id (SCSIResponseInquiry.features r)
     = [x55; x53; x42; x4d; x53] ++ repeat x00 11 /\
     SCSIResponseInquiry.product_revision (SCSIResponseInquiry.features r)
     = [x30; x30; x30; x30]) /\
  (allocation_length < 36 ->
   onCommand cbw data lu
   = (lu, Raise (MassStorageIllegalRequestError
                   SCSI_ASC_INVALID_FIELD_IN_CDB))).
Proof.
  intros Hlen Hcmd Hcb Hcls al.
  rewrite (onCommand_inquiry lu cbw data Hlen Hcmd Hcb Hcls).
  fold al. split; intros Hal.
  - rewrite default_onInquiry_response by lia.
    eexists. split; [reflexivity|]. repeat split; reflexivity.
  - rewrite default_onInquiry_too_small by assumption. reflexivity.
Qed.

(** ** Updating a list in place *)

Lemma length_list_update {A : Type} (n : nat) (x : A) (l : list A) :
  (n < length l)%nat -> length (list_update n x l) = length l.
Proof.
  intros H. unfold list_update.
  rewrite length_app, length_firstn. cbn [length]. rewrite length_skipn. lia.
Qed.

Lemma nth_error_list_update {A : Type} (n : nat) (x : A) (l : list A) :
  (n < length l)%nat -> nth_error (list_update n x l) n = Some x.
Proof.
  intros H. unfold list_update.
  rewrite nth_error_app2 by (rewrite length_firstn; lia).
  rewrite length_firstn, Nat.min_l by lia.
  now rewrite Nat.sub_diag.
Qed.

Lemma list_update_twice {A : Type} (n : nat) (x y : A) (l : list A) :
  (n < length l)%nat ->
  list_update n y (list_update n x l) = list_update n y l.
Proof.
  intros H. unfold list_update.
  assert (Hf : length (firstn n l) = n)
    by (rewrite length_firstn; lia).
  rewrite firstn_app, Hf, Nat.sub_diag. cbn [firstn].
  rewrite app_nil_r, firstn_firstn, Nat.min_id.
  f_equal. f_equal.
  rewrite skipn_app, Hf.
  rewrite (skipn_all2 (n := S n) (firstn n l)) by lia.
  replace (S n - n)%nat with 1%nat by lia. reflexivity.
Qed.

Lemma list_update_same {A : Type} (n : nat) (x : A) (l : list A) :
  nth_error l n = Some x -> list_update n x l = l.
Proof.
  revert l. induction n as [|n IH]; intros [|a l] H; try discriminate H.
  - cbn in H. injection H as ->. reflexivity.
  - cbn in H. unfold list_update in *. cbn [firstn skipn app].
    f_equal. now apply IH.
Qed.

(** ** One command cycle *)

Lemma bind_lift_ok {S A C : Type} (a : A) (k : A -> SE S C) (s : S) :
  bind (lift (Ok a)) k s = k a s.
Proof. reflexivity. Qed.

Lemma strerror_0 : os_strerror (- 0) = Ok tt.
Proof. reflexivity. Qed.

Lemma strerror_fits (status : Z) :
  c_int_fits (- status) = true -> os_strerror (- status) = Ok tt.
Proof. intros H. unfold os_strerror. now rewrite H. Qed.

Section Transport.

Context {B : Type}.
Implicit Types (f : MassStorageFunction B) (lu : LogicalUnit B).
Implicit Types (cbw : CBW.t) (data : bytes).

Lemma on_unit_eq {A} f (lun : Z) (m : SE (LogicalUnit B) A) lu :
  0 <= lun ->
  nth_error (_logical_units f) (Z.to_nat lun) = Some lu ->
  on_unit lun m f
  = (with_logical_units
       (list_update (Z.to_nat lun) (fst (m lu)) (_logical_units f)) f,
     snd (m lu)).
Proof.
  intros H0 Hn. unfold on_unit.
  assert (Hlt : (Z.to_nat lun < length (_logical_units f))%nat)
    by (apply nth_error_Some; congruence).
  destruct (Z.leb_spec 0 lun); [|lia].
  destruct (Z.ltb_spec lun (Z.of_nat (length (_logical_units f)))); [|lia].
  cbn [andb]. rewrite Hn. destruct (m lu); reflexivity.
Qed.

Lemma ep_write_ok f (ep : Z) (o : Written) :
  write_faults f = [] ->
  ep_write ep o f
  = (with_endpoints (endpoint_trace f ++ [EpWrite ep o]) [] f, Ok tt).
Proof. intros H. unfold ep_write. now rewrite H. Qed.

Lemma processCBW_no_fault f cbw (payload : option bytes) lu :
  0 <= CBW.bCBWLUN cbw ->
  nth_error (_logical_units f) (Z.to_nat (CBW.bCBWLUN cbw)) = Some lu ->
  write_faults f = [] ->
  _processCBW cbw payload f
  = (cycle_result f cbw (onCommand cbw payload lu), Ok tt).
Proof.
  intros H0 Hn Hw.
  assert (Hlt : (Z.to_nat (CBW.bCBWLUN cbw)
                 < length (_logical_units f))%nat)
    by (apply nth_error_Some; congruence).
  unfold _processCBW, try_except, bind, cycle_result. cbv zeta.
  rewrite (on_unit_eq f _ _ lu H0 Hn).
  destruct (onCommand cbw payload lu) as [lu' [[r|]|e]]; cbn [fst snd].
  - rewrite ep_write_ok by exact Hw.
    rewrite ep_write_ok by reflexivity.
    cbn. rewrite <- app_assoc. reflexivity.
  - unfold ret. rewrite ep_write_ok by exact Hw. reflexivity.
  - assert (Hn' : nth_error
                    (_logical_units
                       (with_logical_units
                          (list_update (Z.to_nat (CBW.bCBWLUN cbw)) lu'
                             (_logical_units f)) f))
                    (Z.to_nat (CBW.bCBWLUN cbw)) = Some lu')
      by (cbn; now apply nth_error_list_update).
    destruct e;
      rewrite (on_unit_eq _ _ _ lu' H0 Hn');
      cbn [fst snd modify];
      rewrite ep_write_ok by exact Hw;
      cbn; rewrite list_update_twice by exact Hlt; reflexivity.
Qed.

(** An OUT packet that carries a CBW without OUT data phase starts the
    command cycle at once. *)
Lemma out_complete_dispatch f data cbw :
  _receiving_length f = 0 ->
  CBW.from_buffer data = Ok cbw ->
  CBW.dCBWSignature cbw = USBMS_CBW_MAGIC ->
  CBW.dCBWDataTransferLength cbw = 0 ->
  _onOutEndpointComplete data 0 f
  = try_except (_processCBW cbw None)
      (fun _ => bind (ep_halt 1) (fun _ => ep_halt 2)) f.
Proof.
  intros Hr Hb Hs Hd.
  unfold _onOutEndpointComplete.
  rewrite strerror_0, bind_lift_ok. cbv beta. cbn [Z.eqb negb].
  unfold try_except at 1. unfold bind at 1. unfold get.
  rewrite Hr. cbn [Z.eqb].
  unfold bind at 1, lift. rewrite Hb, Hs, Hd.
  reflexivity.
Qed.

End Transport.

(** ** The bulk-only transport *)

Lemma le_decode_nonneg (bs : bytes) : 0 <= le_decode bs.
Proof.
  induction bs as [|b r IH]; cbn [le_decode]; [lia|].
  pose proof (Z_of_byte_range b). lia.
Qed.

Lemma CBW_from_buffer_LUN_nonneg (data : bytes) (cbw : CBW.t) :
  CBW.from_buffer data = Ok cbw -> 0 <= CBW.bCBWLUN cbw.
Proof.
  unfold CBW.from_buffer.
  destruct (length data <? sizeof CBW_t)%nat; [discriminate|].
  intros H. injection H as <-. cbn [CBW.bCBWLUN].
  change (field_get CBW_t "bCBWLUN" data) with (le_decode (slice 13 1 data)).
  apply le_decode_nonneg.
Qed.

(** The command buffer of a decoded CBW has its 15 parameter bytes. *)
Lemma CBW_from_buffer_parameters_length (data : bytes) (cbw : CBW.t) :
  CBW.from_buffer data = Ok cbw ->
  length (parameters (CBW.CBWCB cbw)) = 15%nat.
Proof.
  unfold CBW.from_buffer.
  destruct (length data <? sizeof CBW_t)%nat; [discriminate|].
  intros H. injection H as <-. cbn [CBW.CBWCB parameters].
  unfold field_bytes.
  change (field_lookup SCSICommandBuffer_t "parameters")
    with (Some (1%nat, c_array 15)).
  apply length_slice.
Qed.

Section TransportProperties.

Context {B : Type}.
Implicit Types (f : MassStorageFunction B) (lu : LogicalUnit B).
Implicit Types (cbw : CBW.t) (data : bytes).

(** C3, as the code has it.  For a CBW with the right signature, a data
    transfer length of 0 and the number of an existing unit, received
    while idle on working endpoints, the command cycle ends with exactly
    one CSW, written last on the IN endpoint.  Nothing is written before
    it when the command returns no response or raises; a response
    returned by the command is written before it, whatever the data
    transfer length says. *)
Theorem out_complete_no_data_phase f data cbw lu :
  _receiving_length f = 0 ->
  CBW.from_buffer data = Ok cbw ->
  CBW.dCBWSignature cbw = USBMS_CBW_MAGIC ->
  CBW.dCBWDataTransferLength cbw = 0 ->
  nth_error (_logical_units f) (Z.to_nat (CBW.bCBWLUN cbw)) = Some lu ->
  write_faults f = [] ->
  exists f' status,
    _onOutEndpointComplete data 0 f = (f', Ok tt) /\
    endpoint_trace f'
    = endpoint_trace f ++
      match snd (onCommand cbw None lu) with
      | Ok (Some r) =>
          [EpWrite 1 (WResponse r);
           EpWrite 1 (WCSW (CSW.simple (CBW.dCBWTag cbw) status 0))]
      | _ => [EpWrite 1 (WCSW (CSW.simple (CBW.dCBWTag cbw) status 0))]
      end.
Proof.
  intros Hr Hb Hs Hd Hn Hw.
  pose proof (CBW_from_buffer_LUN_nonneg _ _ Hb) as H0.
  rewrite (out_complete_dispatch f data cbw Hr Hb Hs Hd).
  unfold try_except.
  rewrite (processCBW_no_fault f cbw None lu H0 Hn Hw).
  unfold cycle_result.
  destruct (onCommand cbw None lu) as [lu' [[r|]|e]]; cbn [snd].
  - eexists; exists USBMS_CSW_STATUS_GOOD. split; reflexivity.
  - eexists; exists USBMS_CSW_STATUS_GOOD. split; reflexivity.
  - destruct e as [st sn| | | | | | |].
    + eexists; exists st. split; reflexivity.
    + eexists; exists USBMS_CSW_STATUS_PHASE_ERROR. split; reflexivity.
    + eexists; exists USBMS_CSW_STATUS_PHASE_ERROR. split; reflexivity.
    + eexists; exists USBMS_CSW_STATUS_PHASE_ERROR. split; reflexivity.
    + eexists; exists USBMS_CSW_STATUS_PHASE_ERROR. split; reflexivity.
    + eexists; exists USBMS_CSW_STATUS_PHASE_ERROR. split; reflexivity.
    + eexists; exists USBMS_CSW_STATUS_PHASE_ERROR. split; reflexivity.
    + eexists; exists USBMS_CSW_STATUS_PHASE_ERROR. split; reflexivity.
Qed.

(** C6.  A packet received while idle that holds a CBW whose signature is
    not 0x43425355 makes the transport halt the two bulk endpoints and do
    nothing else: no CSW is written and the session state, still idle,
    and the logical units are as before.  This holds for the status 0 of a
    received packet and for every other status whose negation is a C
    [int]. *)
Theorem out_complete_bad_signature f data (status : Z) cbw :
  _receiving_length f = 0 ->
  CBW.from_buffer data = Ok cbw ->
  CBW.dCBWSignature cbw <> USBMS_CBW_MAGIC ->
  c_int_fits (- status) = true ->
  let f' := fst (_onOutEndpointComplete data status f) in
  endpoint_trace f' = endpoint_trace f ++ [EpHalt 1; EpHalt 2] /\
  _receiving_length f' = 0 /\
  _received_data f' = _received_data f /\
  _current_cbw f' = _current_cbw f /\
  _logical_units f' = _logical_units f.
Proof.
  intros Hr Hb Hs Hfit f'.
  assert (E : exists r,
             _onOutEndpointComplete data status f
             = (with_endpoints (endpoint_trace f ++ [EpHalt 1; EpHalt 2])
                  (write_faults f) f, r)).
  { unfold _onOutEndpointComplete.
    rewrite (strerror_fits status Hfit), bind_lift_ok. cbv beta.
    destruct (status =? 0); cbn [negb].
    - unfold try_except at 1. unfold bind at 1. unfold get.
      rewrite Hr. cbn [Z.eqb].
      unfold bind at 1, lift. rewrite Hb.
      destruct (Z.eqb_spec (CBW.dCBWSignature cbw) USBMS_CBW_MAGIC);
        [contradiction|].
      cbn. rewrite <- app_assoc. eexists; reflexivity.
    - cbn. rewrite <- app_assoc. eexists; reflexivity. }
  destruct E as [r E]. subst f'. rewrite E. cbn.
  repeat split; assumption || reflexivity.
Qed.

(** A packet too short to hold a CBW is answered in the same way. *)
Lemma out_complete_short_packet f data :
  _receiving_length f = 0 ->
  (length data < sizeof CBW_t)%nat ->
  _onOutEndpointComplete data 0 f
  = (with_endpoints (endpoint_trace f ++ [EpHalt 1; EpHalt 2])
       (write_faults f) f, Ok tt).
Proof.
  intros Hr Hl.
  unfold _onOutEndpointComplete.
  rewrite strerror_0, bind_lift_ok. cbv beta. cbn [Z.eqb negb].
  unfold try_except at 1. unfold bind at 1. unfold get.
  rewrite Hr. cbn [Z.eqb].
  unfold bind at 1, lift, CBW.from_buffer.
  destruct (Nat.ltb_spec (length data) (sizeof CBW_t)); [|lia].
  cbn. unfold ep_halt, modify. cbn. rewrite <- app_assoc. reflexivity.
Qed.

(** At the level of the transport too, a Request Sense cycle leaves the
    logical units, and so the stored sense, untouched. *)
Lemma processCBW_request_sense_keeps_sense f cbw (payload : option bytes) lu :
  0 <= CBW.bCBWLUN cbw ->
  nth_error (_logical_units f) (Z.to_nat (CBW.bCBWLUN cbw)) = Some lu ->
  write_faults f = [] ->
  length (parameters (CBW.CBWCB cbw)) = 15%nat ->
  command (CBW.CBWCB cbw) = SCSI_CMD_REQUEST_SENSE ->
  CBW.bCBWCBLength cbw = 6 ->
  _logical_units (fst (_processCBW cbw payload f)) = _logical_units f.
Proof.
  intros H0 Hn Hw Hl Hc Hb.
  rewrite (processCBW_no_fault f cbw payload lu H0 Hn Hw).
  rewrite (onCommand_request_sense_eq lu cbw payload Hl Hc Hb).
  cbn. now apply list_update_same.
Qed.

End TransportProperties.

(** ** The logical units of a function *)

Section Units.

Context {B : Type}.
Implicit Types (f : MassStorageFunction B).

Lemma keeps_ret {A} (a : A) : keeps_units (B := B) (ret a).
Proof. intros f. reflexivity. Qed.

Lemma keeps_raise {A} (e : exn) : keeps_units (B := B) (A := A) (raise e).
Proof. intros f. reflexivity. Qed.

Lemma keeps_lift {A} (r : result A) : keeps_units (B := B) (lift r).
Proof. intros f. reflexivity. Qed.

Lemma keeps_get : keeps_units (B := B) get.
Proof. intros f. reflexivity. Qed.

Lemma keeps_modify (g : MassStorageFunction B -> MassStorageFunction B) :
  (forall f, _logical_units (g f) = _logical_units f) ->
  keeps_units (modify g).
Proof. intros H f. cbn. now rewrite H. Qed.

Lemma keeps_bind {A C} (m : SE (MassStorageFunction B) A)
  (k : A -> SE (MassStorageFunction B) C) :
  keeps_units m -> (forall a, keeps_units (k a)) -> keeps_units (bind m k).
Proof.
  intros Hm Hk f. unfold bind.
  specialize (Hm f). destruct (m f) as [f1 [a|e]]; cbn [fst] in *.
  - now rewrite Hk.
  - exact Hm.
Qed.

Lemma keeps_try {A} (m : SE (MassStorageFunction B) A)
  (h : exn -> SE (MassStorageFunction B) A) :
  keeps_units m -> (forall e, keeps_units (h e)) ->
  keeps_units (try_except m h).
Proof.
  intros Hm Hh f. unfold try_except.
  specialize (Hm f). destruct (m f) as [f1 [a|e]]; cbn [fst] in *.
  - exact Hm.
  - now rewrite Hh.
Qed.

Lemma keeps_ep_write (ep : Z) (o : Written) :
  keeps_units (B := B) (ep_write ep o).
Proof.
  intros f. unfold ep_write.
  destruct (write_faults f) as [|[e|] rest]; reflexivity.
Qed.

Lemma keeps_ep_halt (ep : Z) : keeps_units (B := B) (ep_halt ep).
Proof. intros f. reflexivity. Qed.

Lemma keeps_on_unit {A} (lun : Z) (m : SE (LogicalUnit B) A) :
  keeps_units (on_unit lun m).
Proof.
  intros f. unfold on_unit.
  destruct ((0 <=? lun) && (lun <? Z.of_nat (length (_logical_units f))));
    [|reflexivity].
  destruct (nth_error (_logical_units f) (Z.to_nat lun)) as [lu|] eqn:E;
    [|reflexivity].
  destruct (m lu) as [lu' r]. cbn.
  apply length_list_update, nth_error_Some. congruence.
Qed.

Ltac keeps :=
  repeat first
    [ apply keeps_ret | apply keeps_raise | apply keeps_lift
    | apply keeps_get | apply keeps_ep_write | apply keeps_ep_halt
    | apply keeps_on_unit
    | apply keeps_modify; intros; reflexivity
    | apply keeps_bind; [|intros ?]
    | apply keeps_try; [|intros ?]
    | match goal with
      | |- keeps_units (if ?c then _ else _) => destruct c
      | |- keeps_units (match ?x with _ => _ end) => destruct x
      end ].

Lemma keeps_processCBW (cbw : CBW.t) (payload : option bytes) :
  keeps_units (B := B) (_processCBW cbw payload).
Proof. unfold _processCBW. cbv zeta. keeps. Qed.

Lemma keeps_out_complete (data : bytes) (status : Z) :
  keeps_units (B := B) (_onOutEndpointComplete data status).
Proof.
  unfold _onOutEndpointComplete. keeps; apply keeps_processCBW.
Qed.

Lemma length_reset_all (lus : list (LogicalUnit B)) :
  length (fst (reset_all lus)) = length lus.
Proof.
  induction lus as [|lu rest IH]; [reflexivity|].
  cbn [reset_all].
  destruct (call onReset lu) as [lu' [u|e]]; [|reflexivity].
  destruct (reset_all rest) as [rest' r]. cbn [fst length] in *.
  now rewrite IH.
Qed.

Lemma keeps_reset : keeps_units (B := B) reset.
Proof.
  unfold reset. apply keeps_bind.
  - intros f. pose proof (length_reset_all (_logical_units f)) as H.
    destruct (reset_all (_logical_units f)) as [lus r]. exact H.
  - intros _. apply keeps_modify. reflexivity.
Qed.

Lemma Reachable_units (logical_units : list (unit -> LogicalUnit B)) f :
  Reachable logical_units f ->
  logical_units <> [] /\
  length (_logical_units f) = length logical_units.
Proof.
  induction 1 as [f Hi | f data status _ [Hne IH] | f _ [Hne IH]
                 | f faults _ [Hne IH]].
  - unfold MassStorageFunction_init in Hi.
    destruct logical_units as [|luc rest]; [discriminate Hi|].
    cbn [length Nat.eqb] in Hi. injection Hi as <-.
    split; [discriminate|]. cbn [_logical_units length]. f_equal.
    apply length_map.
  - split; [exact Hne|]. now rewrite keeps_out_complete.
  - split; [exact Hne|]. now rewrite keeps_reset.
  - split; [exact Hne|]. exact IH.
Qed.

(** C10.  [__init__] raises [ValueError] on an empty sequence of logical
    units; an instance, at any point of its life, was built from a sequence
    that is not empty, owns at least one logical unit, and [getMaxLUN]
    returns a number that is not negative. *)
Theorem function_owns_a_logical_unit
  (logical_units : list (unit -> LogicalUnit B)) f :
  Reachable logical_units f ->
  MassStorageFunction_init (B := B) [] = Raise ValueError /\
  logical_units <> [] /\
  (1 <= length (_logical_units f))%nat /\
  0 <= getMaxLUN f.
Proof.
  intros H. destruct (Reachable_units _ _ H) as [Hne Hlen].
  assert (1 <= length (_logical_units f))%nat.
  { rewrite Hlen. destruct logical_units; [congruence | cbn; lia]. }
  unfold getMaxLUN. repeat split; try assumption; lia.
Qed.

End Units.

(** ** The properties on sample inputs *)

Lemma onCommand_cdb_length_mismatch_witness :
  onCommand (inquiry_cbw 10 [x00; x24]) None default_unit
  = (default_unit, Raise (MassStorageIllegalRequestError SCSI_ASC_NONE)).
Proof.
  apply (onCommand_cdb_length_mismatch default_unit
           (inquiry_cbw 10 [x00; x24]) None SCSIParametersInquiry).
  - reflexivity.
  - reflexivity.
  - simpl. lia.
Defined.

Lemma onCommand_unknown_opcode_witness :
  cdb_size (CBW.CBWCB read_format_capacity_cbw) = 10 /\
  parseable (CBW.CBWCB read_format_capacity_cbw) = false /\
  onCommand read_format_capacity_cbw None default_unit
  = (default_unit, Raise (MassStorageIllegalRequestError SCSI_ASC_NONE)).
Proof.
  split; [reflexivity|].
  apply (onCommand_unknown_opcode default_unit read_format_capacity_cbw None).
  vm_compute. intuition discriminate.
Defined.

Lemma onCommand_request_sense_witness :
  let stored :=
    SCSIResponseRequestSense.simple SCSI_SENSE_KEY_ILLEGAL_REQUEST
      SCSI_ASC_INVALID_FIELD_IN_CDB in
  let lu := set_sense (Some stored) default_unit in
  onCommand (request_sense_cbw 7 18) None lu
  = (lu, Ok (Some (RespRequestSense stored))) /\
  sense (fst (onCommand (request_sense_cbw 7 18) None lu)) = sense lu /\
  onCommand (request_sense_cbw 8 18) None
    (fst (onCommand (request_sense_cbw 7 18) None lu))
  = (lu, Ok (Some (RespRequestSense stored))).
Proof.
  intros stored lu.
  apply (onCommand_request_sense lu (request_sense_cbw 7 18) None
           (request_sense_cbw 8 18) None); reflexivity.
Defined.

Lemma onCommand_mode_sense10_illegal_request_witness :
  onCommand mode_sense10_cbw None default_unit
  = (default_unit, Raise (MassStorageIllegalRequestError SCSI_ASC_NONE)).
Proof.
  apply (onCommand_mode_sense10_illegal_request default_unit
           mode_sense10_cbw None); reflexivity.
Defined.

Lemma onCommand_inquiry_default_witness :
  (exists r,
     onCommand (inquiry_cbw 6 [x00; x24]) None default_unit
     = (default_unit, Ok (Some (RespInquiry r))) /\
     length (SCSIResponseInquiry.to_bytes r) = 36%nat /\
     SCSIResponseInquiry.peripheral_type (SCSIResponseInquiry.header r)
     = SCSI_INQUIRY_PERIF_TYPE_DIRECT /\
     Z.land (SCSIResponseInquiry.field_1 (SCSIResponseInquiry.header r))
       SCSI_INQUIRY_HEADER_F1_RMB = SCSI_INQUIRY_HEADER_F1_RMB /\
     SCSIResponseInquiry.vendor_id (SCSIResponseInquiry.features r)
     = [x50; x79; x46; x46; x53] ++ repeat x00 3 /\
     SCSIResponseInquiry.product_id (SCSIResponseInquiry.features r)
     = [x55; x53; x42; x4d; x53] ++ repeat x00 11 /\
     SCSIResponseInquiry.product_revision (SCSIResponseInquiry.features r)
     = [x30; x30; x30; x30]) /\
  onCommand (inquiry_cbw 6 [x00; x23]) None default_unit
  = (default_unit,
     Raise (MassStorageIllegalRequestError SCSI_ASC_INVALID_FIELD_IN_CDB)).
Proof.
  split.
  - apply (onCommand_inquiry_default default_unit
             (inquiry_cbw 6 [x00; x24]) None);
      reflexivity.
  - apply (onCommand_inquiry_default default_unit
             (inquiry_cbw 6 [x00; x23]) None);
      reflexivity.
Defined.

Lemma out_complete_no_data_phase_witness :
  exists f' status,
    _onOutEndpointComplete (CBW.to_bytes test_unit_ready_cbw) 0
      default_function = (f', Ok tt) /\
    endpoint_trace f'
    = [EpWrite 1 (WCSW (CSW.simple 5 status 0))].
Proof.
  apply (out_complete_no_data_phase default_function
           (CBW.to_bytes test_unit_ready_cbw) test_unit_ready_cbw
           default_unit); reflexivity.
Defined.

Lemma out_complete_bad_signature_witness :
  let f' := fst (_onOutEndpointComplete bad_signature_packet 0
                   default_function) in
  endpoint_trace f' = [EpHalt 1; EpHalt 2] /\
  _receiving_length f' = 0 /\
  _received_data f' = [] /\
  _current_cbw f' = None /\
  _logical_units f' = [default_unit].
Proof.
  apply (out_complete_bad_signature default_function bad_signature_packet 0
           {| CBW.dCBWSignature := 0xdeadbeef;
              CBW.dCBWTag := 5;
              CBW.dCBWDataTransferLength := 0;
              CBW.bmCBWFlags := 0;
              CBW.bCBWLUN := 0;
              CBW.bCBWCBLength := 6;
              CBW.CBWCB := CBW.CBWCB test_unit_ready_cbw |}).
  - reflexivity.
  - reflexivity.
  - simpl. unfold USBMS_CBW_MAGIC. lia.
  - reflexivity.
Defined.

Lemma function_owns_a_logical_unit_witness :
  MassStorageFunction_init (B := unit) [] = Raise ValueError /\
  [fun _ : unit => default_unit] <> [] /\
  (1 <= length (_logical_units default_function))%nat /\
  0 <= getMaxLUN default_function.
Proof.
  apply (function_owns_a_logical_unit [fun _ => default_unit]
           default_function).
  apply Reach_init. reflexivity.
Defined.

(** ** Where the code departs from the specification *)

(** C1.  An unknown opcode leaves an Illegal Request sense on the unit; the
    Request Sense that follows returns it, and so does the next Request
    Sense, although no error occurred in between: the read does not
    consume the stored sense. *)
Lemma request_sense_not_consumed :
  let f1 := fst (_onOutEndpointComplete
                   (CBW.to_bytes read_format_capacity_cbw) 0
                   default_function) in
  let f2 := fst (_onOutEndpointComplete
                   (CBW.to_bytes (request_sense_cbw 7 18)) 0 f1) in
  let f3 := fst (_onOutEndpointComplete
                   (CBW.to_bytes (request_sense_cbw 8 18)) 0 f2) in
  let illegal_request :=
    SCSIResponseRequestSense.simple SCSI_SENSE_KEY_ILLEGAL_REQUEST
      SCSI_ASC_NONE in
  let no_sense :=
    SCSIResponseRequestSense.simple SCSI_SENSE_KEY_NO_SENSE SCSI_ASC_NONE in
  endpoint_trace f3
  = [EpWrite 1 (WCSW (CSW.simple 1 USBMS_CSW_STATUS_BAD 0));
     EpWrite 1 (WResponse (RespRequestSense illegal_request));
     EpWrite 1 (WCSW (CSW.simple 7 USBMS_CSW_STATUS_GOOD 0));
     EpWrite 1 (WResponse (RespRequestSense illegal_request));
     EpWrite 1 (WCSW (CSW.simple 8 USBMS_CSW_STATUS_GOOD 0))] /\
  nth_error (endpoint_trace f3) 3
  <> Some (EpWrite 1 (WResponse (RespRequestSense no_sense))).
Proof.
  split.
  - vm_compute. reflexivity.
  - vm_compute. discriminate.
Qed.

(** C3.  A Request Sense CBW with a data transfer length of 0 is answered
    by the sense data and then the CSW: a payload is written on the IN
    endpoint before the CSW. *)
Lemma no_data_phase_payload_written :
  let cbw := request_sense_cbw 7 0 in
  let f' := fst (_onOutEndpointComplete (CBW.to_bytes cbw) 0
                   default_function) in
  CBW.from_buffer (CBW.to_bytes cbw) = Ok cbw /\
  CBW.dCBWSignature cbw = USBMS_CBW_MAGIC /\
  CBW.dCBWDataTransferLength cbw = 0 /\
  endpoint_trace f'
  = [EpWrite 1
       (WResponse
          (RespRequestSense
             (SCSIResponseRequestSense.simple SCSI_SENSE_KEY_NO_SENSE
                SCSI_ASC_NONE)));
     EpWrite 1 (WCSW (CSW.simple 7 USBMS_CSW_STATUS_GOOD 0))] /\
  ~ (exists c, endpoint_trace f' = [EpWrite 1 (WCSW c)]).
Proof.
  repeat split; try (vm_compute; reflexivity).
  intros [c H]. vm_compute in H. discriminate H.
Qed.

(** C4.  The structure returned for an Inquiry with allocation length 36 is
    36 bytes long, not 40. *)
Lemma inquiry_response_not_40_bytes :
  ~ (exists r,
       snd (onCommand (inquiry_cbw 6 [x00; x24]) None default_unit)
       = Ok (Some (RespInquiry r)) /\
       length (SCSIResponseInquiry.to_bytes r) = 40%nat).
Proof.
  intros [r [H L]]. vm_compute in H. injection H as <-.
  vm_compute in L. discriminate L.
Qed.

(** * Further properties *)

(** ** The command table and the length classes *)

(** For every opcode of the parser table the length class of the opcode is
    the size of its parameter block plus the opcode byte, unless the size
    has been overridden. *)
Theorem cdb_size_matches_parser (cb : SCSICommandBuffer) (parser : ctype) :
  _cdb_size_override cb = None ->
  dict_get _PARSERS (command cb) = Some parser ->
  cdb_size cb = Z.of_nat (sizeof parser) + 1.
Proof.
  intros Ho Hp. unfold cdb_size. rewrite Ho.
  revert Hp. unfold _PARSERS. cbn [dict_get].
  repeat match goal with
         | |- context [Z.eqb ?a (command cb)] =>
             destruct (Z.eqb_spec a (command cb)) as [<- | _]
         end;
    intros H; try discriminate H; injection H as <-; reflexivity.
Qed.

Lemma cdb_size_matches_parser_witness :
  cdb_size (CBW.CBWCB mode_sense10_cbw)
  = Z.of_nat (sizeof SCSIParametersModeSense10) + 1.
Proof.
  apply (cdb_size_matches_parser (CBW.CBWCB mode_sense10_cbw)
           SCSIParametersModeSense10); reflexivity.
Defined.

(** ** The sense structure *)

Lemma c_store_1_land (x : Z) : c_store 1 x = Z.land x 255.
Proof.
  unfold c_store. change (2 ^ (8 * Z.of_nat 1)) with (2 ^ 8).
  rewrite <- Z.land_ones by lia. reflexivity.
Qed.

Lemma land_land_r (a c d : Z) : Z.land (Z.land a c) d = Z.land a (Z.land c d).
Proof. symmetry. apply Z.land_assoc. Qed.

(** Setting the error code or the sense key and reading it back gives the
    value masked to its bits; the setters leave the other bits of their
    byte (the valid bit, the upper half of byte 2) and the other fields
    alone. *)
Theorem sense_accessors (r : SCSIResponseRequestSense.t) (v : Z) :
  SCSIResponseRequestSense.error_code
    (SCSIResponseRequestSense.set_error_code v r) = Z.land v 0x7f /\
  SCSIResponseRequestSense.sense_key
    (SCSIResponseRequestSense.set_sense_key v r) = Z.land v 0x0f /\
  Z.land (SCSIResponseRequestSense.field_0
            (SCSIResponseRequestSense.header
               (SCSIResponseRequestSense.set_error_code v r))) 0x80
  = Z.land (SCSIResponseRequestSense.field_0
              (SCSIResponseRequestSense.header r)) 0x80 /\
  Z.land (SCSIResponseRequestSense.field_2
            (SCSIResponseRequestSense.header
               (SCSIResponseRequestSense.set_sense_key v r))) 0xf0
  = Z.land (SCSIResponseRequestSense.field_2
              (SCSIResponseRequestSense.header r)) 0xf0 /\
  SCSIResponseRequestSense.sense_key
    (SCSIResponseRequestSense.set_error_code v r)
  = SCSIResponseRequestSense.sense_key r /\
  SCSIResponseRequestSense.error_code
    (SCSIResponseRequestSense.set_sense_key v r)
  = SCSIResponseRequestSense.error_code r /\
  SCSIResponseRequestSense.ext (SCSIResponseRequestSense.set_error_code v r)
  = SCSIResponseRequestSense.ext r /\
  SCSIResponseRequestSense.ext (SCSIResponseRequestSense.set_sense_key v r)
  = SCSIResponseRequestSense.ext r.
Proof.
  destruct r as [[f0 ob f2 inf asl] e].
  unfold SCSIResponseRequestSense.error_code,
    SCSIResponseRequestSense.sense_key,
    SCSIResponseRequestSense.set_error_code,
    SCSIResponseRequestSense.set_sense_key,
    SCSIResponseRequestSense.set_field_0,
    SCSIResponseRequestSense.set_field_2.
  cbn [SCSIResponseRequestSense.header SCSIResponseRequestSense.ext
       SCSIResponseRequestSense.field_0 SCSIResponseRequestSense.field_2].
  rewrite !c_store_1_land.
  unfold SCSI_REQUEST_SENSE_F0_ERROR_CODE_MASK,
    SCSI_REQUEST_SENSE_F2_SENSE_KEY_MASK.
  change (Z.land (Z.lnot 127) 255) with 128.
  change (Z.land (Z.lnot 15) 255) with 240.
  repeat split;
    rewrite ?land_land_r, ?Z.land_lor_distr_l, ?land_land_r;
    cbn [Z.land Pos.land Pos.Nsucc_double Pos.Ndouble N.succ_double
         N.double Z.of_N];
    rewrite ?Z.land_0_r, ?Z.lor_0_l, ?Z.lor_0_r; reflexivity.
Qed.

Lemma land_small (k : Z) (n : Z) :
  0 <= n -> 0 <= k < 2 ^ n -> Z.land k (Z.ones n) = k.
Proof.
  intros Hn Hk. rewrite Z.land_ones by assumption. now apply Z.mod_small.
Qed.

(** The sense built by [simple], for a 4 bit sense key and a 16 bit
    ASC/ASCQ: a current error (0x70), the key in byte 2, 10 additional
    bytes announced in byte 7, and the ASC/ASCQ in bytes 12 and 13, most
    significant byte first; 18 bytes in all. *)
Theorem sense_simple_bytes (sense_key asc_ascq : Z) :
  0 <= sense_key < 16 ->
  0 <= asc_ascq < 2 ^ 16 ->
  let s := SCSIResponseRequestSense.simple sense_key asc_ascq in
  SCSIResponseRequestSense.error_code s = SCSI_ERROR_CODE_CURRENT /\
  SCSIResponseRequestSense.sense_key s = sense_key /\
  SCSIResponseRequestSense.asc_ascq (SCSIResponseRequestSense.ext s)
  = asc_ascq /\
  SCSIResponseRequestSense.to_bytes s
  = [x70; x00; byte_of_Z sense_key; x00; x00; x00; x00; x0a;
     x00; x00; x00; x00; byte_of_Z (asc_ascq / 256); byte_of_Z asc_ascq;
     x00; x00; x00; x00].
Proof.
  intros Hk Ha s.
  assert (Ek : Z.land sense_key 15 = sense_key)
    by (apply (land_small sense_key 4); [lia | exact Hk]).
  assert (E2 : SCSIResponseRequestSense.field_2
                 (SCSIResponseRequestSense.header s) = sense_key).
  { subst s. unfold SCSIResponseRequestSense.simple.
    cbv zeta.
    unfold SCSIResponseRequestSense.set_asc_ascq,
      SCSIResponseRequestSense.set_sense_key,
      SCSIResponseRequestSense.set_field_2.
    cbn [SCSIResponseRequestSense.header SCSIResponseRequestSense.field_2].
    unfold SCSI_REQUEST_SENSE_F2_SENSE_KEY_MASK.
    rewrite Ek.
    change (SCSIResponseRequestSense.field_2 _) with 0.
    change (c_store 1 (Z.land 0 (Z.land (Z.lnot 15) 255))) with 0.
    rewrite Z.lor_0_l. apply c_store_small. cbn. lia. }
  assert (Ea : SCSIResponseRequestSense.asc_ascq
                 (SCSIResponseRequestSense.ext s) = asc_ascq).
  { subst s. cbn [SCSIResponseRequestSense.simple
                  SCSIResponseRequestSense.set_asc_ascq
                  SCSIResponseRequestSense.ext
                  SCSIResponseRequestSense.asc_ascq].
    apply c_store_small. cbn. lia. }
  split; [|split; [|split]].
  - reflexivity.
  - unfold SCSIResponseRequestSense.sense_key. rewrite E2. exact Ek.
  - exact Ea.
  - unfold SCSIResponseRequestSense.to_bytes. cbv zeta.
    rewrite E2, Ea. reflexivity.
Qed.

Lemma sense_simple_bytes_witness :
  let s :=
    SCSIResponseRequestSense.simple SCSI_SENSE_KEY_ILLEGAL_REQUEST
      SCSI_ASC_INVALID_FIELD_IN_CDB in
  SCSIResponseRequestSense.error_code s = SCSI_ERROR_CODE_CURRENT /\
  SCSIResponseRequestSense.sense_key s = SCSI_SENSE_KEY_ILLEGAL_REQUEST /\
  SCSIResponseRequestSense.asc_ascq (SCSIResponseRequestSense.ext s)
  = SCSI_ASC_INVALID_FIELD_IN_CDB /\
  SCSIResponseRequestSense.to_bytes s
  = [x70; x00; x05; x00; x00; x00; x00; x0a;
     x00; x00; x00; x00; x24; x00; x00; x00; x00; x00].
Proof.
  apply (sense_simple_bytes SCSI_SENSE_KEY_ILLEGAL_REQUEST
           SCSI_ASC_INVALID_FIELD_IN_CDB);
    unfold SCSI_SENSE_KEY_ILLEGAL_REQUEST, SCSI_ASC_INVALID_FIELD_IN_CDB; lia.
Defined.

(** ** The Inquiry structure *)





(** ** The command block wrapper *)

Lemma le_decode_bound (bs : bytes) :
  0 <= le_decode bs < 2 ^ (8 * Z.of_nat (length bs)).
Proof.
  induction bs as [|b r IH].
  - cbn. lia.
  - cbn [le_decode length]. pose proof (Z_of_byte_range b).
    replace (8 * Z.of_nat (S (length r))) with (8 + 8 * Z.of_nat (length r))
      by lia.
    rewrite Z.pow_add_r by lia. change (2 ^ 8) with 256. nia.
Qed.

Lemma le_decode_slice_bound (off len : nat) (buf : bytes) :
  0 <= le_decode (slice off len buf) < 2 ^ (8 * Z.of_nat len).
Proof.
  pose proof (le_decode_bound (slice off len buf)) as H.
  now rewrite length_slice in H.
Qed.

Lemma CBW_from_buffer_eq (data : bytes) :
  (31 <= length data)%nat ->
  CBW.from_buffer data
  = Ok {| CBW.dCBWSignature := le_decode (slice 0 4 data);
          CBW.dCBWTag := le_decode (slice 4 4 data);
          CBW.dCBWDataTransferLength := le_decode (slice 8 4 data);
          CBW.bmCBWFlags := le_decode (slice 12 1 data);
          CBW.bCBWLUN := le_decode (slice 13 1 data);
          CBW.bCBWCBLength := le_decode (slice 14 1 data);
          CBW.CBWCB :=
            {| command := le_decode (slice 0 1 (slice 15 16 data));
               parameters := slice 1 15 (slice 15 16 data);
               _cdb_size_override := None |} |}.
Proof.
  intros H. unfold CBW.from_buffer.
  change (sizeof CBW_t) with 31%nat.
  destruct (Nat.ltb_spec (length data) 31); [lia | reflexivity].
Qed.

Lemma CBW_from_buffer_short (data : bytes) :
  (length data < 31)%nat -> CBW.from_buffer data = Raise ValueError.
Proof.
  intros H. unfold CBW.from_buffer. change (sizeof CBW_t) with 31%nat.
  destruct (Nat.ltb_spec (length data) 31); [reflexivity | lia].
Qed.

Lemma CBW_from_buffer_wf (data : bytes) (cbw : CBW.t) :
  CBW.from_buffer data = Ok cbw -> CBW_wf cbw.
Proof.
  destruct (Nat.lt_ge_cases (length data) 31) as [H|H].
  - rewrite (CBW_from_buffer_short data H). discriminate.
  - rewrite (CBW_from_buffer_eq data H).
    intros E. injection E as <-. unfold CBW_wf.
    cbn [CBW.dCBWSignature CBW.dCBWTag CBW.dCBWDataTransferLength
         CBW.bmCBWFlags CBW.bCBWLUN CBW.bCBWCBLength CBW.CBWCB
         command parameters _cdb_size_override].
    repeat match goal with
           | |- _ /\ _ => split
           end;
      try apply (le_decode_slice_bound _ 4);
      try apply (le_decode_slice_bound _ 1).
    + apply length_slice.
    + reflexivity.
Qed.

(** Decoding a CBW fails, with [ValueError], exactly on a buffer of less
    than 31 bytes; what it decodes has every field within the width of its
    ctypes field and the 15 parameter bytes. *)
Theorem CBW_from_buffer_decodes (data : bytes) :
  (CBW.from_buffer data = Raise ValueError <-> (length data < 31)%nat) /\
  (forall cbw, CBW.from_buffer data = Ok cbw -> CBW_wf cbw).
Proof.
  split; [|apply CBW_from_buffer_wf].
  destruct (Nat.lt_ge_cases (length data) 31) as [H|H].
  - rewrite (CBW_from_buffer_short data H). tauto.
  - rewrite (CBW_from_buffer_eq data H). split; [discriminate | lia].
Qed.

Lemma CBW_from_buffer_decodes_witness :
  CBW.from_buffer [x55; x53; x42; x43] = Raise ValueError /\
  CBW_wf test_unit_ready_cbw.
Proof.
  split.
  - apply (CBW_from_buffer_decodes [x55; x53; x42; x43]). simpl. lia.
  - apply (CBW_from_buffer_decodes (CBW.to_bytes test_unit_ready_cbw)).
    reflexivity.
Defined.

Lemma slice_all (len : nat) (buf : bytes) :
  length buf = len -> slice 0 len buf = buf.
Proof.
  intros <-. unfold slice. cbn [skipn].
  rewrite firstn_app, firstn_all, Nat.sub_diag. cbn [firstn].
  apply app_nil_r.
Qed.

Ltac explode l H :=
  repeat (destruct l as [|? l]; [discriminate H|]);
  destruct l; [|discriminate H].

(** A well formed CBW that is laid out on 31 bytes, with or without bytes
    after it, is decoded to the same record. *)
Theorem CBW_from_buffer_to_bytes (c : CBW.t) (extra : bytes) :
  CBW_wf c ->
  length (CBW.to_bytes c) = 31%nat /\
  CBW.from_buffer (CBW.to_bytes c ++ extra) = Ok c.
Proof.
  destruct c as [sg tag dtl fl lun cbl [cmd params ov]].
  unfold CBW_wf.
  cbn [CBW.dCBWSignature CBW.dCBWTag CBW.dCBWDataTransferLength
       CBW.bmCBWFlags CBW.bCBWLUN CBW.bCBWCBLength CBW.CBWCB
       command parameters _cdb_size_override].
  intros (Hs & Ht & Hd & Hf & Hl & Hc & Hm & Hp & ->).
  assert (E : CBW.to_bytes
                {| CBW.dCBWSignature := sg; CBW.dCBWTag := tag;
                   CBW.dCBWDataTransferLength := dtl; CBW.bmCBWFlags := fl;
                   CBW.bCBWLUN := lun; CBW.bCBWCBLength := cbl;
                   CBW.CBWCB := {| command := cmd; parameters := params;
                                   _cdb_size_override := None |} |}
              = le_encode 4 sg ++ le_encode 4 tag ++ le_encode 4 dtl
                ++ le_encode 1 fl ++ le_encode 1 lun ++ le_encode 1 cbl
                ++ le_encode 1 cmd ++ params).
  { unfold CBW.to_bytes.
    cbn [CBW.dCBWSignature CBW.dCBWTag CBW.dCBWDataTransferLength
         CBW.bmCBWFlags CBW.bCBWLUN CBW.bCBWCBLength CBW.CBWCB
         command parameters].
    change (field_size SCSICommandBuffer_t "parameters") with 15%nat.
    rewrite (slice_all 15 params Hp). reflexivity. }
  rewrite E. split.
  - rewrite !length_app, !length_le_encode, Hp. reflexivity.
  - rewrite CBW_from_buffer_eq
      by (rewrite !length_app, !length_le_encode, Hp; lia).
    explode params Hp.
    cbn [le_encode app slice skipn firstn repeat].
    repeat match goal with
           | |- context [le_decode [byte_of_Z ?v; ?b; ?c; ?d]] =>
               change [byte_of_Z v; b; c; d] with (le_encode 4 v)
           | |- context [le_decode [byte_of_Z ?v]] =>
               change [byte_of_Z v] with (le_encode 1 v)
           end.
    rewrite !le_decode_le_encode.
    change (8 * Z.of_nat 4) with 32. change (8 * Z.of_nat 1) with 8.
    rewrite !Z.mod_small by assumption. reflexivity.
Qed.

Lemma CBW_from_buffer_to_bytes_witness :
  length (CBW.to_bytes (request_sense_cbw 7 18)) = 31%nat /\
  CBW.from_buffer (CBW.to_bytes (request_sense_cbw 7 18) ++ [x01; x02])
  = Ok (request_sense_cbw 7 18).
Proof.
  apply (CBW_from_buffer_to_bytes (request_sense_cbw 7 18) [x01; x02]).
  unfold CBW_wf. simpl.
  repeat match goal with |- _ /\ _ => split end;
    try reflexivity; unfold USBMS_CBW_MAGIC, SCSI_CMD_REQUEST_SENSE; lia.
Defined.

(** ** What a command does to the unit *)

Section UnitSense.

Context {B : Type}.

Lemma keeps_sense_ret {A} (a : A) : keeps_sense (B := B) (ret a).
Proof. intros lu. split; reflexivity. Qed.

Lemma keeps_sense_raise {A} (e : exn) :
  keeps_sense (B := B) (A := A) (raise e).
Proof. intros lu. split; reflexivity. Qed.

Lemma keeps_sense_lift {A} (r : result A) : keeps_sense (B := B) (lift r).
Proof. intros lu. split; reflexivity. Qed.

Lemma keeps_sense_get : keeps_sense (B := B) get.
Proof. intros lu. split; reflexivity. Qed.

Lemma keeps_sense_call {A}
  (m : LogicalUnitClass B -> B -> B * result A) :
  keeps_sense (call m).
Proof.
  intros lu. unfold call.
  destruct (m (lu_class lu) (backend lu)). split; reflexivity.
Qed.

Lemma keeps_sense_bind {A C} (m : SE (LogicalUnit B) A)
  (k : A -> SE (LogicalUnit B) C) :
  keeps_sense m -> (forall a, keeps_sense (k a)) -> keeps_sense (bind m k).
Proof.
  intros Hm Hk lu. unfold bind.
  specialize (Hm lu). destruct (m lu) as [lu1 [a|e]]; cbn [fst] in *.
  - destruct (Hk a lu1) as [H1 H2]. destruct Hm as [H3 H4].
    split; congruence.
  - exact Hm.
Qed.

Ltac keeps_sense_tac :=
  repeat first
    [ apply keeps_sense_ret | apply keeps_sense_raise
    | apply keeps_sense_lift | apply keeps_sense_get
    | apply keeps_sense_call
    | apply keeps_sense_bind; [|intros ?]
    | match goal with
      | |- keeps_sense (if ?c then _ else _) => destruct c
      | |- keeps_sense (match ?x with _ => _ end) => destruct x
      end ].

Lemma keeps_sense_onCommand (cbw : CBW.t) (data : option bytes) :
  keeps_sense (onCommand (B := B) cbw data).
Proof. unfold onCommand. cbv zeta. keeps_sense_tac. Qed.

(** Whatever the command, the data and the backend, [onCommand] leaves the
    pending sense of the unit as it found it: the sense changes only when
    the transport stores the error of a failed command. *)
Theorem onCommand_keeps_sense (cbw : CBW.t) (data : option bytes)
  (lu : LogicalUnit B) :
  sense (fst (onCommand cbw data lu)) = sense lu /\
  lu_class (fst (onCommand cbw data lu)) = lu_class lu.
Proof. apply keeps_sense_onCommand. Qed.

End UnitSense.

Lemma be_decode_le_decode_rev (bs : bytes) : be_decode bs = le_decode (rev bs).
Proof. rewrite <- be_decode_rev, rev_involutive. reflexivity. Qed.

Lemma field_get_nonneg (s : ctype) (name : string) (buf : bytes) :
  0 <= field_get s name buf.
Proof.
  unfold field_get.
  destruct (field_lookup s name) as [[off [w| |]]|]; try lia.
  destruct (struct_endian s); cbn [decode_int].
  - rewrite be_decode_le_decode_rev. apply le_decode_nonneg.
  - apply le_decode_nonneg.
Qed.

Section MoreCommands.

Context {B : Type}.
Implicit Types (lu : LogicalUnit B) (cbw : CBW.t).

Lemma onCommand_read10_eq lu cbw (data : option bytes) :
  length (parameters (CBW.CBWCB cbw)) = 15%nat ->
  command (CBW.CBWCB cbw) = SCSI_CMD_READ10 ->
  CBW.bCBWCBLength cbw = 10 ->
  onCommand cbw data lu
  = bind (call (fun c =>
                  onRead c
                    (field_get SCSIParametersIO10 "lba"
                       (parameters (CBW.CBWCB cbw)))
                    (field_get SCSIParametersIO10 "transfer_length"
                       (parameters (CBW.CBWCB cbw)))))
      (fun d => ret (Some (RespBytes d))) lu.
Proof.
  intros Hlen Hcmd Hcb.
  unfold onCommand, parseable, cast, from_buffer. cbv zeta.
  rewrite Hcmd, Hlen, Hcb. reflexivity.
Qed.

Lemma onCommand_write10_eq lu cbw (d : bytes) :
  length (parameters (CBW.CBWCB cbw)) = 15%nat ->
  command (CBW.CBWCB cbw) = SCSI_CMD_WRITE10 ->
  CBW.bCBWCBLength cbw = 10 ->
  onCommand cbw (Some d) lu
  = bind (call (fun c =>
                  onWrite c
                    (field_get SCSIParametersIO10 "lba"
                       (parameters (CBW.CBWCB cbw))) d))
      (fun _ => ret None) lu.
Proof.
  intros Hlen Hcmd Hcb.
  unfold onCommand, parseable, cast, from_buffer. cbv zeta.
  rewrite Hcmd, Hlen, Hcb. reflexivity.
Qed.

Lemma onCommand_write10_no_data lu cbw :
  length (parameters (CBW.CBWCB cbw)) = 15%nat ->
  command (CBW.CBWCB cbw) = SCSI_CMD_WRITE10 ->
  CBW.bCBWCBLength cbw = 10 ->
  onCommand cbw None lu = (lu, Raise MassStoragePhaseError).
Proof.
  intros Hlen Hcmd Hcb.
  unfold onCommand, parseable, cast, from_buffer. cbv zeta.
  rewrite Hcmd, Hlen, Hcb. reflexivity.
Qed.

(** A Write(10) whose CBW announces no data reaches the unit without
    data: the backend is not called, the cycle ends with a Phase Error
    CSW, and the pending sense of the unit is cleared. *)
Theorem write10_without_data (f : MassStorageFunction B) (data : bytes)
  cbw lu :
  _receiving_length f = 0 ->
  CBW.from_buffer data = Ok cbw ->
  CBW.dCBWSignature cbw = USBMS_CBW_MAGIC ->
  CBW.dCBWDataTransferLength cbw = 0 ->
  command (CBW.CBWCB cbw) = SCSI_CMD_WRITE10 ->
  CBW.bCBWCBLength cbw = 10 ->
  nth_error (_logical_units f) (Z.to_nat (CBW.bCBWLUN cbw)) = Some lu ->
  write_faults f = [] ->
  _onOutEndpointComplete data 0 f
  = (with_endpoints
       (endpoint_trace f
        ++ [EpWrite 1 (WCSW (CSW.simple (CBW.dCBWTag cbw)
                               USBMS_CSW_STATUS_PHASE_ERROR 0))]) []
       (with_logical_units
          (list_update (Z.to_nat (CBW.bCBWLUN cbw)) (set_sense None lu)
             (_logical_units f)) f),
     Ok tt).
Proof.
  intros Hr Hb Hs Hd Hc Hl Hn Hw.
  pose proof (CBW_from_buffer_LUN_nonneg _ _ Hb) as H0.
  pose proof (CBW_from_buffer_parameters_length _ _ Hb) as Hp.
  rewrite (out_complete_dispatch f data cbw Hr Hb Hs Hd).
  unfold try_except.
  rewrite (processCBW_no_fault f cbw None lu H0 Hn Hw).
  rewrite (onCommand_write10_no_data lu cbw Hp Hc Hl).
  reflexivity.
Qed.

(** Read Capacity(10) is refused, without asking the backend, when the
    second flags byte is not zero.  Otherwise the two numbers the backend
    returns are sent as 8 bytes, each number on 4 bytes with the most
    significant byte first, provided both fit 32 bits; a number that does
    not fit makes the command fail with [OverflowError]. *)
Theorem onCommand_read_capacity lu cbw (data : option bytes) :
  length (parameters (CBW.CBWCB cbw)) = 15%nat ->
  command (CBW.CBWCB cbw) = SCSI_CMD_READ_CAPACITY10 ->
  CBW.bCBWCBLength cbw = 10 ->
  let flags2 :=
    field_get SCSIParametersReadCapacity10 "flags2"
      (parameters (CBW.CBWCB cbw)) in
  (flags2 <> 0 ->
   onCommand cbw data lu
   = (lu, Raise (MassStorageIllegalRequestError
                   SCSI_ASC_INVALID_FIELD_IN_CDB))) /\
  (flags2 = 0 ->
   forall num_lba sector_size,
     snd (onReadCapacity (lu_class lu) (backend lu))
     = Ok (num_lba, sector_size) ->
     (0 <= num_lba < 2 ^ 32 -> 0 <= sector_size < 2 ^ 32 ->
      exists response,
        snd (onCommand cbw data lu) = Ok (Some (RespBytes response)) /\
        length response = 8%nat /\
        be_decode (firstn 4 response) = num_lba /\
        be_decode (skipn 4 response) = sector_size) /\
     (~ (0 <= num_lba < 2 ^ 32) \/ ~ (0 <= sector_size < 2 ^ 32) ->
      snd (onCommand cbw data lu) = Raise OverflowError)).
Proof.
  intros Hlen Hcmd Hcb flags2.
  assert (E : onCommand cbw data lu
              = (if flags2 =? 0 then
                   bind (call onReadCapacity)
                     (fun cap =>
                        bind (lift (int_to_bytes_big (fst cap) 4))
                          (fun num_lba =>
                             bind (lift (int_to_bytes_big (snd cap) 4))
                               (fun sector_size =>
                                  ret (Some (RespBytes
                                               (num_lba ++ sector_size))))))
                 else raise (MassStorageIllegalRequestError
                               SCSI_ASC_INVALID_FIELD_IN_CDB)) lu).
  { unfold onCommand, parseable, cast, from_buffer. cbv zeta.
    rewrite Hcmd, Hlen, Hcb. reflexivity. }
  rewrite E. clear E.
  destruct (Z.eqb_spec flags2 0) as [Hz|Hz]; split;
    try (intros; contradiction); try reflexivity.
  intros _ n s Hcap. unfold bind, call, lift, ret in *.
  destruct (onReadCapacity (lu_class lu) (backend lu)) as [b' r].
  cbn [snd] in Hcap. subst r. cbn [fst snd].
  unfold int_to_bytes_big. change (8 * Z.of_nat 4) with 32.
  split.
  - intros Hn Hs.
    destruct (Z.leb_spec 0 n); [|lia].
    destruct (Z.ltb_spec n (2 ^ 32)); [|lia].
    destruct (Z.leb_spec 0 s); [|lia].
    destruct (Z.ltb_spec s (2 ^ 32)); [|lia].
    cbn [andb snd]. eexists. split; [reflexivity|].
    assert (L : length (be_encode 4 n) = 4%nat) by apply length_be_encode.
    split; [rewrite length_app, !length_be_encode; reflexivity|].
    rewrite firstn_app, L, Nat.sub_diag, firstn_all2 by lia.
    rewrite skipn_app, L, Nat.sub_diag, skipn_all2 by lia.
    cbn [firstn skipn app]. rewrite app_nil_r, !be_decode_be_encode.
    change (8 * Z.of_nat 4) with 32.
    rewrite !Z.mod_small by assumption. split; reflexivity.
  - intros Hbad.
    destruct (Z.leb_spec 0 n); cbn [andb]; [|reflexivity].
    destruct (Z.ltb_spec n (2 ^ 32)); cbn [andb snd]; [|reflexivity].
    destruct (Z.leb_spec 0 s); cbn [andb snd]; [|reflexivity].
    destruct (Z.ltb_spec s (2 ^ 32)); cbn [andb snd]; [|reflexivity].
    lia.
Qed.


End MoreCommands.

(** ** The demonstration block device *)

Lemma py_slice_assign_length {A : Type} (off : nat) (v l : list A) :
  length (firstn off l ++ v ++ skipn (off + length v) l)
  = (Nat.min off (length l) + length v
     + (length l - (off + length v)))%nat.
Proof.
  rewrite !length_app, length_firstn, length_skipn. lia.
Qed.

Lemma py_slice_after_assign {A : Type} (off : nat) (v l : list A) :
  (off <= length l)%nat ->
  firstn (length v) (skipn off (firstn off l ++ v ++ skipn (off + length v) l))
  = v.
Proof.
  intros H.
  assert (Hf : length (firstn off l) = off)
    by (rewrite length_firstn; lia).
  rewrite skipn_app, Hf, Nat.sub_diag.
  rewrite (skipn_all2 (n := off) (firstn off l)) by lia.
  cbn [skipn app].
  rewrite firstn_app, Nat.sub_diag, firstn_all. cbn [firstn].
  apply app_nil_r.
Qed.

Lemma Dummy_onWrite_eq (lba : Z) (data _io : bytes) :
  0 <= lba ->
  fst (onWrite MassStorageLogicalUnitDummy lba data _io)
  = firstn (Z.to_nat (lba * BLOCK_SIZE)) _io ++ data
    ++ skipn (Z.to_nat (lba * BLOCK_SIZE) + length data) _io.
Proof.
  intros H. cbn [onWrite MassStorageLogicalUnitDummy fst].
  unfold py_slice_assign.
  rewrite Z2Nat.inj_add, Nat2Z.id by (unfold BLOCK_SIZE; lia).
  reflexivity.
Qed.

Lemma Dummy_onRead_eq (lba len : Z) (_io : bytes) :
  0 <= len ->
  snd (onRead MassStorageLogicalUnitDummy lba len _io)
  = Ok (firstn (Z.to_nat (len * BLOCK_SIZE))
          (skipn (Z.to_nat (lba * BLOCK_SIZE)) _io)).
Proof.
  intros H. cbn [onRead MassStorageLogicalUnitDummy snd].
  unfold py_slice.
  replace (lba * BLOCK_SIZE + len * BLOCK_SIZE - lba * BLOCK_SIZE)
    with (len * BLOCK_SIZE) by lia.
  reflexivity.
Qed.

(** Writing blocks to the demonstration device and reading the same
    blocks back returns what was written, as soon as the write starts
    within the store; the write changes nothing but the store. *)
Theorem Dummy_write_then_read (lba len : Z) (data _io : bytes) :
  0 <= lba ->
  lba * BLOCK_SIZE <= Z.of_nat (length _io) ->
  Z.of_nat (length data) = len * BLOCK_SIZE ->
  let written := onWrite MassStorageLogicalUnitDummy lba data _io in
  snd written = Ok tt /\
  onRead MassStorageLogicalUnitDummy lba len (fst written)
  = (fst written, Ok data).
Proof.
  intros H0 Hin Hlen written. subst written.
  split; [reflexivity|].
  assert (Hl : 0 <= len) by (unfold BLOCK_SIZE in *; lia).
  rewrite (surjective_pairing (onRead _ _ _ _)).
  rewrite (Dummy_onRead_eq lba len _ Hl).
  rewrite (Dummy_onWrite_eq lba data _io H0).
  f_equal. f_equal.
  replace (Z.to_nat (len * BLOCK_SIZE)) with (length data) by lia.
  apply py_slice_after_assign. lia.
Qed.

Lemma Dummy_write_then_read_witness :
  let data := repeat x41 512 in
  let written :=
    onWrite MassStorageLogicalUnitDummy 1 data (repeat x00 2048) in
  snd written = Ok tt /\
  onRead MassStorageLogicalUnitDummy 1 1 (fst written)
  = (fst written, Ok data).
Proof.
  intros data written.
  apply (Dummy_write_then_read 1 1 data (repeat x00 2048)).
  - lia.
  - rewrite repeat_length. unfold BLOCK_SIZE. lia.
  - unfold data. rewrite repeat_length. reflexivity.
Defined.

(** A write that lies within the store leaves its size and the bytes
    before and after the written range as they were; a write that runs
    past the end with some data makes the store longer, while the capacity that the
    device reports stays the same. *)
Theorem Dummy_write_bounds (lba : Z) (data _io : bytes) :
  0 <= lba ->
  let offset := Z.to_nat (lba * BLOCK_SIZE) in
  let _io' := fst (onWrite MassStorageLogicalUnitDummy lba data _io) in
  ((offset + length data <= length _io)%nat ->
   length _io' = length _io /\
   firstn offset _io' = firstn offset _io /\
   skipn (offset + length data) _io' = skipn (offset + length data) _io) /\
  ((length _io < offset + length data)%nat -> data <> [] ->
   (length _io < length _io')%nat) /\
  snd (onReadCapacity MassStorageLogicalUnitDummy _io')
  = snd (onReadCapacity MassStorageLogicalUnitDummy _io).
Proof.
  intros H0 offset _io'. subst _io'.
  rewrite (Dummy_onWrite_eq lba data _io H0). fold offset.
  split; [|split; [|reflexivity]].
  - intros Hin.
    assert (Hf : length (firstn offset _io) = offset)
      by (rewrite length_firstn; lia).
    split; [rewrite py_slice_assign_length; lia|]. split.
    + rewrite firstn_app, Hf, Nat.sub_diag. cbn [firstn].
      rewrite app_nil_r. apply firstn_all2. lia.
    + rewrite skipn_app, Hf.
      rewrite (skipn_all2 (n := (offset + length data)%nat)
                 (firstn offset _io)) by lia.
      cbn [app]. replace (offset + length data - offset)%nat
        with (length data) by lia.
      rewrite skipn_app, Nat.sub_diag, skipn_all. reflexivity.
  - intros Hout Hne. rewrite py_slice_assign_length.
    destruct data; [congruence | cbn [length] in *; lia].
Qed.

Lemma Dummy_write_bounds_witness :
  let _io := repeat x00 1024 in
  let inside := fst (onWrite MassStorageLogicalUnitDummy 1 (repeat x41 512) _io) in
  let outside := fst (onWrite MassStorageLogicalUnitDummy 2 (repeat x41 512) _io) in
  length inside = 1024%nat /\ (1024 < length outside)%nat.
Proof.
  intros _io inside outside. split.
  - apply (Dummy_write_bounds 1 (repeat x41 512) _io); [lia|].
    reflexivity.
  - apply (Dummy_write_bounds 2 (repeat x41 512) _io).
    + lia.
    + unfold _io. rewrite !repeat_length. vm_compute. lia.
    + discriminate.
Defined.

(** A read of [len] blocks at block [lba] leaves the store as it is and
    returns the bytes of the store from byte [lba * BLOCK_SIZE] on, at most
    [len * BLOCK_SIZE] of them: byte [i] of the result is byte
    [lba * BLOCK_SIZE + i] of the store.  These are all the blocks asked
    for when they lie within the store; past the end the read returns what
    is left of the store, possibly nothing, without raising. *)
Theorem Dummy_read_length (lba len : Z) (_io : bytes) :
  0 <= lba -> 0 <= len ->
  let offset := Z.to_nat (lba * BLOCK_SIZE) in
  let size := Z.to_nat (len * BLOCK_SIZE) in
  let data := firstn size (skipn offset _io) in
  onRead MassStorageLogicalUnitDummy lba len _io = (_io, Ok data) /\
  length data = Nat.min size (length _io - offset) /\
  (forall i : nat, (i < length data)%nat ->
     nth_error data i = nth_error _io (offset + i)) /\
  (lba * BLOCK_SIZE + len * BLOCK_SIZE <= Z.of_nat (length _io) ->
   Z.of_nat (length data) = len * BLOCK_SIZE).
Proof.
  intros H0 Hl offset size data.
  assert (L : length data = Nat.min size (length _io - offset))
    by (unfold data; rewrite length_firstn, length_skipn; reflexivity).
  split; [|split; [exact L | split]].
  - rewrite (surjective_pairing (onRead _ _ _ _)).
    rewrite (Dummy_onRead_eq lba len _io Hl). reflexivity.
  - intros i Hi. unfold data. rewrite nth_error_firstn.
    destruct (Nat.ltb_spec i size); [|lia].
    apply nth_error_skipn.
  - rewrite L. unfold offset, size, BLOCK_SIZE. intros Hin. lia.
Qed.

Lemma Dummy_read_length_witness :
  let _io := repeat x00 512 ++ repeat x41 512 in
  onRead MassStorageLogicalUnitDummy 1 2 _io = (_io, Ok (repeat x41 512)) /\
  onRead MassStorageLogicalUnitDummy 0 1 _io = (_io, Ok (repeat x00 512)) /\
  onRead MassStorageLogicalUnitDummy 2 1 _io = (_io, Ok []).
Proof.
  intros _io. split; [|split].
  - exact (proj1 (Dummy_read_length 1 2 _io ltac:(lia) ltac:(lia))).
  - exact (proj1 (Dummy_read_length 0 1 _io ltac:(lia) ltac:(lia))).
  - exact (proj1 (Dummy_read_length 2 1 _io ltac:(lia) ltac:(lia))).
Defined.

(** The capacity that the demonstration device reports, a last block
    address and a block size, is the size of the store it starts with. *)
Theorem Dummy_capacity (_io : bytes) :
  exists last_lba block_size,
    onReadCapacity MassStorageLogicalUnitDummy _io
    = (_io, Ok (last_lba, block_size)) /\
    (last_lba + 1) * block_size
    = Z.of_nat (length MassStorageLogicalUnitDummy_io) /\
    0 <= last_lba < 2 ^ 32 /\ 0 <= block_size < 2 ^ 32.
Proof.
  exists (LBA_COUNT - 1), BLOCK_SIZE. split; [reflexivity|].
  unfold MassStorageLogicalUnitDummy_io. rewrite repeat_length.
  rewrite Z2Nat.id by (vm_compute; discriminate).
  split; [vm_compute; reflexivity|].
  vm_compute. intuition discriminate.
Qed.

(** Write(10) and then Read(10) of the same blocks through [onCommand], on
    a unit of the demonstration class: the write returns nothing and
    leaves the pending sense alone, the read returns the data written. *)
Theorem Dummy_write10_read10 (lu : LogicalUnit bytes) (cbw_w cbw_r : CBW.t)
  (data : bytes) :
  lu_class lu = MassStorageLogicalUnitDummy ->
  length (parameters (CBW.CBWCB cbw_w)) = 15%nat ->
  command (CBW.CBWCB cbw_w) = SCSI_CMD_WRITE10 ->
  CBW.bCBWCBLength cbw_w = 10 ->
  length (parameters (CBW.CBWCB cbw_r)) = 15%nat ->
  command (CBW.CBWCB cbw_r) = SCSI_CMD_READ10 ->
  CBW.bCBWCBLength cbw_r = 10 ->
  let lba :=
    field_get SCSIParametersIO10 "lba" (parameters (CBW.CBWCB cbw_w)) in
  field_get SCSIParametersIO10 "lba" (parameters (CBW.CBWCB cbw_r)) = lba ->
  Z.of_nat (length data)
  = field_get SCSIParametersIO10 "transfer_length"
      (parameters (CBW.CBWCB cbw_r)) * BLOCK_SIZE ->
  lba * BLOCK_SIZE <= Z.of_nat (length (backend lu)) ->
  let lu1 := fst (onCommand cbw_w (Some data) lu) in
  snd (onCommand cbw_w (Some data) lu) = Ok None /\
  sense lu1 = sense lu /\
  onCommand cbw_r None lu1 = (lu1, Ok (Some (RespBytes data))).
Proof.
  intros Hcls Hlw Hcw Hbw Hlr Hcr Hbr lba Hlba Hlen Hin lu1. subst lu1.
  rewrite (onCommand_write10_eq lu cbw_w data Hlw Hcw Hbw).
  rewrite (onCommand_read10_eq _ cbw_r None Hlr Hcr Hbr).
  rewrite Hlba. fold lba.
  set (tl := field_get SCSIParametersIO10 "transfer_length"
               (parameters (CBW.CBWCB cbw_r))) in *.
  assert (H0 : 0 <= lba) by apply field_get_nonneg.
  assert (Ht : 0 <= tl) by apply field_get_nonneg.
  destruct lu as [c s b]. cbn [lu_class backend] in *. subst c.
  unfold bind, call, ret.
  cbn [lu_class backend sense fst snd onWrite onRead
       MassStorageLogicalUnitDummy].
  split; [reflexivity|]. split; [reflexivity|].
  f_equal. f_equal. f_equal. f_equal.
  unfold py_slice, py_slice_assign.
  replace (Z.to_nat (lba * BLOCK_SIZE + tl * BLOCK_SIZE - lba * BLOCK_SIZE))
    with (length data) by lia.
  rewrite Z2Nat.inj_add, Nat2Z.id by (unfold BLOCK_SIZE; lia).
  apply py_slice_after_assign. lia.
Qed.

Lemma Dummy_write10_read10_witness :
  let lu := {| lu_class := MassStorageLogicalUnitDummy;
               sense := None;
               backend := repeat x00 2048 |} in
  let cbw_w := io10_cbw SCSI_CMD_WRITE10 1 512 0 1 1 in
  let cbw_r := io10_cbw SCSI_CMD_READ10 2 512 0x80 1 1 in
  let data := repeat x41 512 in
  let lu1 := fst (onCommand cbw_w (Some data) lu) in
  snd (onCommand cbw_w (Some data) lu) = Ok None /\
  sense lu1 = sense lu /\
  onCommand cbw_r None lu1 = (lu1, Ok (Some (RespBytes data))).
Proof.
  intros lu cbw_w cbw_r data.
  apply (Dummy_write10_read10 lu cbw_w cbw_r data); try reflexivity.
  vm_compute. discriminate.
Defined.

(** ** The session of the transport *)

Section Session.

Context {B : Type}.
Implicit Types (f : MassStorageFunction B) (lu : LogicalUnit B).
Implicit Types (cbw : CBW.t) (data : bytes).

Lemma keeps_session_ret {A} (a : A) : keeps_session (B := B) (ret a).
Proof. intros f. reflexivity. Qed.

Lemma keeps_session_bind {A C} (m : SE (MassStorageFunction B) A)
  (k : A -> SE (MassStorageFunction B) C) :
  keeps_session m -> (forall a, keeps_session (k a)) ->
  keeps_session (bind m k).
Proof.
  intros Hm Hk f. unfold bind.
  specialize (Hm f). destruct (m f) as [f1 [a|e]]; cbn [fst] in *.
  - now rewrite Hk.
  - exact Hm.
Qed.

Lemma keeps_session_try {A} (m : SE (MassStorageFunction B) A)
  (h : exn -> SE (MassStorageFunction B) A) :
  keeps_session m -> (forall e, keeps_session (h e)) ->
  keeps_session (try_except m h).
Proof.
  intros Hm Hh f. unfold try_except.
  specialize (Hm f). destruct (m f) as [f1 [a|e]]; cbn [fst] in *.
  - exact Hm.
  - now rewrite Hh.
Qed.

Lemma keeps_session_ep_write (ep : Z) (o : Written) :
  keeps_session (B := B) (ep_write ep o).
Proof.
  intros f. unfold ep_write.
  destruct (write_faults f) as [|[e|] rest]; reflexivity.
Qed.

Lemma keeps_session_ep_halt (ep : Z) : keeps_session (B := B) (ep_halt ep).
Proof. intros f. reflexivity. Qed.

Lemma keeps_session_halts :
  keeps_session (B := B) (bind (ep_halt 1) (fun _ => ep_halt 2)).
Proof.
  apply keeps_session_bind; [|intros _]; apply keeps_session_ep_halt.
Qed.

Lemma keeps_session_on_unit {A} (lun : Z) (m : SE (LogicalUnit B) A) :
  keeps_session (on_unit lun m).
Proof.
  intros f. unfold on_unit.
  destruct ((0 <=? lun) && (lun <? Z.of_nat (length (_logical_units f))));
    [|reflexivity].
  destruct (nth_error (_logical_units f) (Z.to_nat lun)); [|reflexivity].
  destruct (m l). reflexivity.
Qed.

Lemma keeps_session_processCBW cbw (payload : option bytes) :
  keeps_session (B := B) (_processCBW cbw payload).
Proof.
  unfold _processCBW. cbv zeta.
  apply keeps_session_try.
  - apply keeps_session_bind; [apply keeps_session_on_unit|].
    intros [r|];
      (apply keeps_session_bind;
       [| intros _; apply keeps_session_ep_write]).
    + apply keeps_session_ep_write.
    + apply keeps_session_ret.
  - intros e.
    destruct e;
      (apply keeps_session_bind;
       [apply keeps_session_on_unit
       | intros _; apply keeps_session_ep_write]).
Qed.

Lemma session_eq f1 f2 :
  session f1 = session f2 ->
  _receiving_length f1 = _receiving_length f2 /\
  _received_data f1 = _received_data f2 /\
  _current_cbw f1 = _current_cbw f2.
Proof.
  unfold session. intros H. injection H as H1 H2 H3. auto.
Qed.

(** The completion of an OUT packet, case by case. *)
Lemma out_complete_overflow f data (status : Z) :
  c_int_fits (- status) = false ->
  _onOutEndpointComplete data status f = (f, Raise OverflowError).
Proof.
  intros H. unfold _onOutEndpointComplete, os_strerror.
  rewrite H. reflexivity.
Qed.

Lemma out_complete_fault f data (status : Z) :
  status <> 0 ->
  c_int_fits (- status) = true ->
  _onOutEndpointComplete data status f
  = (with_endpoints (endpoint_trace f ++ [EpHalt 1; EpHalt 2])
       (write_faults f) f, Raise (IOError (- status))).
Proof.
  intros H Hfit. unfold _onOutEndpointComplete.
  rewrite (strerror_fits status Hfit), bind_lift_ok. cbv beta.
  destruct (Z.eqb_spec status 0); [contradiction|].
  cbn. rewrite <- app_assoc. reflexivity.
Qed.

Lemma out_complete_idle f data cbw :
  _receiving_length f = 0 ->
  CBW.from_buffer data = Ok cbw ->
  CBW.dCBWSignature cbw = USBMS_CBW_MAGIC ->
  _onOutEndpointComplete data 0 f
  = if (CBW.dCBWDataTransferLength cbw =? 0)
       || (Z.land (CBW.bmCBWFlags cbw) USBMS_CBW_DIR_MASK =? USBMS_CBW_DIR_IN)
    then try_except (_processCBW cbw None)
           (fun _ => bind (ep_halt 1) (fun _ => ep_halt 2)) f
    else (with_session (CBW.dCBWDataTransferLength cbw) [] (Some cbw) f,
          Ok tt).
Proof.
  intros Hr Hb Hs.
  unfold _onOutEndpointComplete.
  rewrite strerror_0, bind_lift_ok. cbv beta. cbn [Z.eqb negb].
  unfold try_except at 1. unfold bind at 1. unfold get.
  rewrite Hr. cbn [Z.eqb].
  unfold bind at 1, lift. rewrite Hb, Hs. rewrite Z.eqb_refl. cbn [negb].
  destruct ((CBW.dCBWDataTransferLength cbw =? 0)
            || (Z.land (CBW.bmCBWFlags cbw) USBMS_CBW_DIR_MASK
                =? USBMS_CBW_DIR_IN)); [reflexivity|].
  unfold CBW.from_buffer_copy, bind, modify, lift.
  rewrite Hb. reflexivity.
Qed.

Lemma out_complete_receiving f data cbw :
  _receiving_length f <> 0 ->
  _current_cbw f = Some cbw ->
  _onOutEndpointComplete data 0 f
  = if Z.of_nat (length (_received_data f ++ data)) =? _receiving_length f
    then try_except (_processCBW cbw (Some (_received_data f ++ data)))
           (fun _ => bind (ep_halt 1) (fun _ => ep_halt 2))
           (with_session 0 (_received_data f ++ data) (Some cbw) f)
    else (with_session (_receiving_length f) (_received_data f ++ data)
            (Some cbw) f, Ok tt).
Proof.
  intros Hr Hc.
  unfold _onOutEndpointComplete.
  rewrite strerror_0, bind_lift_ok. cbv beta. cbn [Z.eqb negb].
  unfold try_except at 1. unfold bind at 1. unfold get.
  destruct (Z.eqb_spec (_receiving_length f) 0); [contradiction|].
  unfold bind at 1, modify. unfold bind at 1.
  cbn [_current_cbw with_session _received_data _receiving_length].
  rewrite Hc.
  destruct (Z.of_nat (length (_received_data f ++ data))
            =? _receiving_length f); reflexivity.
Qed.

Lemma out_complete_consistent f data (status : Z) :
  session_consistent f ->
  session_consistent (fst (_onOutEndpointComplete data status f)).
Proof.
  intros Hc.
  destruct (c_int_fits (- status)) eqn:Hfit;
    [|rewrite out_complete_overflow by exact Hfit; exact Hc].
  destruct (Z.eq_dec status 0) as [->|Hs];
    [|rewrite out_complete_fault by assumption; exact Hc].
  destruct (Z.eq_dec (_receiving_length f) 0) as [Hr|Hr].
  - destruct (CBW.from_buffer data) as [cbw|e] eqn:Hb.
    + destruct (Z.eq_dec (CBW.dCBWSignature cbw) USBMS_CBW_MAGIC) as [Hm|Hm].
      * rewrite (out_complete_idle f data cbw Hr Hb Hm).
        destruct (Z.eqb_spec (CBW.dCBWDataTransferLength cbw) 0) as [Hd|Hd];
          cbn [orb].
        -- left.
           pose proof (keeps_session_try _ _
                         (keeps_session_processCBW cbw None)
                         (fun _ => keeps_session_halts) f) as K.
           apply session_eq in K. destruct K as [K _]. congruence.
        -- destruct (Z.land (CBW.bmCBWFlags cbw) USBMS_CBW_DIR_MASK
                     =? USBMS_CBW_DIR_IN).
           ++ left.
              pose proof (keeps_session_try _ _
                            (keeps_session_processCBW cbw None)
                            (fun _ => keeps_session_halts) f) as K.
              apply session_eq in K. destruct K as [K _]. congruence.
           ++ right. exists cbw. cbn.
              destruct (CBW_from_buffer_wf data cbw Hb)
                as (_ & _ & Hrange & _).
              repeat split; try reflexivity. lia.
      * left.
        unfold _onOutEndpointComplete.
  rewrite strerror_0, bind_lift_ok. cbv beta. cbn [Z.eqb negb].
        unfold try_except at 1. unfold bind at 1. unfold get.
        rewrite Hr. cbn [Z.eqb]. unfold bind at 1, lift. rewrite Hb.
        destruct (Z.eqb_spec (CBW.dCBWSignature cbw) USBMS_CBW_MAGIC);
          [contradiction|].
        cbn. exact Hr.
    + left.
      unfold _onOutEndpointComplete.
  rewrite strerror_0, bind_lift_ok. cbv beta. cbn [Z.eqb negb].
      unfold try_except at 1. unfold bind at 1. unfold get.
      rewrite Hr. cbn [Z.eqb]. unfold bind at 1, lift. rewrite Hb.
      cbn. exact Hr.
  - destruct Hc as [Hc|[cbw (Hcur & Hlen & Hpos)]]; [contradiction|].
    rewrite (out_complete_receiving f data cbw Hr Hcur).
    destruct (Z.of_nat (length (_received_data f ++ data))
              =? _receiving_length f).
    + left.
      pose proof (keeps_session_try _ _
                    (keeps_session_processCBW cbw
                       (Some (_received_data f ++ data)))
                    (fun _ => keeps_session_halts)
                    (with_session 0 (_received_data f ++ data)
                       (Some cbw) f)) as K.
      apply session_eq in K. destruct K as [K _]. rewrite K. reflexivity.
    + right. exists cbw. cbn. auto.
Qed.

End Session.

Section SessionProperties.

Context {B : Type}.
Implicit Types (f : MassStorageFunction B) (lu : LogicalUnit B).
Implicit Types (cbw : CBW.t) (data : bytes).

Lemma with_session_self f :
  with_session (_receiving_length f) (_received_data f) (_current_cbw f) f = f.
Proof. destruct f. reflexivity. Qed.

Lemma deliver_app (a b : list bytes) f :
  deliver (a ++ b) f = deliver b (deliver a f).
Proof.
  revert f. induction a as [|p a IH]; intros f; [reflexivity|].
  cbn [app deliver]. apply IH.
Qed.

(** While the data received differs in length from what is awaited, the
    packets are stored and nothing else happens. *)
Lemma deliver_accumulate f cbw (packets : list bytes) :
  _receiving_length f <> 0 ->
  _current_cbw f = Some cbw ->
  (forall k,
     (1 <= k <= length packets)%nat ->
     Z.of_nat (length (_received_data f ++ concat (firstn k packets)))
     <> _receiving_length f) ->
  deliver packets f
  = with_session (_receiving_length f)
      (_received_data f ++ concat packets) (Some cbw) f.
Proof.
  revert f. induction packets as [|p ps IH]; intros f Hr Hc Hk.
  - cbn [deliver concat]. rewrite app_nil_r, <- Hc.
    symmetry. apply with_session_self.
  - cbn [deliver]. rewrite (out_complete_receiving f p cbw Hr Hc).
    assert (H1 : Z.of_nat (length (_received_data f ++ p))
                 <> _receiving_length f).
    { specialize (Hk 1%nat). cbn [firstn concat length] in Hk.
      rewrite app_nil_r in Hk. apply Hk. lia. }
    destruct (Z.eqb_spec (Z.of_nat (length (_received_data f ++ p)))
                (_receiving_length f)); [contradiction|].
    cbn [fst]. rewrite IH.
    + cbn [with_session _receiving_length _received_data _current_cbw
           _logical_units endpoint_trace write_faults concat].
      rewrite <- app_assoc. reflexivity.
    + exact Hr.
    + reflexivity.
    + intros k Hkr.
      cbn [with_session _receiving_length _received_data].
      specialize (Hk (S k)). cbn [firstn concat length] in Hk.
      rewrite <- app_assoc. apply Hk. lia.
Qed.

Lemma length_concat_firstn_le (packets : list bytes) (k : nat) :
  (length (concat (firstn k packets)) <= length (concat packets))%nat.
Proof.
  revert k. induction packets as [|p ps IH]; intros [|k];
    cbn [firstn concat length]; try lia.
  rewrite !length_app. specialize (IH k). lia.
Qed.

(** A CBW that announces an OUT data phase is kept until the packets that
    follow add up to the announced length, however the data is cut into
    packets; the command is then run once, on the whole data, and its
    cycle is completed as usual. *)
Theorem data_phase_reassembly f data cbw (packets : list bytes)
  (last : bytes) lu :
  _receiving_length f = 0 ->
  CBW.from_buffer data = Ok cbw ->
  CBW.dCBWSignature cbw = USBMS_CBW_MAGIC ->
  CBW.dCBWDataTransferLength cbw <> 0 ->
  Z.land (CBW.bmCBWFlags cbw) USBMS_CBW_DIR_MASK <> USBMS_CBW_DIR_IN ->
  last <> [] ->
  Z.of_nat (length (concat packets ++ last))
  = CBW.dCBWDataTransferLength cbw ->
  nth_error (_logical_units f) (Z.to_nat (CBW.bCBWLUN cbw)) = Some lu ->
  write_faults f = [] ->
  deliver (data :: packets) f
  = with_session (CBW.dCBWDataTransferLength cbw) (concat packets)
      (Some cbw) f /\
  deliver (data :: packets ++ [last]) f
  = cycle_result
      (with_session 0 (concat packets ++ last) (Some cbw) f) cbw
      (onCommand cbw (Some (concat packets ++ last)) lu).
Proof.
  intros Hr Hb Hs Hd Hf Hl Hlen Hn Hw.
  pose proof (CBW_from_buffer_LUN_nonneg _ _ Hb) as H0.
  assert (Hfirst : fst (_onOutEndpointComplete data 0 f)
                   = with_session (CBW.dCBWDataTransferLength cbw) []
                       (Some cbw) f).
  { rewrite (out_complete_idle f data cbw Hr Hb Hs).
    destruct (Z.eqb_spec (CBW.dCBWDataTransferLength cbw) 0);
      [contradiction|].
    destruct (Z.eqb_spec (Z.land (CBW.bmCBWFlags cbw) USBMS_CBW_DIR_MASK)
                USBMS_CBW_DIR_IN); [contradiction|].
    reflexivity. }
  assert (Hacc : deliver (data :: packets) f
                 = with_session (CBW.dCBWDataTransferLength cbw)
                     (concat packets) (Some cbw) f).
  { cbn [deliver]. rewrite Hfirst.
    rewrite (deliver_accumulate _ cbw packets).
    - reflexivity.
    - exact Hd.
    - reflexivity.
    - intros k Hk.
      cbn [with_session _receiving_length _received_data app].
      pose proof (length_concat_firstn_le packets k).
      rewrite length_app in Hlen.
      destruct last; [congruence|]. cbn [length] in Hlen. lia. }
  split; [exact Hacc|].
  change (data :: packets ++ [last]) with ((data :: packets) ++ [last]).
  rewrite deliver_app, Hacc. cbn [deliver].
  rewrite (out_complete_receiving _ last cbw) by (assumption || reflexivity).
  cbn [with_session _receiving_length _received_data _current_cbw
       _logical_units endpoint_trace write_faults].
  rewrite Hlen, Z.eqb_refl.
  unfold try_except.
  rewrite (processCBW_no_fault _ cbw _ lu H0) by assumption.
  reflexivity.
Qed.

(** Once more data has arrived than the CBW announced, the command is
    never run: every further packet is stored and no endpoint is written
    or halted. *)
Theorem data_phase_overrun f cbw (p : bytes) (packets : list bytes) :
  _receiving_length f <> 0 ->
  _current_cbw f = Some cbw ->
  _receiving_length f < Z.of_nat (length (_received_data f ++ p)) ->
  deliver (p :: packets) f
  = with_session (_receiving_length f)
      (_received_data f ++ concat (p :: packets)) (Some cbw) f.
Proof.
  intros Hr Hc Hover.
  apply deliver_accumulate; try assumption.
  intros [|k] Hk; [lia|].
  cbn [firstn concat]. rewrite app_assoc, length_app.
  rewrite length_app in Hover. rewrite !length_app. lia.
Qed.

End SessionProperties.

Section CycleProperties.

Context {B : Type}.
Implicit Types (f : MassStorageFunction B) (lu : LogicalUnit B).
Implicit Types (cbw : CBW.t) (data : bytes).


Lemma reset_eq f :
  reset f
  = match reset_all (_logical_units f) with
    | (lus, Ok _) => (with_session 0 [] None (with_logical_units lus f), Ok tt)
    | (lus, Raise e) => (with_logical_units lus f, Raise e)
    end.
Proof.
  unfold reset, bind, modify.
  destruct (reset_all (_logical_units f)) as [lus [u|e]]; reflexivity.
Qed.


Lemma reset_consistent f :
  session_consistent f -> session_consistent (fst (reset f)).
Proof.
  intros Hc. rewrite reset_eq.
  destruct (reset_all (_logical_units f)) as [lus [u|e]]; cbn [fst].
  - left. reflexivity.
  - exact Hc.
Qed.

(** At every point of the life of an instance, either no data phase is
    pending or the CBW that opened it is at hand and the length awaited is
    the positive length which that CBW announced: the transport cannot
    wait for data without knowing for which command. *)
Theorem reachable_session_consistent
  (logical_units : list (unit -> LogicalUnit B)) f :
  Reachable logical_units f -> session_consistent f.
Proof.
  induction 1 as [f Hi | f data status _ IH | f _ IH | f faults _ IH].
  - unfold MassStorageFunction_init in Hi.
    destruct (length logical_units =? 0)%nat; [discriminate Hi|].
    injection Hi as <-. left. reflexivity.
  - now apply out_complete_consistent.
  - now apply reset_consistent.
  - exact IH.
Qed.

(** The completion of an OUT transfer with the shutdown status is ignored.
    With any other status that is not 0 and whose negation is a C [int],
    the two bulk endpoints are halted and [IOError] is raised, the session
    and the units being left as they are, whatever the session was doing.
    With a status whose negation is not a C [int], printing its message
    raises [OverflowError] before anything is done: no endpoint is
    halted. *)
Theorem onComplete_status f data (status : Z) :
  (status = - ESHUTDOWN -> onComplete data status f = (f, Ok tt)) /\
  (status <> 0 -> status <> - ESHUTDOWN ->
   - 2 ^ 31 <= - status < 2 ^ 31 ->
   onComplete data status f
   = (with_endpoints (endpoint_trace f ++ [EpHalt 1; EpHalt 2])
        (write_faults f) f, Raise (IOError (- status)))) /\
  (- status < - 2 ^ 31 \/ 2 ^ 31 <= - status ->
   onComplete data status f = (f, Raise OverflowError)).
Proof.
  unfold onComplete. split; [|split].
  - intros ->. reflexivity.
  - intros H0 Hs Hfit.
    destruct (Z.eqb_spec status (- ESHUTDOWN)); [contradiction|].
    apply out_complete_fault; [exact H0|].
    unfold c_int_fits.
    destruct (Z.leb_spec (- 2 ^ 31) (- status)); [|lia].
    destruct (Z.ltb_spec (- status) (2 ^ 31)); [reflexivity | lia].
  - intros Hover.
    destruct (Z.eqb_spec status (- ESHUTDOWN)) as [E|_];
      [unfold ESHUTDOWN in E; lia|].
    apply out_complete_overflow. unfold c_int_fits.
    destruct (Z.leb_spec (- 2 ^ 31) (- status)); [|reflexivity].
    destruct (Z.ltb_spec (- status) (2 ^ 31)); [lia | reflexivity].
Qed.

Lemma on_unit_out_of_range {A} f (lun : Z) (m : SE (LogicalUnit B) A) :
  Z.of_nat (length (_logical_units f)) <= lun ->
  on_unit lun m f = (f, Raise IndexError).
Proof.
  intros H. unfold on_unit.
  destruct (Z.ltb_spec lun (Z.of_nat (length (_logical_units f)))); [lia|].
  now rewrite andb_false_r.
Qed.

(** A CBW that names a logical unit which does not exist is not answered:
    no CSW is written, the two bulk endpoints are halted, and no unit is
    touched. *)
Theorem out_complete_lun_out_of_range f data cbw :
  _receiving_length f = 0 ->
  CBW.from_buffer data = Ok cbw ->
  CBW.dCBWSignature cbw = USBMS_CBW_MAGIC ->
  CBW.dCBWDataTransferLength cbw = 0 \/
  Z.land (CBW.bmCBWFlags cbw) USBMS_CBW_DIR_MASK = USBMS_CBW_DIR_IN ->
  Z.of_nat (length (_logical_units f)) <= CBW.bCBWLUN cbw ->
  _onOutEndpointComplete data 0 f
  = (with_endpoints (endpoint_trace f ++ [EpHalt 1; EpHalt 2])
       (write_faults f) f, Ok tt).
Proof.
  intros Hr Hb Hs Hd Hl.
  rewrite (out_complete_idle f data cbw Hr Hb Hs).
  assert (E : (CBW.dCBWDataTransferLength cbw =? 0)
              || (Z.land (CBW.bmCBWFlags cbw) USBMS_CBW_DIR_MASK
                  =? USBMS_CBW_DIR_IN) = true).
  { apply orb_true_iff. destruct Hd as [Hd|Hd]; [left|right];
      now apply Z.eqb_eq. }
  rewrite E.
  unfold try_except at 1, _processCBW. cbv zeta.
  unfold try_except, bind.
  rewrite !on_unit_out_of_range by exact Hl.
  unfold ep_halt, modify. cbn. rewrite <- app_assoc. reflexivity.
Qed.

Lemma ep_write_fault f (ep : Z) (o : Written) (e : exn)
  (rest : list (option exn)) :
  write_faults f = Some e :: rest ->
  ep_write ep o f = (with_endpoints (endpoint_trace f) rest f, Raise e).
Proof. intros H. unfold ep_write. now rewrite H. Qed.

(** When the next two writes on the IN endpoint fail, a command cycle
    writes nothing at all, neither a response nor a CSW, and ends with the
    two bulk endpoints halted. *)
Theorem cycle_two_write_faults f data cbw lu (e1 e2 : exn)
  (rest : list (option exn)) :
  _receiving_length f = 0 ->
  CBW.from_buffer data = Ok cbw ->
  CBW.dCBWSignature cbw = USBMS_CBW_MAGIC ->
  CBW.dCBWDataTransferLength cbw = 0 ->
  nth_error (_logical_units f) (Z.to_nat (CBW.bCBWLUN cbw)) = Some lu ->
  write_faults f = Some e1 :: Some e2 :: rest ->
  endpoint_trace (fst (_onOutEndpointComplete data 0 f))
  = endpoint_trace f ++ [EpHalt 1; EpHalt 2] /\
  snd (_onOutEndpointComplete data 0 f) = Ok tt.
Proof.
  intros Hr Hb Hs Hd Hn Hw.
  pose proof (CBW_from_buffer_LUN_nonneg _ _ Hb) as H0.
  assert (Hlt : (Z.to_nat (CBW.bCBWLUN cbw)
                 < length (_logical_units f))%nat)
    by (apply nth_error_Some; congruence).
  rewrite (out_complete_dispatch f data cbw Hr Hb Hs Hd).
  unfold try_except at 1, _processCBW. cbv zeta.
  unfold try_except, bind.
  rewrite (on_unit_eq f _ _ lu H0 Hn).
  destruct (onCommand cbw None lu) as [lu' r]. cbn [fst snd].
  set (f1 := with_logical_units _ f).
  assert (Hw1 : write_faults f1 = Some e1 :: Some e2 :: rest) by exact Hw.
  assert (Hn1 : nth_error (_logical_units f1) (Z.to_nat (CBW.bCBWLUN cbw))
                = Some lu')
    by (unfold f1; cbn; now apply nth_error_list_update).
  destruct r as [[resp|]|e].
  - rewrite (ep_write_fault f1 1 _ e1 (Some e2 :: rest) Hw1).
    set (f2 := with_endpoints (endpoint_trace f1) (Some e2 :: rest) f1).
    destruct e1;
      (rewrite (on_unit_eq f2 _ _ lu' H0 Hn1); cbn [fst snd modify];
       rewrite (ep_write_fault _ 1 _ e2 rest) by reflexivity;
       cbn; rewrite <- app_assoc; split; reflexivity).
  - unfold ret.
    rewrite (ep_write_fault f1 1 _ e1 (Some e2 :: rest) Hw1).
    set (f2 := with_endpoints (endpoint_trace f1) (Some e2 :: rest) f1).
    destruct e1;
      (rewrite (on_unit_eq f2 _ _ lu' H0 Hn1); cbn [fst snd modify];
       rewrite (ep_write_fault _ 1 _ e2 rest) by reflexivity;
       cbn; rewrite <- app_assoc; split; reflexivity).
  - destruct e;
      (rewrite (on_unit_eq f1 _ _ lu' H0 Hn1); cbn [fst snd modify];
       rewrite (ep_write_fault _ 1 _ e1 (Some e2 :: rest)) by exact Hw;
       cbn; rewrite <- app_assoc; split; reflexivity).
Qed.

End CycleProperties.

Lemma map_list_update {A C : Type} (g : A -> C) (n : nat) (x : A)
  (l : list A) :
  map g (list_update n x l) = list_update n (g x) (map g l).
Proof.
  unfold list_update. rewrite map_app. cbn [map].
  now rewrite firstn_map, skipn_map.
Qed.

Lemma nth_error_list_update_other {A : Type} (n k : nat) (x : A)
  (l : list A) :
  (n < length l)%nat -> k <> n ->
  nth_error (list_update n x l) k = nth_error l k.
Proof.
  intros Hn Hk. unfold list_update.
  assert (Hf : length (firstn n l) = n) by (rewrite length_firstn; lia).
  destruct (Nat.lt_ge_cases k n) as [Hlt|Hge].
  - rewrite nth_error_app1 by lia. rewrite nth_error_firstn.
    destruct (Nat.ltb_spec k n); [reflexivity | lia].
  - rewrite nth_error_app2 by lia. rewrite Hf.
    destruct (k - n)%nat as [|j] eqn:E; [lia|].
    cbn [nth_error]. rewrite nth_error_skipn. f_equal. lia.
Qed.

Section CycleOutcome.

Context {B : Type}.
Implicit Types (f : MassStorageFunction B) (lu : LogicalUnit B).
Implicit Types (cbw : CBW.t).

(** A command cycle on an existing unit and working endpoints ends with
    one CSW, written last and preceded by at most the response of the
    command.  The CSW has the signature 0x53425355, the tag of the CBW and
    a residue of 0; its status is Good when the command returned, the
    status carried by the mass storage error that the command raised, and
    Phase Error for any other exception. *)
Theorem cycle_csw f cbw (payload : option bytes) lu :
  0 <= CBW.dCBWTag cbw < 2 ^ 32 ->
  0 <= CBW.bCBWLUN cbw ->
  nth_error (_logical_units f) (Z.to_nat (CBW.bCBWLUN cbw)) = Some lu ->
  write_faults f = [] ->
  exists ops csw,
    endpoint_trace (fst (_processCBW cbw payload f))
    = endpoint_trace f ++ ops ++ [EpWrite 1 (WCSW csw)] /\
    (ops = [] \/ exists r, ops = [EpWrite 1 (WResponse r)]) /\
    CSW.dCSWSignature csw = USBMS_CSW_MAGIC /\
    CSW.dCSWTag csw = CBW.dCBWTag cbw /\
    CSW.dCSWDataResidue csw = 0 /\
    CSW.bCSWStatus csw
    = match snd (onCommand cbw payload lu) with
      | Ok _ => USBMS_CSW_STATUS_GOOD
      | Raise (MassStorageError csw_status _) => csw_status mod 2 ^ 8
      | Raise _ => USBMS_CSW_STATUS_PHASE_ERROR
      end.
Proof.
  intros Ht H0 Hn Hw.
  rewrite (processCBW_no_fault f cbw payload lu H0 Hn Hw).
  unfold cycle_result. cbv zeta.
  assert (Etag : c_store 4 (CBW.dCBWTag cbw) = CBW.dCBWTag cbw)
    by (apply c_store_small; exact Ht).
  destruct (onCommand cbw payload lu) as [lu' [[r|]|e]]; cbn [fst snd].
  - exists [EpWrite 1 (WResponse r)]. eexists.
    split; [reflexivity|]. split; [right; eexists; reflexivity|].
    cbn. rewrite Etag. repeat split; reflexivity.
  - exists []. eexists.
    split; [reflexivity|]. split; [left; reflexivity|].
    cbn. rewrite Etag. repeat split; reflexivity.
  - destruct e;
      (exists []; eexists;
       split; [reflexivity|]; split; [left; reflexivity|];
       cbn; rewrite Etag; repeat split; reflexivity).
Qed.

(** After a command cycle on an existing unit and working endpoints, the
    pending sense of the addressed unit is what it was when the command
    returned, the sense carried by the mass storage error when the command
    raised one (none for a phase error), and none after any other
    exception; the other units are untouched. *)
Theorem cycle_sense f cbw (payload : option bytes) lu :
  0 <= CBW.bCBWLUN cbw ->
  nth_error (_logical_units f) (Z.to_nat (CBW.bCBWLUN cbw)) = Some lu ->
  write_faults f = [] ->
  let f' := fst (_processCBW cbw payload f) in
  map sense (_logical_units f')
  = list_update (Z.to_nat (CBW.bCBWLUN cbw))
      match snd (onCommand cbw payload lu) with
      | Ok _ => sense lu
      | Raise (MassStorageError _ err_sense) => err_sense
      | Raise _ => None
      end
      (map sense (_logical_units f)) /\
  (forall k,
     k <> Z.to_nat (CBW.bCBWLUN cbw) ->
     nth_error (_logical_units f') k = nth_error (_logical_units f) k).
Proof.
  intros H0 Hn Hw f'. subst f'.
  assert (Hlt : (Z.to_nat (CBW.bCBWLUN cbw)
                 < length (_logical_units f))%nat)
    by (apply nth_error_Some; congruence).
  rewrite (processCBW_no_fault f cbw payload lu H0 Hn Hw).
  unfold cycle_result. cbv zeta.
  destruct (keeps_sense_onCommand cbw payload lu) as [Hs _].
  destruct (onCommand cbw payload lu) as [lu' [[r|]|e]];
    cbn [fst snd] in *;
    try destruct e;
    cbn [_logical_units with_endpoints with_logical_units];
    (split;
     [rewrite map_list_update; cbn [sense set_sense]; congruence
     |intros k Hk; now apply nth_error_list_update_other]).
Qed.

(** A Bulk-Only Reset request (host to device, class, interface, request
    0xff) runs [reset] and answers without data; value, index and length
    are not looked at. *)
Theorem onSetup_reset f (request_type value index length : Z) :
  Z.land request_type USB_ENDPOINT_DIR_MASK = USB_DIR_OUT ->
  Z.land request_type USB_TYPE_MASK = USB_TYPE_CLASS ->
  Z.land request_type USB_RECIP_MASK = USB_RECIP_INTERFACE ->
  onSetup request_type USBMS_REQ_BBB_RESET value index length f
  = (fst (reset f),
     match snd (reset f) with
     | Ok _ => Ok (SetupHandled None)
     | Raise e => Raise e
     end).
Proof.
  intros Hd Ht Hi. unfold onSetup. rewrite Hd, Ht, Hi.
  rewrite !Z.eqb_refl. cbn [andb]. unfold bind, ret.
  destruct (reset f) as [f' [u|e]]; reflexivity.
Qed.

(** A Get Max LUN request (device to host, class, interface, request 0xfe)
    on a function of 1 to 256 logical units is answered, on endpoint 0, by
    one byte, the number of units minus one; the function is left as it
    is. *)
Theorem onSetup_get_max_lun f (request_type value index length : Z) :
  Z.land request_type USB_ENDPOINT_DIR_MASK = USB_DIR_IN ->
  Z.land request_type USB_TYPE_MASK = USB_TYPE_CLASS ->
  Z.land request_type USB_RECIP_MASK = USB_RECIP_INTERFACE ->
  (1 <= List.length (_logical_units f) <= 256)%nat ->
  onSetup request_type USBMS_REQ_BBB_GET_MAX_LUN value index length f
  = (f, Ok (SetupHandled
              (Some [byte_of_Z
                       (Z.of_nat (List.length (_logical_units f)) - 1)]))).
Proof.
  intros Hd Ht Hi Hn. unfold onSetup. rewrite Hd, Ht, Hi.
  change (USB_DIR_IN =? USB_DIR_OUT) with false.
  rewrite !Z.eqb_refl. cbn [andb]. unfold bind, get, lift, ret.
  unfold int_to_bytes_big, getMaxLUN.
  change (2 ^ (8 * Z.of_nat 1)) with 256.
  destruct (Z.leb_spec 0 (Z.of_nat (List.length (_logical_units f)) - 1));
    [|lia].
  destruct (Z.ltb_spec (Z.of_nat (List.length (_logical_units f)) - 1) 256);
    [|lia].
  reflexivity.
Qed.

(** A control request whose code is neither 0xfe nor 0xff, or that is not
    a class request to the interface, is handed to the parent class; the
    function is left as it is. *)
Theorem onSetup_other f (request_type request value index length : Z) :
  (request <> USBMS_REQ_BBB_RESET /\ request <> USBMS_REQ_BBB_GET_MAX_LUN) \/
  Z.land request_type USB_TYPE_MASK <> USB_TYPE_CLASS \/
  Z.land request_type USB_RECIP_MASK <> USB_RECIP_INTERFACE ->
  onSetup request_type request value index length f = (f, Ok SetupParent).
Proof.
  intros H. unfold onSetup.
  destruct (Z.eqb_spec (Z.land request_type USB_TYPE_MASK) USB_TYPE_CLASS);
    destruct (Z.eqb_spec (Z.land request_type USB_RECIP_MASK)
                USB_RECIP_INTERFACE);
    destruct (Z.eqb_spec request USBMS_REQ_BBB_RESET);
    destruct (Z.eqb_spec request USBMS_REQ_BBB_GET_MAX_LUN);
    rewrite ?andb_false_r; cbn [andb]; try reflexivity;
    exfalso; intuition congruence.
Qed.

End CycleOutcome.

(** ** The further properties on sample inputs *)

Lemma write10_without_data_witness :
  endpoint_trace
    (fst (_onOutEndpointComplete (CBW.to_bytes (write10_cbw 0)) 0
            default_function))
  = [EpWrite 1 (WCSW (CSW.simple 9 USBMS_CSW_STATUS_PHASE_ERROR 0))].
Proof.
  rewrite (write10_without_data default_function
             (CBW.to_bytes (write10_cbw 0)) (write10_cbw 0) default_unit)
    by reflexivity.
  reflexivity.
Defined.

Lemma onCommand_read_capacity_witness :
  onCommand (read_capacity_cbw x01) None default_unit
  = (default_unit,
     Raise (MassStorageIllegalRequestError SCSI_ASC_INVALID_FIELD_IN_CDB)) /\
  exists response,
    snd (onCommand (read_capacity_cbw x00) None default_unit)
    = Ok (Some (RespBytes response)) /\
    length response = 8%nat /\
    be_decode (firstn 4 response) = 0 /\
    be_decode (skipn 4 response) = 512.
Proof.
  split.
  - apply (onCommand_read_capacity default_unit (read_capacity_cbw x01) None);
      try reflexivity.
    vm_compute. discriminate.
  - apply (onCommand_read_capacity default_unit (read_capacity_cbw x00) None
             eq_refl eq_refl eq_refl); try reflexivity; lia.
Defined.


Lemma data_phase_reassembly_witness :
  let first := repeat x41 300 in
  let last := repeat x42 212 in
  deliver [CBW.to_bytes (write10_cbw 512); first] default_function
  = with_session 512 first (Some (write10_cbw 512)) default_function /\
  deliver [CBW.to_bytes (write10_cbw 512); first; last] default_function
  = cycle_result
      (with_session 0 (first ++ last) (Some (write10_cbw 512))
         default_function)
      (write10_cbw 512)
      (onCommand (write10_cbw 512) (Some (first ++ last)) default_unit).
Proof.
  intros first last.
  pose proof (data_phase_reassembly default_function
                (CBW.to_bytes (write10_cbw 512)) (write10_cbw 512)
                [first] last default_unit) as H.
  cbn [concat app] in H. rewrite app_nil_r in H.
  apply H; try reflexivity.
  - vm_compute. discriminate.
  - vm_compute. discriminate.
  - discriminate.
Defined.

Lemma data_phase_overrun_witness :
  let f := with_session 4 [x41; x42; x43] (Some (write10_cbw 4))
             default_function in
  deliver [[x44; x45]; [x46]] f
  = with_session 4 [x41; x42; x43; x44; x45; x46] (Some (write10_cbw 4))
      default_function.
Proof.
  intros f.
  apply (data_phase_overrun f (write10_cbw 4) [x44; x45] [[x46]]).
  - discriminate.
  - reflexivity.
  - simpl. lia.
Defined.


Lemma reachable_session_consistent_witness :
  session_consistent
    (fst (_onOutEndpointComplete (CBW.to_bytes (write10_cbw 512)) 0
            default_function)).
Proof.
  apply (reachable_session_consistent [fun _ => default_unit]).
  apply Reach_out. apply Reach_init. reflexivity.
Defined.

Lemma onComplete_status_witness :
  onComplete [] (- 108) default_function = (default_function, Ok tt) /\
  onComplete [] (- 5) default_function
  = (with_endpoints [EpHalt 1; EpHalt 2] [] default_function,
     Raise (IOError 5)) /\
  onComplete [] (- 2 ^ 31) default_function
  = (default_function, Raise OverflowError).
Proof.
  split; [|split].
  - apply (proj1 (onComplete_status default_function [] (- 108))).
    reflexivity.
  - apply (proj1 (proj2 (onComplete_status default_function [] (- 5))));
      [discriminate | discriminate | lia].
  - apply (proj2 (proj2 (onComplete_status default_function []
                           (- 2 ^ 31)))).
    right. lia.
Defined.

Lemma out_complete_lun_out_of_range_witness :
  _onOutEndpointComplete
    (CBW.to_bytes (make_cbw 5 0 0 3 6 SCSI_CMD_TEST_UNIT_READY [])) 0
    three_unit_function
  = (with_endpoints [EpHalt 1; EpHalt 2] [] three_unit_function, Ok tt).
Proof.
  apply (out_complete_lun_out_of_range three_unit_function
           (CBW.to_bytes (make_cbw 5 0 0 3 6 SCSI_CMD_TEST_UNIT_READY []))
           (make_cbw 5 0 0 3 6 SCSI_CMD_TEST_UNIT_READY []));
    try reflexivity.
  left. reflexivity.
Defined.

Lemma cycle_two_write_faults_witness :
  let f := with_endpoints [] [Some (IOError 5); Some (IOError 5)]
             default_function in
  endpoint_trace
    (fst (_onOutEndpointComplete (CBW.to_bytes test_unit_ready_cbw) 0 f))
  = [EpHalt 1; EpHalt 2] /\
  snd (_onOutEndpointComplete (CBW.to_bytes test_unit_ready_cbw) 0 f)
  = Ok tt.
Proof.
  intros f.
  apply (cycle_two_write_faults f (CBW.to_bytes test_unit_ready_cbw)
           test_unit_ready_cbw default_unit (IOError 5) (IOError 5) []);
    reflexivity.
Defined.

Lemma cycle_csw_witness :
  exists ops csw,
    endpoint_trace (fst (_processCBW read_format_capacity_cbw None
                           default_function))
    = [] ++ ops ++ [EpWrite 1 (WCSW csw)] /\
    (ops = [] \/ exists r, ops = [EpWrite 1 (WResponse r)]) /\
    CSW.dCSWSignature csw = USBMS_CSW_MAGIC /\
    CSW.dCSWTag csw = 1 /\
    CSW.dCSWDataResidue csw = 0 /\
    CSW.bCSWStatus csw = USBMS_CSW_STATUS_BAD.
Proof.
  apply (cycle_csw default_function read_format_capacity_cbw None
           default_unit); try reflexivity; simpl; lia.
Defined.

Lemma cycle_sense_witness :
  map sense
    (_logical_units
       (fst (_processCBW read_format_capacity_cbw None three_unit_function)))
  = [Some (SCSIResponseRequestSense.simple SCSI_SENSE_KEY_ILLEGAL_REQUEST
             SCSI_ASC_NONE); None; None].
Proof.
  apply (cycle_sense three_unit_function read_format_capacity_cbw None
           default_unit); reflexivity.
Defined.

Lemma onSetup_reset_witness :
  let f := with_session 4 [x41] (Some (write10_cbw 4)) default_function in
  onSetup 0x21 USBMS_REQ_BBB_RESET 0 0 0 f
  = (default_function, Ok (SetupHandled None)).
Proof.
  intros f.
  rewrite (onSetup_reset f 0x21 0 0 0) by reflexivity.
  reflexivity.
Defined.

Lemma onSetup_get_max_lun_witness :
  onSetup 0xa1 USBMS_REQ_BBB_GET_MAX_LUN 0 0 1 three_unit_function
  = (three_unit_function, Ok (SetupHandled (Some [x02]))).
Proof.
  apply (onSetup_get_max_lun three_unit_function 0xa1 0 0 1);
    try reflexivity.
  simpl. lia.
Defined.

Lemma onSetup_other_witness :
  onSetup 0xa1 0x00 0 0 0 default_function
  = (default_function, Ok SetupParent).
Proof.
  apply (onSetup_other default_function 0xa1 0x00 0 0 0).
  left. split; discriminate.
Defined.
